(** * pdf-json: the PDF to JSON converter (server/pdf_converter.py)

    A shallow embedding of the converter's request handler, its conversion
    function [process_pdf], its batch packager [create_zip_package] and the
    command-line entry [convert_pdf_to_json], together with the parts of the
    Python runtime they call: [str] operations, the [json] encoder and
    decoder, the temporary-file and [os.unlink] calls and the [zipfile]
    writer.

    Conventions.
    - A Python [str] is a list of code points ([N], below [0x110000]); a
      [bytes] object is a list of octets.
    - Python values that the handler builds or receives as JSON are values
      of [Json.value]; a [dict] is an association list in insertion order.
    - Code that can raise returns an [outcome]; code that touches the file
      system or the connection threads a [World]. *)

From Stdlib Require Import NArith ZArith List Lia Bool String Ascii.
From Stdlib Require DecimalFacts DecimalPos DecimalZ.
From stdpp Require Import gmap list.

Set Warnings "-register-all".

Local Open Scope N_scope.

(** ** Python strings *)

Module PyStr.

(** The code points of a string literal of the source. *)
Definition py (s : string) : list N :=
  map N_of_ascii (list_ascii_of_string s).

(** [chr] accepts exactly the code points below [0x110000]. *)
Definition is_codepoint (c : N) : Prop := c < 0x110000.

Definition is_high_surrogate (c : N) : bool := (0xd800 <=? c) && (c <=? 0xdbff).
Definition is_low_surrogate (c : N) : bool := (0xdc00 <=? c) && (c <=? 0xdfff).

(** Whether a high surrogate is directly followed by a low surrogate
    somewhere in the string: two code points that spell, in UTF-16, one
    code point past the basic plane. *)
Fixpoint adjacent_surrogates (s : list N) : bool :=
  match s with
  | c :: (c' :: _) as s' =>
      (is_high_surrogate c && is_low_surrogate c') || adjacent_surrogates s'
  | _ => false
  end.

Definition str_eqb (a b : list N) : bool := bool_decide (a = b).

(** [s.startswith(p)]. *)
Fixpoint startswith (p s : list N) : bool :=
  match p, s with
  | [], _ => true
  | _ :: _, [] => false
  | a :: p', b :: s' => (a =? b) && startswith p' s'
  end.

(** [p in s] for two strings: [p] occurs in [s] as a substring. *)
Fixpoint contains (p s : list N) : bool :=
  startswith p s ||
  match s with
  | [] => false
  | _ :: s' => contains p s'
  end.

(** [str.isspace] on one code point, the separator set of [str.split()]. *)
Definition isspace (c : N) : bool :=
  ((0x09 <=? c) && (c <=? 0x0d)) || ((0x1c <=? c) && (c <=? 0x20))
  || (c =? 0x85) || (c =? 0xa0) || (c =? 0x1680)
  || ((0x2000 <=? c) && (c <=? 0x200a))
  || (c =? 0x2028) || (c =? 0x2029) || (c =? 0x202f) || (c =? 0x205f)
  || (c =? 0x3000).

(** [s.split()]: the maximal runs of non-space code points.  [cur] is the
    token being read, reversed. *)
Fixpoint split_go (cur : list N) (s : list N) : list (list N) :=
  match s with
  | [] => match cur with [] => [] | _ => [rev cur] end
  | c :: s' =>
      if isspace c
      then match cur with
           | [] => split_go [] s'
           | _ => rev cur :: split_go [] s'
           end
      else split_go (c :: cur) s'
  end.

Definition split (s : list N) : list (list N) := split_go [] s.

(** [s.replace(old, new)]: every non-overlapping occurrence of [old], found
    left to right, becomes [new].  [skip] counts the code points of a
    matched occurrence that are still to be dropped. *)
Fixpoint replace_go (old new : list N) (skip : nat) (s : list N) : list N :=
  match s with
  | [] => []
  | c :: s' =>
      match skip with
      | S k => replace_go old new k s'
      | O =>
          if startswith old s
          then new ++ replace_go old new (Nat.pred (length old)) s'
          else c :: replace_go old new O s'
      end
  end.

Definition replace (old new s : list N) : list N :=
  match old with
  | [] => new ++ flat_map (fun c => c :: new) s
  | _ :: _ => replace_go old new O s
  end.

(** [str.encode('utf-8')]: a surrogate code point cannot be encoded. *)
Definition utf8_encode_char (c : N) : option (list N) :=
  if c <? 0x80 then Some [c]
  else if c <? 0x800 then
    Some [N.lor 0xc0 (N.shiftr c 6); N.lor 0x80 (N.land c 0x3f)]
  else if is_high_surrogate c || is_low_surrogate c then None
  else if c <? 0x10000 then
    Some [N.lor 0xe0 (N.shiftr c 12);
          N.lor 0x80 (N.land (N.shiftr c 6) 0x3f);
          N.lor 0x80 (N.land c 0x3f)]
  else
    Some [N.lor 0xf0 (N.shiftr c 18);
          N.lor 0x80 (N.land (N.shiftr c 12) 0x3f);
          N.lor 0x80 (N.land (N.shiftr c 6) 0x3f);
          N.lor 0x80 (N.land c 0x3f)].

Fixpoint encode (s : list N) : option (list N) :=
  match s with
  | [] => Some []
  | c :: s' =>
      match utf8_encode_char c, encode s' with
      | Some b, Some bs => Some (b ++ bs)
      | _, _ => None
      end
  end.

Definition is_continuation (b : N) : bool := (0x80 <=? b) && (b <=? 0xbf).

(** [bytes.decode('utf-8')], strict: overlong forms, surrogates and values
    past [0x10ffff] are refused. *)
Fixpoint decode (bs : list N) : option (list N) :=
  match bs with
  | [] => Some []
  | b0 :: r0 =>
      if b0 <? 0x80 then option_map (cons b0) (decode r0)
      else if (0xc2 <=? b0) && (b0 <=? 0xdf) then
        match r0 with
        | b1 :: r1 =>
            if is_continuation b1
            then option_map
                   (cons (N.lor (N.shiftl (N.land b0 0x1f) 6) (N.land b1 0x3f)))
                   (decode r1)
            else None
        | _ => None
        end
      else if (0xe0 <=? b0) && (b0 <=? 0xef) then
        match r0 with
        | b1 :: b2 :: r2 =>
            let c := N.lor (N.shiftl (N.land b0 0x0f) 12)
                       (N.lor (N.shiftl (N.land b1 0x3f) 6) (N.land b2 0x3f)) in
            if is_continuation b1 && is_continuation b2 && (0x800 <=? c)
               && negb (is_high_surrogate c || is_low_surrogate c)
            then option_map (cons c) (decode r2)
            else None
        | _ => None
        end
      else if (0xf0 <=? b0) && (b0 <=? 0xf4) then
        match r0 with
        | b1 :: b2 :: b3 :: r3 =>
            let c := N.lor (N.shiftl (N.land b0 0x07) 18)
                       (N.lor (N.shiftl (N.land b1 0x3f) 12)
                          (N.lor (N.shiftl (N.land b2 0x3f) 6) (N.land b3 0x3f))) in
            if is_continuation b1 && is_continuation b2 && is_continuation b3
               && (0x10000 <=? c) && (c <? 0x110000)
            then option_map (cons c) (decode r3)
            else None
        | _ => None
        end
      else None
  end.

End PyStr.

Import PyStr.

(** ** The [json] module: values, [json.dumps] and [json.loads] *)

Module Json.

(** The Python values that travel as JSON: [None], [bool], [int], [str],
    [list] and [dict] with string keys (insertion order kept).  Floats do
    not occur in what the converter builds and are left out. *)
Inductive value : Type :=
| JNull
| JBool (b : bool)
| JInt (n : Z)
| JStr (s : list N)
| JList (xs : list value)
| JDict (kvs : list (list N * value)).

(** The strings a value holds: its [str] leaves and the keys of its
    dicts. *)
Fixpoint strings_of (v : value) : list (list N) :=
  match v with
  | JStr s => [s]
  | JList xs =>
      (fix go (l : list value) : list (list N) :=
         match l with
         | [] => []
         | x :: l' => strings_of x ++ go l'
         end) xs
  | JDict kvs =>
      (fix go (l : list (list N * value)) : list (list N) :=
         match l with
         | [] => []
         | kv :: l' => (fst kv :: strings_of (snd kv)) ++ go l'
         end) kvs
  | _ => []
  end.

(** *** Encoder *)

Definition hexdigit (d : N) : N := if d <? 10 then 48 + d else 87 + d.

(** ['{0:04x}'.format(n)] for [n < 0x10000]. *)
Definition hex4 (n : N) : list N :=
  [hexdigit (N.land (N.shiftr n 12) 0xf); hexdigit (N.land (N.shiftr n 8) 0xf);
   hexdigit (N.land (N.shiftr n 4) 0xf); hexdigit (N.land n 0xf)].

(** The replacement function of [py_encode_basestring_ascii]: the named
    escapes of [ESCAPE_DCT], the printable ASCII range kept as it is, and
    [\uXXXX] (a surrogate pair past the basic plane) for the rest. *)
Definition escape_char (c : N) : list N :=
  if c =? 0x22 then [0x5c; 0x22]
  else if c =? 0x5c then [0x5c; 0x5c]
  else if c =? 0x0a then [0x5c; 0x6e]
  else if c =? 0x0d then [0x5c; 0x72]
  else if c =? 0x09 then [0x5c; 0x74]
  else if c =? 0x08 then [0x5c; 0x62]
  else if c =? 0x0c then [0x5c; 0x66]
  else if (0x20 <=? c) && (c <=? 0x7e) then [c]
  else if c <? 0x10000 then 0x5c :: 0x75 :: hex4 c
  else
    let n := c - 0x10000 in
    let s1 := N.lor 0xd800 (N.land (N.shiftr n 10) 0x3ff) in
    let s2 := N.lor 0xdc00 (N.land n 0x3ff) in
    (0x5c :: 0x75 :: hex4 s1) ++ (0x5c :: 0x75 :: hex4 s2).

Definition encode_basestring_ascii (s : list N) : list N :=
  0x22 :: flat_map escape_char s ++ [0x22].

Fixpoint uint_digits (d : Decimal.uint) : list N :=
  match d with
  | Decimal.Nil => []
  | Decimal.D0 d => 48 :: uint_digits d
  | Decimal.D1 d => 49 :: uint_digits d
  | Decimal.D2 d => 50 :: uint_digits d
  | Decimal.D3 d => 51 :: uint_digits d
  | Decimal.D4 d => 52 :: uint_digits d
  | Decimal.D5 d => 53 :: uint_digits d
  | Decimal.D6 d => 54 :: uint_digits d
  | Decimal.D7 d => 55 :: uint_digits d
  | Decimal.D8 d => 56 :: uint_digits d
  | Decimal.D9 d => 57 :: uint_digits d
  end.

(** [int.__repr__]. *)
Definition int_repr (z : Z) : list N :=
  match Z.to_int z with
  | Decimal.Pos d => uint_digits d
  | Decimal.Neg d => 0x2d :: uint_digits d
  end.

(** ['\n' + _indent * level] when an indent is given. *)
Definition newline_indent (indent : option nat) (level : nat) : list N :=
  match indent with
  | None => []
  | Some n => 0x0a :: repeat 0x20 (n * level)
  end.

(** The item separator is [', '] by default and [','] with an indent. *)
Definition item_separator (indent : option nat) : list N :=
  match indent with
  | None => [0x2c; 0x20]
  | Some _ => [0x2c]
  end.

Definition key_separator : list N := [0x3a; 0x20].

(** [_iterencode] with its two helpers [_iterencode_list] and
    [_iterencode_dict], the chunks joined. *)
Fixpoint iterencode (indent : option nat) (level : nat) (o : value) {struct o}
  : list N :=
  match o with
  | JStr s => encode_basestring_ascii s
  | JNull => py "null"
  | JBool true => py "true"
  | JBool false => py "false"
  | JInt n => int_repr n
  | JList [] => py "[]"
  | JList (x :: xs) =>
      [0x5b] ++ newline_indent indent (S level)
      ++ iterencode indent (S level) x
      ++ (fix items (l : list value) : list N :=
            match l with
            | [] => []
            | y :: l' =>
                item_separator indent ++ newline_indent indent (S level)
                ++ iterencode indent (S level) y ++ items l'
            end) xs
      ++ newline_indent indent level ++ [0x5d]
  | JDict [] => py "{}"
  | JDict ((k, x) :: kvs) =>
      [0x7b] ++ newline_indent indent (S level)
      ++ encode_basestring_ascii k ++ key_separator
      ++ iterencode indent (S level) x
      ++ (fix items (l : list (list N * value)) : list N :=
            match l with
            | [] => []
            | (k', y) :: l' =>
                item_separator indent ++ newline_indent indent (S level)
                ++ encode_basestring_ascii k' ++ key_separator
                ++ iterencode indent (S level) y ++ items l'
            end) kvs
      ++ newline_indent indent level ++ [0x7d]
  end.

(** [json.dumps(o, indent=indent)]. *)
Definition dumps (indent : option nat) (o : value) : list N :=
  iterencode indent 0 o.

(** *** Decoder *)

(** [WHITESPACE_STR]. *)
Definition is_ws (c : N) : bool :=
  (c =? 0x20) || (c =? 0x09) || (c =? 0x0a) || (c =? 0x0d).

Fixpoint skip_ws (s : list N) : list N :=
  match s with
  | [] => []
  | c :: r => if is_ws c then skip_ws r else s
  end.

Definition hexval (c : N) : option N :=
  if (0x30 <=? c) && (c <=? 0x39) then Some (c - 0x30)
  else if (0x61 <=? c) && (c <=? 0x66) then Some (c - 0x57)
  else if (0x41 <=? c) && (c <=? 0x46) then Some (c - 0x37)
  else None.

(** [_decode_uXXXX] on the four characters after [\u]. *)
Definition decode_uXXXX (h1 h2 h3 h4 : N) : option N :=
  match hexval h1, hexval h2, hexval h3, hexval h4 with
  | Some a, Some b, Some c, Some d => Some (((a * 16 + b) * 16 + c) * 16 + d)
  | _, _, _, _ => None
  end.

(** The [BACKSLASH] table. *)
Definition backslash (esc : N) : option N :=
  if esc =? 0x22 then Some 0x22
  else if esc =? 0x5c then Some 0x5c
  else if esc =? 0x2f then Some 0x2f
  else if esc =? 0x62 then Some 0x08
  else if esc =? 0x66 then Some 0x0c
  else if esc =? 0x6e then Some 0x0a
  else if esc =? 0x72 then Some 0x0d
  else if esc =? 0x74 then Some 0x09
  else None.

Definition push (c : N) (r : option (list N * list N)) : option (list N * list N) :=
  match r with
  | Some (s, rest) => Some (c :: s, rest)
  | None => None
  end.

(** [py_scanstring] in strict mode, from just after the opening quote: the
    decoded string and the text after the closing quote.  A high surrogate
    escape directly followed by a low surrogate escape is one code point. *)
Fixpoint scanstring (s : list N) : option (list N * list N) :=
  match s with
  | [] => None
  | c :: r =>
      if c =? 0x22 then Some ([], r)
      else if c =? 0x5c then
        match r with
        | [] => None
        | esc :: r1 =>
            if esc =? 0x75 then
              match r1 with
              | h1 :: h2 :: h3 :: h4 :: r2 =>
                  match decode_uXXXX h1 h2 h3 h4 with
                  | None => None
                  | Some uni =>
                      if is_high_surrogate uni then
                        match r2 with
                        | b :: u :: r3 =>
                            if (b =? 0x5c) && (u =? 0x75) then
                              match r3 with
                              | g1 :: g2 :: g3 :: g4 :: r4 =>
                                  match decode_uXXXX g1 g2 g3 g4 with
                                  | None => None
                                  | Some uni2 =>
                                      if is_low_surrogate uni2
                                      then push (0x10000 + N.lor (N.shiftl (uni - 0xd800) 10) (uni2 - 0xdc00))
                                             (scanstring r4)
                                      else push uni (scanstring r2)
                                  end
                              | _ => None
                              end
                            else push uni (scanstring r2)
                        | _ => push uni (scanstring r2)
                        end
                      else push uni (scanstring r2)
                  end
              | _ => None
              end
            else
              match backslash esc with
              | Some ch => push ch (scanstring r1)
              | None => None
              end
        end
      else if c <? 0x20 then None
      else push c (scanstring r)
  end.

Definition is_digit (c : N) : bool := (0x30 <=? c) && (c <=? 0x39).

(** The longest run of decimal digits at the head of the text, as a
    decimal numeral, and the text after it. *)
Fixpoint span_digits (s : list N) : Decimal.uint * list N :=
  match s with
  | [] => (Decimal.Nil, [])
  | c :: r =>
      if is_digit c then
        let '(d, rest) := span_digits r in
        ((if c =? 48 then Decimal.D0 else if c =? 49 then Decimal.D1
          else if c =? 50 then Decimal.D2 else if c =? 51 then Decimal.D3
          else if c =? 52 then Decimal.D4 else if c =? 53 then Decimal.D5
          else if c =? 54 then Decimal.D6 else if c =? 55 then Decimal.D7
          else if c =? 56 then Decimal.D8 else Decimal.D9) d, rest)
      else (Decimal.Nil, s)
  end.

(** Whether the text continues a number into a float: a fraction (a dot
    and a digit) or an exponent (e or E, an optional sign, a digit). *)
Definition float_tail (s : list N) : bool :=
  match s with
  | c :: d :: r =>
      if c =? 0x2e then is_digit d
      else if (c =? 0x65) || (c =? 0x45) then
        is_digit d
        || (((d =? 0x2b) || (d =? 0x2d))
            && match r with d' :: _ => is_digit d' | [] => false end)
      else false
  | _ => false
  end.

(** [NUMBER_RE] at the head of the text: an optional minus sign, then a
    single zero or a digit run that does not start with zero; the number is
    an [int] when no fraction or exponent follows.  A float is outside the
    model and is refused. *)
Definition match_number (s : list N) : option (value * list N) :=
  let '(neg, s1) :=
    match s with
    | c :: r => if c =? 0x2d then (true, r) else (false, s)
    | [] => (false, s)
    end in
  match s1 with
  | [] => None
  | c :: r =>
      if negb (is_digit c) then None
      else
        let '(d, rest) := if c =? 0x30 then (Decimal.D0 Decimal.Nil, r) else span_digits s1 in
        if float_tail rest then None
        else Some (JInt (Z.of_int (if neg then Decimal.Neg d else Decimal.Pos d)), rest)
  end.

(** [dict(pairs)]: a repeated key keeps its first position and takes the
    last value. *)
Fixpoint dict_set (k : list N) (v : value) (d : list (list N * value))
  : list (list N * value) :=
  match d with
  | [] => [(k, v)]
  | (k', v') :: d' =>
      if str_eqb k k' then (k, v) :: d' else (k', v') :: dict_set k v d'
  end.

Definition dict_of_pairs (ps : list (list N * value)) : list (list N * value) :=
  fold_left (fun d kv => dict_set (fst kv) (snd kv) d) ps [].

(** [scan_once], with [JSONArray] and [JSONObject] as its two loops.  The
    fuel bounds the number of nested calls; [loads] supplies more than any
    text can use. *)
Fixpoint scan_once (fuel : nat) (s : list N) {struct fuel} : option (value * list N) :=
  match fuel with
  | O => None
  | S f =>
      match s with
      | [] => None
      | c :: r =>
          if c =? 0x22 then
            match scanstring r with
            | Some (str, r') => Some (JStr str, r')
            | None => None
            end
          else if c =? 0x7b then
            match skip_ws r with
            | c1 :: r1 =>
                if c1 =? 0x7d then Some (JDict [], r1)
                else if c1 =? 0x22 then object_loop f r1 []
                else None
            | [] => None
            end
          else if c =? 0x5b then
            match skip_ws r with
            | c1 :: r1 =>
                if c1 =? 0x5d then Some (JList [], r1)
                else array_loop f (c1 :: r1) []
            | [] => None
            end
          else if startswith (py "null") s then Some (JNull, skipn 4 s)
          else if startswith (py "true") s then Some (JBool true, skipn 4 s)
          else if startswith (py "false") s then Some (JBool false, skipn 5 s)
          else match_number s
      end
  end
with array_loop (fuel : nat) (s : list N) (acc : list value) {struct fuel}
  : option (value * list N) :=
  match fuel with
  | O => None
  | S f =>
      match scan_once f s with
      | None => None
      | Some (v, r) =>
          match skip_ws r with
          | c :: r' =>
              if c =? 0x5d then Some (JList (rev (v :: acc)), r')
              else if c =? 0x2c then array_loop f (skip_ws r') (v :: acc)
              else None
          | [] => None
          end
      end
  end
with object_loop (fuel : nat) (s : list N) (acc : list (list N * value)) {struct fuel}
  : option (value * list N) :=
  match fuel with
  | O => None
  | S f =>
      match scanstring s with
      | None => None
      | Some (key, r) =>
          match skip_ws r with
          | c :: r1 =>
              if c =? 0x3a then
                match scan_once f (skip_ws r1) with
                | None => None
                | Some (v, r2) =>
                    match skip_ws r2 with
                    | c2 :: r3 =>
                        if c2 =? 0x7d
                        then Some (JDict (dict_of_pairs (rev ((key, v) :: acc))), r3)
                        else if c2 =? 0x2c then
                          match skip_ws r3 with
                          | c3 :: r4 =>
                              if c3 =? 0x22 then object_loop f r4 ((key, v) :: acc)
                              else None
                          | [] => None
                          end
                        else None
                    | [] => None
                    end
                end
              else None
          | [] => None
          end
      end
  end.

(** [json.loads(s)]: one value, white space around it, nothing else. *)
Definition loads (s : list N) : option value :=
  match scan_once (S (length s)) (skip_ws s) with
  | Some (v, r) => match skip_ws r with [] => Some v | _ :: _ => None end
  | None => None
  end.

End Json.

Import Json.

(** ** The runtime: exceptions, the file system, the connection *)

Module Runtime.

(** An instance of Python's [Exception]: its class name and [str(e)]. *)
Record exn : Type := Exn { exn_class : string; exn_str : list N }.

Inductive outcome (A : Type) : Type :=
| Return (a : A)
| Raise (e : exn).
Arguments Return {A} a.
Arguments Raise {A} e.

(** What the handler sends on the connection, call by call. *)
Inductive event : Type :=
| SendResponse (code : N)
| SendHeader (keyword val : list N)
| EndHeaders
| WfileWrite (body : list N)
| SendError (code : N).

(** The state outside the program.  [files] is the file system, a path
    mapped to the content of the file.  [tmp_names] are the random names
    the [tempfile] module will draw, in order.  [faults] scripts the
    environment: each call into the operating system takes the head, and
    [Some e] makes that call raise [e].  [wfile] is what has been sent on
    the connection so far. *)
Record World : Type := mkWorld {
  files : gmap (list N) (list N);
  tmp_names : list (list N);
  faults : list (option exn);
  wfile : list event
}.

Definition M (A : Type) : Type := World -> outcome A * World.

Definition ret {A} (a : A) : M A := fun w => (Return a, w).

Definition raise {A} (e : exn) : M A := fun w => (Raise e, w).

Definition bind {A B} (m : M A) (k : A -> M B) : M B :=
  fun w =>
    match m w with
    | (Return a, w') => k a w'
    | (Raise e, w') => (Raise e, w')
    end.

(** [try: m  except Exception as e: h e]. *)
Definition try_except {A} (m : M A) (h : exn -> M A) : M A :=
  fun w =>
    match m w with
    | (Return a, w') => (Return a, w')
    | (Raise e, w') => h e w'
    end.

(** [try: m  finally: fin]: [fin] runs on every way out of [m]; when it
    raises, its exception replaces the result of [m]. *)
Definition try_finally {A} (m : M A) (fin : M unit) : M A :=
  fun w =>
    match m w with
    | (r, w') =>
        match fin w' with
        | (Return _, w'') => (r, w'')
        | (Raise e, w'') => (Raise e, w'')
        end
    end.

Definition lift {A} (r : outcome A) : M A := fun w => (r, w).

End Runtime.

Import Runtime.

Notation "x <~ y ; z" := (bind y (fun x => z))
  (at level 20, y at level 100, z at level 200, only parsing).

(** The same for code that raises but touches nothing outside. *)
Definition bind_outcome {A B} (r : outcome A) (k : A -> outcome B) : outcome B :=
  match r with
  | Return a => k a
  | Raise e => Raise e
  end.

Notation "x <~~ y ; z" := (bind_outcome y (fun x => z))
  (at level 20, y at level 100, z at level 200, only parsing).

Module Os.

Definition FileExistsError : exn :=
  Exn "FileExistsError" (py "No usable temporary file name found").
Definition FileNotFoundError (path : list N) : exn :=
  Exn "FileNotFoundError" (py "[Errno 2] No such file or directory: " ++ path).

(** One call into the operating system: the environment may make it fail. *)
Definition syscall : M unit :=
  fun w =>
    match faults w with
    | [] => (Return tt, w)
    | None :: fs => (Return tt, mkWorld (files w) (tmp_names w) fs (wfile w))
    | Some e :: fs => (Raise e, mkWorld (files w) (tmp_names w) fs (wfile w))
    end.

Definition tmp_path (name suffix : list N) : list N :=
  py "/tmp/tmp" ++ name ++ suffix.

(** The loop of [tempfile.mkstemp]: draw names until one is free. *)
Fixpoint mkstemp (fs : gmap (list N) (list N)) (names : list (list N)) (suffix : list N)
  : option (list N * list (list N)) :=
  match names with
  | [] => None
  | name :: rest =>
      match fs !! tmp_path name suffix with
      | None => Some (tmp_path name suffix, rest)
      | Some _ => mkstemp fs rest suffix
      end
  end.

(** [tempfile.NamedTemporaryFile(suffix=suffix, delete=False)]: a new, empty
    file; the result is its [name]. *)
Definition NamedTemporaryFile (suffix : list N) : M (list N) :=
  _ <~ syscall;
  fun w =>
    match mkstemp (files w) (tmp_names w) suffix with
    | None => (Raise FileExistsError, mkWorld (files w) [] (faults w) (wfile w))
    | Some (path, rest) =>
        (Return path, mkWorld (<[path := []]> (files w)) rest (faults w) (wfile w))
    end.

(** [f.write(data)] followed by the [close] at the end of the [with]
    block.  A failure leaves the file in place. *)
Definition write_and_close (path data : list N) : M unit :=
  _ <~ syscall;
  fun w => (Return tt, mkWorld (<[path := data]> (files w)) (tmp_names w) (faults w) (wfile w)).

(** [os.unlink(path)]. *)
Definition unlink (path : list N) : M unit :=
  _ <~ syscall;
  fun w =>
    match files w !! path with
    | None => (Raise (FileNotFoundError path), w)
    | Some _ => (Return tt, mkWorld (delete path (files w)) (tmp_names w) (faults w) (wfile w))
    end.

(** The bytes of the file at [path], as a reader opening it gets them. *)
Definition read_file (path : list N) : M (list N) :=
  _ <~ syscall;
  fun w =>
    match files w !! path with
    | None => (Raise (FileNotFoundError path), w)
    | Some data => (Return data, w)
    end.

(** [os.path.basename] (posixpath): what follows the last slash. *)
Fixpoint basename_go (cur : list N) (p : list N) : list N :=
  match p with
  | [] => rev cur
  | c :: p' => if c =? 0x2f then basename_go [] p' else basename_go (c :: cur) p'
  end.

Definition basename (p : list N) : list N := basename_go [] p.

(** [os.path.splitext] on a name without a slash: the extension starts at
    the last dot, unless only dots come before it. *)
Fixpoint rfind_dot (p : list N) (i : nat) (found : option nat) : option nat :=
  match p with
  | [] => found
  | c :: p' => rfind_dot p' (S i) (if c =? 0x2e then Some i else found)
  end.

Definition splitext (p : list N) : list N * list N :=
  match rfind_dot p 0 None with
  | None => (p, [])
  | Some dot =>
      if forallb (fun c => c =? 0x2e) (firstn dot p)
      then (p, [])
      else (firstn dot p, skipn dot p)
  end.

End Os.

(** ** The connection: what [BaseHTTPRequestHandler] offers the handler *)

Module Http.

Record request : Type := mkRequest {
  command : list N;
  path : list N;
  content_type : option (list N);    (* self.headers['Content-Type'] *)
  content_length : option (list N);  (* self.headers['Content-Length'] *)
  rfile : list N
}.

Definition emit (e : event) : M unit :=
  fun w => (Return tt, mkWorld (files w) (tmp_names w) (faults w) (wfile w ++ [e])).

Definition send_response (code : N) : M unit := emit (SendResponse code).
Definition send_header (keyword val : list N) : M unit := emit (SendHeader keyword val).
Definition end_headers : M unit := emit EndHeaders.
Definition wfile_write (body : list N) : M unit := emit (WfileWrite body).
Definition send_error (code : N) : M unit := emit (SendError code).

(** One part of a parsed multipart form: the field name, the file name
    (absent for a plain field) and [fileitem.file], the file object that
    holds the content of the part.  [cgi] leaves [file] at [None] for a
    part that is itself a multipart container. *)
Record FieldItem : Type := mkFieldItem {
  field_name : list N;
  filename : option (list N);
  file : option (list N)
}.

End Http.

Import Os Http.

(** ** Collaborators: the libraries the converter delegates to *)

(** A page object of the PDF reader: what [extract_text()] does on it. *)
Record PageObject : Type := mkPage { extract_text : outcome (option (list N)) }.

(** An archive as [zipfile] holds it: the members in the order written. *)
Record ZipMember : Type := mkMember {
  arcname : list N;
  deflated : bool;
  member_data : list N
}.

Class Collaborators : Type := {
  (** PyPDF2: what [PdfReader] makes of the bytes of a file, the page
      objects of [pdf.pages] in document order. *)
  pdf_parse : list N -> outcome (list PageObject);
  (** [cgi.parse_header(line)[0]] for a header line that is a string. *)
  cgi_parse_header : list N -> list N;
  (** [cgi.FieldStorage] reading the request: the parts, or its fault. *)
  cgi_FieldStorage : request -> outcome (list FieldItem);
  (** The static file server the handler inherits from. *)
  SimpleHTTPRequestHandler_do_GET : request -> M unit;
  SimpleHTTPRequestHandler_do_HEAD : request -> M unit;
  (** The bytes of the ZIP container for an archive, and base64. *)
  zip_container : list ZipMember -> list N;
  b64encode : list N -> list N;
  (** [int(s)] for a string [s]. *)
  int_of_str : list N -> outcome Z
}.

(** ** Python's dynamic operations on the values of a JSON payload *)

Module PyObj.

Definition TypeError (msg : string) : exn := Exn "TypeError" (py msg).
Definition AttributeError (msg : string) : exn := Exn "AttributeError" (py msg).
Definition KeyError (key : list N) : exn := Exn "KeyError" key.

Fixpoint dict_get (kvs : list (list N * value)) (key : list N) : option value :=
  match kvs with
  | [] => None
  | (k, v) :: kvs' => if str_eqb k key then Some v else dict_get kvs' key
  end.

Definition is_str (s : list N) (v : value) : bool :=
  match v with
  | JStr t => str_eqb t s
  | _ => false
  end.

(** [key in x] for a string [key]: a key of a dict, an element of a list,
    a substring of a string; other values are not containers. *)
Definition py_in (key : list N) (x : value) : outcome bool :=
  match x with
  | JDict kvs => Return (match dict_get kvs key with Some _ => true | None => false end)
  | JList xs => Return (existsb (is_str key) xs)
  | JStr s => Return (contains key s)
  | _ => Raise (TypeError "argument is not iterable")
  end.

(** [x[key]] for a string [key]. *)
Definition py_getitem (x : value) (key : list N) : outcome value :=
  match x with
  | JDict kvs =>
      match dict_get kvs key with
      | Some v => Return v
      | None => Raise (KeyError key)
      end
  | JList _ => Raise (TypeError "list indices must be integers or slices, not str")
  | JStr _ => Raise (TypeError "string indices must be integers")
  | _ => Raise (TypeError "object is not subscriptable")
  end.

(** [x.get(key, default)]. *)
Definition py_get (x : value) (key : list N) (default : value) : outcome value :=
  match x with
  | JDict kvs =>
      Return (match dict_get kvs key with Some v => v | None => default end)
  | _ => Raise (AttributeError "object has no attribute 'get'")
  end.

(** [for item in x]: the elements of a list, the keys of a dict, the
    characters of a string. *)
Definition py_iter (x : value) : outcome (list value) :=
  match x with
  | JList xs => Return xs
  | JDict kvs => Return (map (fun kv => JStr (fst kv)) kvs)
  | JStr s => Return (map (fun c => JStr [c]) s)
  | _ => Raise (TypeError "object is not iterable")
  end.

(** [x.replace(old, new)]: only a string has the method. *)
Definition py_replace (x : value) (old new : list N) : outcome (list N) :=
  match x with
  | JStr s => Return (replace old new s)
  | _ => Raise (AttributeError "object has no attribute 'replace'")
  end.

Definition str_encode (s : list N) : outcome (list N) :=
  match PyStr.encode s with
  | Some b => Return b
  | None => Raise (Exn "UnicodeEncodeError" (py "surrogates not allowed"))
  end.

Definition bytes_decode (b : list N) : outcome (list N) :=
  match PyStr.decode b with
  | Some s => Return s
  | None => Raise (Exn "UnicodeDecodeError" (py "invalid utf-8"))
  end.

Definition json_loads (s : list N) : outcome value :=
  match Json.loads s with
  | Some v => Return v
  | None => Raise (Exn "JSONDecodeError" (py "Expecting value"))
  end.

(** [a == b] on two values, Python's deep equality: [True] is [1] and
    [False] is [0], strings and lists compare item by item, and two dicts
    are equal when they have the same keys with equal values, in any
    order. *)
Fixpoint py_eq (a b : value) {struct a} : bool :=
  match a, b with
  | JNull, JNull => true
  | JBool x, JBool y => Bool.eqb x y
  | JBool x, JInt n => ((if x then 1 else 0) =? n)%Z
  | JInt n, JBool y => (n =? (if y then 1 else 0))%Z
  | JInt n, JInt m => (n =? m)%Z
  | JStr s, JStr t => str_eqb s t
  | JList xs, JList ys =>
      (fix go (l : list value) (r : list value) : bool :=
         match l, r with
         | [], [] => true
         | x :: l', y :: r' => py_eq x y && go l' r'
         | _, _ => false
         end) xs ys
  | JDict kvs, JDict kvs' =>
      Nat.eqb (length kvs) (length kvs')
      && (fix go (l : list (list N * value)) : bool :=
            match l with
            | [] => true
            | kv :: l' =>
                match dict_get kvs' (fst kv) with
                | Some v' => py_eq (snd kv) v'
                | None => false
                end && go l'
            end) kvs
  | _, _ => false
  end.

(** [if x:] on [x] that is [None] or a string. *)
Definition truthy (x : option (list N)) : bool :=
  match x with
  | Some (_ :: _) => true
  | _ => false
  end.

End PyObj.

Import PyObj.

(** ** The converter *)

Module Converter.

Section Handler.

Context {collab : Collaborators}.

(** [PdfReader(path)]: the reader opens the file and parses its bytes. *)
Definition PdfReader (path : list N) : M (list PageObject) :=
  data <~ read_file path;
  lift (pdf_parse data).

(** The dict appended for page [i] (counted from zero) with text [text]. *)
Definition page_record (i : nat) (text : option (list N)) : value :=
  JDict [(py "page_number", JInt (Z.of_nat i + 1));
         (py "content", match text with Some s => JStr s | None => JNull end);
         (py "word_count",
           JInt (match text with
                 | Some ((_ :: _) as s) => Z.of_nat (length (split s))
                 | _ => 0
                 end));
         (py "character_count",
           JInt (match text with
                 | Some ((_ :: _) as s) => Z.of_nat (length s)
                 | _ => 0
                 end))].

(** [for i, page in enumerate(pdf.pages)]: [pages] is the list built so
    far, [i] the index of the next page. *)
Fixpoint extract_pages (i : nat) (pdf_pages : list PageObject) (pages : list value)
  : outcome (list value) :=
  match pdf_pages with
  | [] => Return pages
  | page :: rest =>
      text <~~ extract_text page;
      extract_pages (S i) rest (pages ++ [page_record i text])
  end.

Definition pdf_data_of (filename : list N) (pages : list value) : value :=
  JDict [(py "filename", JStr filename);
         (py "total_pages", JInt (Z.of_nat (length pages)));
         (py "pages", JList pages)].

Definition success_record (filename : list N) (pdf_data : value) : value :=
  JDict [(py "filename", JStr filename);
         (py "success", JBool true);
         (py "data", pdf_data)].

Definition failure_record (filename : list N) (e : exn) : value :=
  JDict [(py "filename", JStr filename);
         (py "success", JBool false);
         (py "error", JStr (exn_str e))].

(** The [with] block of [process_pdf] (lines 151 to 153): the temporary
    file is created and the upload written to it. *)
Definition make_temp_pdf (file_data : list N) : M (list N) :=
  temp_pdf <~ NamedTemporaryFile (py ".pdf");
  _ <~ write_and_close temp_pdf file_data;
  ret temp_pdf.

(** The [try] body of [process_pdf] (lines 156 to 180). *)
Definition convert_temp_pdf (temp_pdf_path filename : list N) : M value :=
  pdf <~ PdfReader temp_pdf_path;
  pages <~ lift (extract_pages 0 pdf []);
  ret (success_record filename (pdf_data_of filename pages)).

(** The [finally] clause (lines 189 to 194). *)
Definition cleanup (temp_pdf_path : list N) : M unit :=
  try_except (unlink temp_pdf_path) (fun _ => ret tt).

Definition process_pdf (file_data filename : list N) : M value :=
  temp_pdf_path <~ make_temp_pdf file_data;
  try_finally
    (try_except (convert_temp_pdf temp_pdf_path filename)
       (fun e => ret (failure_record filename e)))
    (cleanup temp_pdf_path).

(** The name [ZipInfo] keeps for a member: the name it is given, cut at
    the first NUL character. *)
Fixpoint cut_at_nul (filename : list N) : list N :=
  match filename with
  | [] => []
  | c :: rest => if c =? 0 then [] else c :: cut_at_nul rest
  end.

(** [zipf.writestr(filename, json_content)]: the text is encoded as UTF-8
    and stored after the members written before, under the name [ZipInfo]
    keeps.  [writestr] looks at the last character of that name, which
    raises [IndexError] when the name is empty; the header of the member
    holds the name encoded (as ASCII, or else as UTF-8, which a lone
    surrogate refuses) and its length in two bytes. *)
Definition writestr (zipf : list ZipMember) (filename content : list N)
  : outcome (list ZipMember) :=
  data <~~ str_encode content;
  match cut_at_nul filename with
  | [] => Raise (Exn "IndexError" (py "string index out of range"))
  | (_ :: _) as name =>
      header_name <~~ str_encode name;
      if 0xffff <? N.of_nat (length header_name)
      then Raise (Exn "struct.error" (py "'H' format requires 0 <= number <= 65535"))
      else Return (zipf ++ [mkMember name true data])
  end.

(** The loop of [create_zip_package] (lines 210 to 214). *)
Fixpoint zip_items (items : list value) (zipf : list ZipMember)
  : outcome (list ZipMember) :=
  match items with
  | [] => Return zipf
  | item :: rest =>
      has_filename <~~ py_in (py "filename") item;
      has_data <~~ (if has_filename : bool then py_in (py "data") item else Return false);
      if has_data : bool then
        name <~~ py_getitem item (py "filename");
        filename <~~ py_replace name (py ".pdf") (py ".json");
        data <~~ py_getitem item (py "data");
        zipf' <~~ writestr zipf filename (dumps (Some 2%nat) data);
        zip_items rest zipf'
      else zip_items rest zipf
  end.

(** The result stands for the bytes of [zip_buffer]: the archive whose
    container [zip_container] lays out. *)
Definition create_zip_package (json_data_list : value) : outcome (list ZipMember) :=
  items <~~ py_iter json_data_list;
  zip_items items [].

(** [fileitem.file.read()] (line 82): [None] has no [read]. *)
Definition file_read (fileitem : FieldItem) : outcome (list N) :=
  match file fileitem with
  | Some data => Return data
  | None => Raise (AttributeError "'NoneType' object has no attribute 'read'")
  end.

(** The loop over the uploaded files (lines 79 to 93).  The content of a
    part is read before the [try] is entered. *)
Fixpoint convert_files (files : list FieldItem) (results : list value)
  : M (list value) :=
  match files with
  | [] => ret results
  | fileitem :: rest =>
      match filename fileitem with
      | Some name =>
          if truthy (Some name) then
            file_data <~ lift (file_read fileitem);
            result <~ try_except (process_pdf file_data name)
                        (fun e => ret (failure_record name e));
            convert_files rest (results ++ [result])
          else convert_files rest results
      | None => convert_files rest results
      end
  end.

Definition is_files_field (item : FieldItem) : bool :=
  str_eqb (field_name item) (py "files[]").

(** [cgi.parse_header(self.headers['Content-Type'])[0]]: a missing header
    is [None], which [parse_header] cannot concatenate to a string. *)
Definition parse_content_type (req : request) : outcome (list N) :=
  match content_type req with
  | None => Raise (TypeError "can only concatenate str (not 'NoneType') to str")
  | Some line => Return (cgi_parse_header line)
  end.

Definition int_of_header (h : option (list N)) : outcome Z :=
  match h with
  | None => Raise (TypeError "int() argument must be a string, a bytes-like object or a real number, not 'NoneType'")
  | Some s => int_of_str s
  end.

(** [self.rfile.read(length)] on the buffered reader of the connection:
    at most [length] bytes, all of them for [-1], and a [ValueError] for
    a length below that. *)
Definition rfile_read (req : request) (length : Z) : outcome (list N) :=
  if (length <? -1)%Z
  then Raise (Exn "ValueError" (py "read length must be non-negative or -1"))
  else if (length =? -1)%Z then Return (rfile req)
  else Return (firstn (Z.to_nat length) (rfile req)).

(** Lines 135 to 137. *)
Definition not_found : M unit :=
  _ <~ send_response 404;
  _ <~ end_headers;
  wfile_write (py "Not Found").

Definition send_json (body : value) : M unit :=
  _ <~ send_response 200;
  _ <~ send_header (py "Content-Type") (py "application/json");
  _ <~ send_header (py "Access-Control-Allow-Origin") (py "*");
  _ <~ end_headers;
  text <~ lift (str_encode (dumps None body));
  wfile_write text.

(** Lines 127 to 132. *)
Definition preflight : M unit :=
  _ <~ send_response 200;
  _ <~ send_header (py "Access-Control-Allow-Origin") (py "*");
  _ <~ send_header (py "Access-Control-Allow-Methods") (py "POST, OPTIONS");
  _ <~ send_header (py "Access-Control-Allow-Headers") (py "Content-Type");
  end_headers.

(** The multipart branch (lines 65 to 101). *)
Definition do_POST_multipart (req : request) : M unit :=
  form <~ lift (cgi_FieldStorage req);
  results <~ (if existsb is_files_field form
              then convert_files (filter is_files_field form) []
              else ret []);
  send_json (JList results).

(** The JSON branch (lines 104 to 123); a payload that asks for nothing
    known falls through to the default response. *)
Definition do_POST_json (req : request) : M unit :=
  length <~ lift (int_of_header (content_length req));
  post_data <~ lift (bind_outcome (rfile_read req length) bytes_decode);
  payload <~ lift (json_loads post_data);
  has_action <~ lift (py_in (py "action") payload);
  download_all <~ (if has_action : bool
                   then action <~ lift (py_getitem payload (py "action"));
                        ret (is_str (py "download_all") action)
                   else ret false);
  if download_all : bool then
    json_data_list <~ lift (py_get payload (py "json_data") (JList []));
    zip_data <~ lift (create_zip_package json_data_list);
    _ <~ send_response 200;
    _ <~ send_header (py "Content-Type") (py "application/json");
    _ <~ send_header (py "Access-Control-Allow-Origin") (py "*");
    _ <~ end_headers;
    zip_base64 <~ lift (bytes_decode (b64encode (zip_container zip_data)));
    text <~ lift (str_encode (dumps None
              (JDict [(py "success", JBool true); (py "zip_base64", JStr zip_base64)])));
    wfile_write text
  else not_found.

Definition do_POST (req : request) : M unit :=
  if str_eqb (path req) (py "/convert") then
    content_type <~ lift (parse_content_type req);
    if str_eqb content_type (py "multipart/form-data") then do_POST_multipart req
    else if str_eqb content_type (py "application/json") then do_POST_json req
    else not_found
  else if str_eqb (path req) (py "/convert") && str_eqb (command req) (py "OPTIONS")
  then preflight
  else not_found.

Definition do_GET (req : request) : M unit :=
  let req' :=
    if str_eqb (path req) (py "/")
    then mkRequest (command req) (py "/index.html") (content_type req)
           (content_length req) (rfile req)
    else req in
  SimpleHTTPRequestHandler_do_GET req'.

(** [BaseHTTPRequestHandler.handle_one_request]: the method [do_] followed
    by the command is called when the handler has one, and the request is
    refused with 501 otherwise.  The handler has [do_GET] and [do_POST] of
    its own and inherits [do_HEAD]. *)
Definition handle_one_request (req : request) : M unit :=
  if str_eqb (command req) (py "GET") then do_GET req
  else if str_eqb (command req) (py "HEAD") then SimpleHTTPRequestHandler_do_HEAD req
  else if str_eqb (command req) (py "POST") then do_POST req
  else send_error 501.

(** [extract_text_from_pdf] (lines 221 to 246). *)
Definition extract_text_from_pdf (pdf_path : list N) : M (list value) :=
  try_except
    (pdf <~ PdfReader pdf_path;
     lift (extract_pages 0 pdf []))
    (fun e => raise (Exn "Exception" (py "Error extracting text from PDF: " ++ exn_str e))).

End Handler.

Section CommandLine.

Context {collab : Collaborators}.

(** The default output path for a base name without its extension, and the
    text saved for a base name and its pages: both are written after line
    264, where the source file ends. *)
Variable default_output_path : list N -> list N.
Variable document_text : list N -> list value -> list N.

(** Modelled from the spec: the body of [convert_pdf_to_json] after line
    264 is missing from the source file.  Lines 261 and 262 are the
    source's; the rest follows the docstring (the function returns the path
    to the saved JSON file) and the spec (the output path is derived from
    the input base name when none is given). *)
Definition convert_pdf_to_json (pdf_path : list N) (output_path : option (list N))
  : M (list N) :=
  let base_name := basename pdf_path in
  let file_name := fst (splitext base_name) in
  let output_path :=
    match output_path with
    | Some p => p
    | None => default_output_path file_name
    end in
  pages <~ extract_text_from_pdf pdf_path;
  _ <~ write_and_close output_path (document_text base_name pages);
  ret output_path.

End CommandLine.

End Converter.

Import Converter.

(** ** A concrete setting to run the converter in *)

Module Demo.

(** The chunks of a byte string between form feeds. *)
Fixpoint chunks (cur : list N) (b : list N) : list (list N) :=
  match b with
  | [] => [rev cur]
  | c :: b' => if c =? 0x0c then rev cur :: chunks [] b' else chunks (c :: cur) b'
  end.

(** A reader for a toy format: the magic [%PDF], then one page per form
    feed; a page that is a lone question mark cannot be extracted. *)
Definition toy_parse (b : list N) : outcome (list PageObject) :=
  if startswith (py "%PDF") b
  then Return (map (fun t =>
                      if str_eqb t (py "?")
                      then mkPage (Raise (Exn "KeyError" (py "'/Contents'")))
                      else mkPage (Return (Some t)))
                 (chunks [] (skipn 4 b)))
  else Raise (Exn "PdfReadError" (py "EOF marker not found")).

(** The parts of a toy upload: one part per line, the file name before the
    first colon and the content after it; an equals sign in the place of
    the colon marks a part that is itself a multipart container, which
    has a file name and no file. *)
Fixpoint toy_part (name : list N) (line : list N) : FieldItem :=
  match line with
  | [] => mkFieldItem (py "note") None (Some (rev name))
  | c :: line' =>
      if c =? 0x3a then mkFieldItem (py "files[]") (Some (rev name)) (Some line')
      else if c =? 0x3d then mkFieldItem (py "files[]") (Some (rev name)) None
      else toy_part (c :: name) line'
  end.

Fixpoint lines (cur : list N) (b : list N) : list (list N) :=
  match b with
  | [] => match cur with [] => [] | _ => [rev cur] end
  | c :: b' => if c =? 0x0a then rev cur :: lines [] b' else lines (c :: cur) b'
  end.

Definition toy_storage (req : request) : outcome (list FieldItem) :=
  if startswith (py "--") (rfile req)
  then Return (map (toy_part []) (lines [] (skipn 2 (rfile req))))
  else Raise (Exn "ValueError" (py "Invalid boundary in multipart form: b''")).

Definition toy : Collaborators := {|
  pdf_parse := toy_parse;
  cgi_parse_header := fun line => line;
  cgi_FieldStorage := toy_storage;
  SimpleHTTPRequestHandler_do_GET := fun _ => send_error 404;
  SimpleHTTPRequestHandler_do_HEAD := fun _ => send_error 404;
  zip_container := fun z => flat_map member_data z;
  b64encode := fun b => b;
  int_of_str := fun _ => Return 0%Z
|}.

(** A reader that reports one page whose text is a high surrogate followed
    by a low surrogate, as a font's character map can spell it. *)
Definition surrogate_reader : Collaborators := {|
  pdf_parse := fun _ => Return [mkPage (Return (Some [0xd83d; 0xde00]))];
  cgi_parse_header := fun line => line;
  cgi_FieldStorage := toy_storage;
  SimpleHTTPRequestHandler_do_GET := fun _ => send_error 404;
  SimpleHTTPRequestHandler_do_HEAD := fun _ => send_error 404;
  zip_container := fun z => flat_map member_data z;
  b64encode := fun b => b;
  int_of_str := fun _ => Return 0%Z
|}.

(** An empty disk, three names for temporary files, no fault scripted. *)
Definition quiet : World := mkWorld ∅ [py "k1"; py "k2"; py "k3"] [] [].

(** The same, with a disk that fills up at the second system call. *)
Definition disk_full : World :=
  mkWorld ∅ [py "k1"; py "k2"; py "k3"]
    [None; Some (Exn "OSError" (py "[Errno 28] No space left on device"))] [].

(** The same, with an [os.unlink] that is refused. *)
Definition unlink_refused : World :=
  mkWorld ∅ [py "k1"] [None; None; None; Some (Exn "PermissionError" (py "[Errno 13]"))] [].

Definition two_pages : list N := py "%PDF" ++ py "a b c" ++ [0x0c] ++ py "second page".
Definition corrupt : list N := py "not a pdf".

(** An upload of three files, the second of them not a PDF. *)
Definition batch_of_three : request :=
  mkRequest (py "POST") (py "/convert") (Some (py "multipart/form-data")) None
    (py "--" ++ py "a.pdf:%PDFone" ++ [0x0a] ++ py "b.pdf:garbage" ++ [0x0a]
     ++ py "c.pdf:%PDFthree"). 

(** An upload of three parts, the second of them a multipart container. *)
Definition batch_with_container : request :=
  mkRequest (py "POST") (py "/convert") (Some (py "multipart/form-data")) None
    (py "--" ++ py "a.pdf:%PDFone" ++ [0x0a] ++ py "b.pdf=" ++ [0x0a]
     ++ py "c.pdf:%PDFthree").

(** A request that declares a multipart form and carries none. *)
Definition no_boundary : request :=
  mkRequest (py "POST") (py "/convert") (Some (py "multipart/form-data")) None
    (py "hello").

(** A request that declares a multipart form with no part in it. *)
Definition no_parts : request :=
  mkRequest (py "POST") (py "/convert") (Some (py "multipart/form-data")) None
    (py "--").

End Demo.

(** ** The vocabulary of the properties *)

Module Spec.

Section WithCollaborators.

Context {collab : Collaborators}.


End WithCollaborators.

(** The two ways the [with] block of [process_pdf] can fail with [e],
    leaving world [w1]: creating the temporary file, or writing to it. *)
Definition temp_file_fault (file_data : list N) (w : World) (e : exn) (w1 : World) : Prop :=
  NamedTemporaryFile (py ".pdf") w = (Raise e, w1) \/
  (exists path w0, NamedTemporaryFile (py ".pdf") w = (Return path, w0) /\
                   write_and_close path file_data w0 = (Raise e, w1)).

(** A computation that sends nothing on the connection. *)
Definition silent {A} (m : M A) : Prop := forall w, wfile (snd (m w)) = wfile w.


(** A part whose content can be read: [fileitem.file] is a file. *)
Definition has_file (item : FieldItem) : bool :=
  match file item with Some _ => true | None => false end.

(** A string the decoder gives back as it was: code points only, and no
    high surrogate directly followed by a low one. *)
Definition plain_text (s : list N) : Prop :=
  Forall is_codepoint s /\ adjacent_surrogates s = false.

(** A test for [plain_text], and for every string of a value. *)
Definition is_plain (s : list N) : bool :=
  forallb (fun c => c <? 0x110000) s && negb (adjacent_surrogates s).

(** The values the decoder gives back as they were: every string and key
    is [plain_text], and no dict repeats a key. *)
Inductive faithful : value -> Prop :=
| faithful_null : faithful JNull
| faithful_bool b : faithful (JBool b)
| faithful_int n : faithful (JInt n)
| faithful_str s : plain_text s -> faithful (JStr s)
| faithful_list xs : Forall faithful xs -> faithful (JList xs)
| faithful_dict kvs :
    NoDup (map fst kvs) ->
    Forall (fun kv => plain_text (fst kv) /\ faithful (snd kv)) kvs ->
    faithful (JDict kvs).

(** The test of line 211 on an item: both keys are there. *)
Definition packaged (item : value) : bool :=
  match py_in (py "filename") item, py_in (py "data") item with
  | Return true, Return true => true
  | _, _ => false
  end.

(** A name [zipfile] can store a member under: what is left of it at its
    first NUL character is not empty and can be encoded, in at most 65535
    bytes. *)
Definition storable (name : list N) : bool :=
  match cut_at_nul name with
  | [] => false
  | (_ :: _) as kept =>
      match PyStr.encode kept with
      | Some header_name => negb (0xffff <? N.of_nat (length header_name))
      | None => false
      end
  end.



End Spec.

(** ** The text the encoder writes, as the decoder meets it *)

Module JsonText.

(** The text [_iterencode_list] emits for the items after the first, and
    [_iterencode_dict] for the pairs after the first. *)
Definition more_items (indent : option nat) (level : nat) (xs : list value) : list N :=
  flat_map (fun y => item_separator indent ++ newline_indent indent level
                     ++ iterencode indent level y) xs.

Definition more_pairs (indent : option nat) (level : nat) (kvs : list (list N * value))
  : list N :=
  flat_map (fun kv => item_separator indent ++ newline_indent indent level
                      ++ encode_basestring_ascii (fst kv) ++ key_separator
                      ++ iterencode indent level (snd kv)) kvs.

Definition ascii (s : list N) : Prop := Forall (fun c => c < 0x80) s.

(** Whether the text after an escaped high surrogate starts with an
    escape the decoder would take for its low half (or fail on). *)
Definition low_escape_follows (t : list N) : bool :=
  match t with
  | b :: u :: r3 =>
      if (b =? 0x5c) && (u =? 0x75) then
        match r3 with
        | g1 :: g2 :: g3 :: g4 :: _ =>
            match decode_uXXXX g1 g2 g3 g4 with
            | Some uni2 => is_low_surrogate uni2
            | None => true
            end
        | _ => true
        end
      else false
  | _ => false
  end.

(** The text after a number: the end, or a character that neither
    continues the digits nor starts a fraction or an exponent. *)
Definition ends_number (rest : list N) : bool :=
  match rest with
  | [] => true
  | c :: _ => negb (is_digit c) && negb (c =? 0x2e) && negb (c =? 0x65) && negb (c =? 0x45)
  end.

(** The first character of an encoded value: not white space and not a
    closing bracket. *)
Definition opens_value (c : N) : Prop :=
  is_ws c = false /\ (c =? 0x5d) = false /\
  (c = 0x22 \/ c = 0x7b \/ c = 0x5b \/ c = 0x6e \/ c = 0x74 \/ c = 0x66
   \/ c = 0x2d \/ is_digit c = true).

(** Fuel that is enough to decode the text of a value. *)
Fixpoint cost (v : value) : nat :=
  match v with
  | JList xs =>
      S ((fix go (l : list value) : nat :=
            match l with
            | [] => O
            | x :: l' => S (cost x + go l')
            end) xs)
  | JDict kvs =>
      S ((fix go (l : list (list N * value)) : nat :=
            match l with
            | [] => O
            | kv :: l' => S (cost (snd kv) + go l')
            end) kvs)
  | _ => 1%nat
  end.

Definition cost_items (xs : list value) : nat :=
  fold_right (fun x n => S (cost x + n)) O xs.

Definition cost_pairs (kvs : list (list N * value)) : nat :=
  fold_right (fun kv n => S (cost (snd kv) + n)) O kvs.

Definition decodes (indent : option nat) (v : value) : Prop :=
  forall level fuel rest,
    (cost v <= fuel)%nat -> ends_number rest = true ->
    scan_once fuel (iterencode indent level v ++ rest) = Some (v, rest).

End JsonText.

Import Spec JsonText.

(** ** The disk, the answers and the archive: more vocabulary *)

Module Frame.

(** A world in which no call into the operating system is made to fail. *)
Definition no_faults (w : World) : Prop := Forall (fun f => f = None) (faults w).

(** The names for temporary files are free, and there are [n] of them at
    least. *)
Definition names_free (w : World) (n : nat) : Prop :=
  (n <= length (tmp_names w))%nat /\
  forall name, name ∈ tmp_names w -> files w !! tmp_path name (py ".pdf") = None.

(** A computation that leaves the file system, the names for temporary
    files and the fault script as they are. *)
Definition wire_only {A} (m : M A) : Prop :=
  forall w, files (snd (m w)) = files w /\ tmp_names (snd (m w)) = tmp_names w
            /\ faults (snd (m w)) = faults w.

End Frame.

Module Wire.

(** The head of a JSON answer: the status line 200 and the two headers. *)
Definition json_head : list event :=
  [SendResponse 200;
   SendHeader (py "Content-Type") (py "application/json");
   SendHeader (py "Access-Control-Allow-Origin") (py "*");
   EndHeaders].

(** The two complete answers of [do_POST]. *)
Definition json_answer (body : list N) : list event := json_head ++ [WfileWrite body].

Definition not_found_answer : list event :=
  [SendResponse 404; EndHeaders; WfileWrite (py "Not Found")].

(** The embedding of [json.loads] reads integers, strings, lists and
    objects; a text with a floating-point literal, [NaN] or [Infinity] is
    outside it and parses to nothing here.  It also leaves out two limits
    of the interpreter, which refuses an integer literal of more than 4300
    digits and nesting beyond its recursion limit.  [within_limits depth v]
    keeps a value clear of both: its integers have at most 4300 digits and
    it is nested at most [depth] deep. *)
Fixpoint within_limits (depth : nat) (v : value) {struct depth} : bool :=
  match v with
  | JInt n => (Z.abs n <? 10 ^ 4300)%Z
  | JList xs =>
      match depth with
      | O => false
      | S d => forallb (within_limits d) xs
      end
  | JDict kvs =>
      match depth with
      | O => false
      | S d => forallb (fun kv => within_limits d (snd kv)) kvs
      end
  | _ => true
  end.

Section WithCollaborators.

Context {collab : Collaborators}.

(** The request is a POST of JSON that reaches line 109 with [payload]:
    the path and the content type select the JSON branch, the
    Content-Length is a number, and the bytes read decode and parse, to a
    payload without floats that is within the limits of the interpreter
    at a depth of 100. *)
Definition json_payload (req : request) (payload : value) : Prop :=
  path req = py "/convert" /\
  parse_content_type req = Return (py "application/json") /\
  exists length post_data,
    int_of_header (content_length req) = Return length /\
    bind_outcome (rfile_read req length) bytes_decode = Return post_data /\
    json_loads post_data = Return payload /\
    within_limits 100 payload = true.

(** What the conversion makes of the bytes of an upload: the pages the
    reader finds, extracted in order, or the first fault as a failure
    record. *)
Definition converted (file_data filename : list N) : value :=
  match bind_outcome (pdf_parse file_data) (fun pdf => extract_pages 0 pdf []) with
  | Return pages => success_record filename (pdf_data_of filename pages)
  | Raise e => failure_record filename e
  end.

(** [r] is the record of the uploaded part [item]: the part has a file
    name and a file, and [r] is what the conversion makes of its bytes. *)
Definition converted_from (item : FieldItem) (r : value) : Prop :=
  exists name data,
    filename item = Some name /\ file item = Some data /\ r = converted data name.

End WithCollaborators.

(** The parts of a form the handler converts: those of [files[]] that
    carry a file name. *)
Definition uploads (form : list FieldItem) : list FieldItem :=
  filter (fun item => truthy (filename item)) (filter is_files_field form).

End Wire.

Module Archive.

(** The member written for a packaged item holds the item's [data] as
    [json.dumps(data, indent=2)], deflated. *)
Definition holds_data (item : value) (m : ZipMember) : Prop :=
  exists data, py_getitem item (py "data") = Return data /\
               deflated m = true /\
               member_data m = dumps (Some 2%nat) data.

(** The member written for a packaged item parses back to the item's
    [data]. *)
Definition returns_data (item : value) (m : ZipMember) : Prop :=
  exists data, py_getitem item (py "data") = Return data /\
               bind_outcome (bytes_decode (member_data m)) json_loads = Return data.

(** A key of an object given as [json_data] that passes the test of line
    211 as a string: both words occur in it. *)
Definition passes_as_text (k : list N) : bool :=
  contains (py "filename") k && contains (py "data") k.

End Archive.

Module Pages.

(** The text of a page as the counts see it: [None] counts as empty. *)
Definition text_of (text : option (list N)) : list N :=
  match text with Some s => s | None => [] end.

(** A page record against the text extracted for it: the content is the
    text, the character count its length, the word count the number of its
    words. *)
Definition counts_text (text : option (list N)) (page : value) : Prop :=
  py_getitem page (py "content")
    = Return (match text with Some s => JStr s | None => JNull end) /\
  py_getitem page (py "character_count") = Return (JInt (Z.of_nat (length (text_of text)))) /\
  py_getitem page (py "word_count") = Return (JInt (Z.of_nat (length (split (text_of text))))).

End Pages.

Module Scalar.

(** A Unicode scalar value: a code point that is not a surrogate.  The
    text [bytes.decode('utf-8')] returns is made of these. *)
Definition scalar (c : N) : bool :=
  (c <? 0x110000) && negb (is_high_surrogate c || is_low_surrogate c).

Definition scalar_text (s : list N) : Prop := Forall (fun c => scalar c = true) s.

(** Whether the text starts with the escape of a low surrogate. *)
Definition starts_low_escape (s : list N) : bool :=
  match s with
  | b :: u :: g1 :: g2 :: g3 :: g4 :: _ =>
      (b =? 0x5c) && (u =? 0x75)
      && match decode_uXXXX g1 g2 g3 g4 with
         | Some uni => is_low_surrogate uni
         | None => false
         end
  | _ => false
  end.

(** A value in which no dict repeats a key, at any depth: every dict the
    converter builds from literal keys is one. *)
Inductive well_keyed : value -> Prop :=
| well_keyed_null : well_keyed JNull
| well_keyed_bool b : well_keyed (JBool b)
| well_keyed_int n : well_keyed (JInt n)
| well_keyed_str s : well_keyed (JStr s)
| well_keyed_list xs : Forall well_keyed xs -> well_keyed (JList xs)
| well_keyed_dict kvs :
    NoDup (map fst kvs) -> Forall (fun kv => well_keyed (snd kv)) kvs ->
    well_keyed (JDict kvs).

End Scalar.

(** ** A second setting: JSON requests and a disk that holds a file *)

Module DemoJson.

Import Demo.

(** [int(s)] on a run of decimal digits. *)
Definition decimal (s : list N) : outcome Z :=
  match s with
  | [] => Raise (Exn "ValueError" (py "invalid literal for int() with base 10: ''"))
  | _ :: _ =>
      if forallb is_digit s
      then Return (fold_left (fun n c => n * 10 + Z.of_N (c - 0x30))%Z s 0%Z)
      else Raise (Exn "ValueError" (py "invalid literal for int() with base 10"))
  end.

(** The toy collaborators, with a Content-Length that is read. *)
Definition toy_json : Collaborators := {|
  pdf_parse := toy_parse;
  cgi_parse_header := fun line => line;
  cgi_FieldStorage := toy_storage;
  SimpleHTTPRequestHandler_do_GET := fun _ => send_error 404;
  SimpleHTTPRequestHandler_do_HEAD := fun _ => send_error 404;
  zip_container := fun z => flat_map member_data z;
  b64encode := fun b => b;
  int_of_str := decimal
|}.

(** A POST of [payload] as JSON, with its Content-Length. *)
Definition post_json (payload : value) : request :=
  mkRequest (py "POST") (py "/convert") (Some (py "application/json"))
    (Some (int_repr (Z.of_nat (length (dumps None payload)))))
    (dumps None payload).

(** A disk with the front page on it, and no fault scripted. *)
Definition served : World :=
  mkWorld {[ py "/srv/index.html" := py "<html></html>" ]} [py "k1"; py "k2"; py "k3"] [] [].

(** The same disk, with an [os.unlink] that is refused. *)
Definition served_unlink_refused : World :=
  mkWorld {[ py "/srv/index.html" := py "<html></html>" ]} [py "k1"]
    [None; None; None; Some (Exn "PermissionError" (py "[Errno 13]"))] [].

(** The download request of a front end that holds two results, one of
    them without its data. *)
Definition download_two : value :=
  JDict [(py "action", JStr (py "download_all"));
         (py "json_data",
           JList [JDict [(py "filename", JStr (py "report.pdf"));
                         (py "data", JDict [(py "title", JStr [0x1f600; 0xe9]);
                                            (py "total_pages", JInt 2)])];
                  JDict [(py "filename", JStr (py "lost.pdf"))]])].

End DemoJson.

Import Frame Wire Archive Pages Scalar.


(** * Properties *)

(** ** Running the monad *)

Section RunFacts.

Context {A B : Type}.

Lemma bind_return (m : M A) (k : A -> M B) w a w' :
  m w = (Return a, w') -> bind m k w = k a w'.
Proof. intros H. unfold bind. now rewrite H. Qed.

Lemma bind_raise (m : M A) (k : A -> M B) w e w' :
  m w = (Raise e, w') -> bind m k w = (Raise e, w').
Proof. intros H. unfold bind. now rewrite H. Qed.

Lemma bind_inv_return (m : M A) (k : A -> M B) w b w' :
  bind m k w = (Return b, w') ->
  exists a w1, m w = (Return a, w1) /\ k a w1 = (Return b, w').
Proof.
  unfold bind. destruct (m w) as [[a|e] w1]; intros H.
  - now exists a, w1.
  - discriminate.
Qed.

End RunFacts.

(** ** The conversion function *)

Section ProcessPdfFacts.

Context {collab : Collaborators}.

Lemma syscall_files w r w' : syscall w = (r, w') ->
  files w' = files w /\ tmp_names w' = tmp_names w /\ wfile w' = wfile w.
Proof.
  unfold syscall. destruct (faults w) as [|[e|] fs]; intros [= <- <-]; auto.
Qed.

(** The cleanup never raises, whatever [os.unlink] does. *)
Lemma cleanup_returns path w : exists w', cleanup path w = (Return tt, w').
Proof.
  unfold cleanup, try_except.
  destruct (unlink path w) as [[[]|e] w'] eqn:E; eauto.
Qed.

(** Once the temporary file is written, [process_pdf] is the protected
    region run in the world the [with] block leaves. *)
Lemma process_pdf_protected file_data filename w path w1 :
  make_temp_pdf file_data w = (Return path, w1) ->
  process_pdf file_data filename w =
  try_finally
    (try_except (convert_temp_pdf path filename)
       (fun e => ret (failure_record filename e)))
    (cleanup path) w1.
Proof. intros H. unfold process_pdf. now rewrite (bind_return _ _ _ _ _ H). Qed.

(** The value [process_pdf] returns is decided by the [try] body alone. *)
Lemma process_pdf_result file_data filename w path w1 :
  make_temp_pdf file_data w = (Return path, w1) ->
  fst (process_pdf file_data filename w) =
  match fst (convert_temp_pdf path filename w1) with
  | Return v => Return v
  | Raise e => Return (failure_record filename e)
  end.
Proof.
  intros H. rewrite (process_pdf_protected _ _ _ _ _ H).
  unfold try_finally, try_except.
  destruct (convert_temp_pdf path filename w1) as [[v|e] w2]; cbn.
  - destruct (cleanup_returns path w2) as [w3 ->]. reflexivity.
  - destruct (cleanup_returns path w2) as [w3 ->]. reflexivity.
Qed.

Lemma page_number_of_record i text :
  py_getitem (page_record i text) (py "page_number") = Return (JInt (Z.of_nat (S i))).
Proof.
  cbn. do 2 f_equal. lia.
Qed.

Lemma page_numbers_of_records texts : forall i,
  map (fun p => py_getitem p (py "page_number"))
    (imap (fun k t => page_record (i + k) t) texts) =
  map (fun n => Return (JInt (Z.of_nat n))) (seq (S i) (length texts)).
Proof.
  induction texts as [|t texts IH]; intros i; [reflexivity|].
  cbn [imap map length seq]. rewrite page_number_of_record, Nat.add_0_r. f_equal.
  rewrite <- IH. f_equal. apply imap_ext. intros k x _. cbn. f_equal. lia.
Qed.

Lemma content_of_record i text :
  py_getitem (page_record i text) (py "content") =
  Return (match text with Some s => JStr s | None => JNull end).
Proof. reflexivity. Qed.

Lemma contents_of_records texts : forall i,
  map (fun p => py_getitem p (py "content"))
    (imap (fun k t => page_record (i + k) t) texts) =
  map (fun t => Return (match t with Some s => JStr s | None => JNull end)) texts.
Proof.
  induction texts as [|t texts IH]; intros i; [reflexivity|].
  cbn [imap map]. rewrite content_of_record. f_equal.
  rewrite <- (IH (S i)). f_equal. apply imap_ext. intros k x _. cbn. f_equal. lia.
Qed.

Lemma extract_pages_texts texts : forall i acc,
  extract_pages i (map (fun t => mkPage (Return t)) texts) acc =
  Return (acc ++ imap (fun k t => page_record (i + k) t) texts).
Proof.
  induction texts as [|t texts IH]; intros i acc; cbn.
  - now rewrite app_nil_r.
  - rewrite IH. rewrite <- app_assoc. cbn. rewrite Nat.add_0_r.
    do 3 f_equal. apply imap_ext. intros k x _. cbn. f_equal. lia.
Qed.

End ProcessPdfFacts.

Section ProcessPdfClaims.

Context {collab : Collaborators}.




(** C3. When the reader opens the temporary file and yields [N] pages
    whose texts extract, [process_pdf] returns success, [total_pages] is
    [N], [pages] has [N] entries, their [page_number]s are 1, 2, ..., [N]
    and their [content]s are the page texts in document order. *)
Theorem process_pdf_page_numbers file_data filename w path w1 w2 texts :
  make_temp_pdf file_data w = (Return path, w1) ->
  PdfReader path w1 = (Return (map (fun t => mkPage (Return t)) texts), w2) ->
  exists pages,
    fst (process_pdf file_data filename w) =
      Return (JDict [(py "filename", JStr filename);
                     (py "success", JBool true);
                     (py "data",
                       JDict [(py "filename", JStr filename);
                              (py "total_pages", JInt (Z.of_nat (length texts)));
                              (py "pages", JList pages)])]) /\
    length pages = length texts /\
    map (fun p => py_getitem p (py "page_number")) pages =
      map (fun i => Return (JInt (Z.of_nat i))) (seq 1 (length texts)) /\
    map (fun p => py_getitem p (py "content")) pages =
      map (fun t => Return (match t with Some s => JStr s | None => JNull end)) texts.
Proof.
  intros Htmp Hopen.
  exists (imap (fun k t => page_record k t) texts).
  rewrite (process_pdf_result _ _ _ _ _ Htmp).
  unfold convert_temp_pdf. rewrite (bind_return _ _ _ _ _ Hopen).
  unfold bind, lift, ret. rewrite extract_pages_texts. cbn [app fst].
  split; [|split; [|split]].
  - unfold success_record, pdf_data_of. now rewrite length_imap.
  - apply length_imap.
  - apply (page_numbers_of_records texts 0).
  - apply (contents_of_records texts 0).
Qed.

End ProcessPdfClaims.

Section ProcessPdfTempFile.

Context {collab : Collaborators}.

Lemma make_temp_pdf_fault file_data w e w1 :
  temp_file_fault file_data w e w1 -> make_temp_pdf file_data w = (Raise e, w1).
Proof.
  unfold make_temp_pdf.
  intros [H|(path & w0 & H & Hw)].
  - now rewrite (bind_raise _ _ _ _ _ H).
  - rewrite (bind_return _ _ _ _ _ H). now rewrite (bind_raise _ _ _ _ _ Hw).
Qed.

(** C10. A fault while the temporary file is created or written leaves
    [process_pdf] as a raised exception, not as a failure record; the
    handler's own [try] around the call is what turns it into an entry of
    the batch: the dict with the three keys [filename], the name of the
    part, [success], which is [False], and [error], which is [str(e)]. *)
Theorem temp_file_fault_propagates file_data filename field results w e w1 :
  temp_file_fault file_data w e w1 ->
  truthy (Some filename) = true ->
  process_pdf file_data filename w = (Raise e, w1) /\
  convert_files [mkFieldItem field (Some filename) (Some file_data)] results w =
    (Return (results ++ [JDict [(py "filename", JStr filename);
                                (py "success", JBool false);
                                (py "error", JStr (exn_str e))]]), w1).
Proof.
  intros H Hname. apply make_temp_pdf_fault in H.
  assert (Hp : process_pdf file_data filename w = (Raise e, w1)).
  { unfold process_pdf. now rewrite (bind_raise _ _ _ _ _ H). }
  split; [exact Hp|].
  cbn [convert_files Http.filename]. rewrite Hname.
  unfold file_read. cbn [file]. unfold bind at 1, lift.
  unfold bind at 1. unfold try_except. rewrite Hp. reflexivity.
Qed.

(** Inside the protected region the claim of C6 holds: whatever the
    [try] body does, [os.unlink] is called on the temporary file; when it
    succeeds the file is gone, and when it fails the fault is dropped and
    the result is the same. *)
Lemma process_pdf_cleans_up file_data filename w path w1 r w2 u w3 :
  make_temp_pdf file_data w = (Return path, w1) ->
  convert_temp_pdf path filename w1 = (r, w2) ->
  unlink path w2 = (u, w3) ->
  process_pdf file_data filename w =
    (match r with
     | Return v => Return v
     | Raise e => Return (failure_record filename e)
     end, w3) /\
  (u = Return tt -> files w3 !! path = None).
Proof.
  intros Htmp Hbody Hun. split.
  - rewrite (process_pdf_protected _ _ _ _ _ Htmp).
    unfold try_finally, try_except, cleanup. rewrite Hbody.
    destruct r as [v|e]; cbv beta iota; unfold ret, try_except; rewrite Hun;
      now destruct u as [[]|e'].
  - intros ->. revert Hun. unfold unlink, bind.
    destruct (syscall w2) as [[[]|e] w'] eqn:Es; [|discriminate].
    destruct (files w' !! path); [|discriminate].
    intros [= <-]. cbn. apply lookup_delete_eq.
Qed.

(** C6, where the code departs from the claim. When the temporary file
    has been created and the write to it fails, [process_pdf] raises
    before its [try] is entered: the [finally] clause never runs and the
    file stays on disk. *)
Theorem temp_file_left_when_write_fails file_data filename w path w0 e w1 :
  NamedTemporaryFile (py ".pdf") w = (Return path, w0) ->
  write_and_close path file_data w0 = (Raise e, w1) ->
  process_pdf file_data filename w = (Raise e, w1) /\
  files w1 !! path = Some [].
Proof.
  intros Hc Hw. split.
  - unfold process_pdf. apply bind_raise, make_temp_pdf_fault. right. eauto.
  - assert (files w0 !! path = Some []) as Hf.
    { revert Hc. unfold NamedTemporaryFile, bind.
      destruct (syscall w) as [[[]|e'] w'] eqn:Es; [|discriminate].
      destruct (mkstemp (files w') (tmp_names w') (py ".pdf")) as [[p rest]|]; [|discriminate].
      intros [= -> <-]. cbn. apply lookup_insert_eq. }
    revert Hw. unfold write_and_close, bind.
    destruct (syscall w0) as [[[]|e'] w'] eqn:Es; [discriminate|].
    intros [= <- <-]. destruct (syscall_files _ _ _ Es) as (-> & _). exact Hf.
Qed.

End ProcessPdfTempFile.

Import Demo.


Lemma process_pdf_page_numbers_witness :
  exists pages,
    fst (process_pdf (collab := toy) two_pages (py "report.pdf") quiet) =
      Return (JDict [(py "filename", JStr (py "report.pdf"));
                     (py "success", JBool true);
                     (py "data",
                       JDict [(py "filename", JStr (py "report.pdf"));
                              (py "total_pages", JInt 2);
                              (py "pages", JList pages)])]) /\
    length pages = 2%nat /\
    map (fun p => py_getitem p (py "page_number")) pages =
      [Return (JInt 1); Return (JInt 2)] /\
    map (fun p => py_getitem p (py "content")) pages =
      [Return (JStr (py "a b c")); Return (JStr (py "second page"))].
Proof.
  refine (process_pdf_page_numbers (collab := toy) two_pages (py "report.pdf") quiet
            (tmp_path (py "k1") (py ".pdf")) _ _
            [Some (py "a b c"); Some (py "second page")] _ _).
  - vm_compute. reflexivity.
  - vm_compute. reflexivity.
Defined.

Lemma temp_file_fault_propagates_witness :
  process_pdf (collab := toy) two_pages (py "report.pdf") disk_full =
    (Raise (Exn "OSError" (py "[Errno 28] No space left on device")),
     mkWorld {[ tmp_path (py "k1") (py ".pdf") := [] ]} [py "k2"; py "k3"] [] []) /\
  convert_files (collab := toy)
    [mkFieldItem (py "files[]") (Some (py "report.pdf")) (Some two_pages)] [] disk_full =
    (Return [JDict [(py "filename", JStr (py "report.pdf"));
                    (py "success", JBool false);
                    (py "error", JStr (py "[Errno 28] No space left on device"))]],
     mkWorld {[ tmp_path (py "k1") (py ".pdf") := [] ]} [py "k2"; py "k3"] [] []).
Proof.
  refine (temp_file_fault_propagates (collab := toy) two_pages (py "report.pdf")
            (py "files[]") [] disk_full _ _ _ _).
  - right. eexists _, _. split; vm_compute; reflexivity.
  - reflexivity.
Defined.

Lemma temp_file_left_when_write_fails_witness :
  process_pdf (collab := toy) two_pages (py "report.pdf") disk_full =
    (Raise (Exn "OSError" (py "[Errno 28] No space left on device")),
     mkWorld {[ tmp_path (py "k1") (py ".pdf") := [] ]} [py "k2"; py "k3"] [] []) /\
  files (mkWorld {[ tmp_path (py "k1") (py ".pdf") := [] ]} [py "k2"; py "k3"] [] [])
    !! tmp_path (py "k1") (py ".pdf") = Some [].
Proof.
  refine (temp_file_left_when_write_fails (collab := toy) two_pages (py "report.pdf")
            disk_full (tmp_path (py "k1") (py ".pdf")) _ _ _ _ _).
  - vm_compute. reflexivity.
  - vm_compute. reflexivity.
Defined.

(** ** The JSON encoder and decoder *)

Module JsonFacts.

(** Induction over a value and the values nested in it. *)
Section ValueInd.

Variable P : value -> Prop.
Hypothesis Hnull : P JNull.
Hypothesis Hbool : forall b, P (JBool b).
Hypothesis Hint : forall n, P (JInt n).
Hypothesis Hstr : forall s, P (JStr s).
Hypothesis Hlist : forall xs, Forall P xs -> P (JList xs).
Hypothesis Hdict : forall kvs, Forall (fun kv => P (snd kv)) kvs -> P (JDict kvs).

Lemma value_nested_ind : forall v, P v.
Proof.
  fix IH 1. intros [|b|n|s|xs|kvs].
  - exact Hnull.
  - apply Hbool.
  - apply Hint.
  - apply Hstr.
  - apply Hlist. induction xs as [|x xs IHxs]; constructor; [apply IH|exact IHxs].
  - apply Hdict. induction kvs as [|kv kvs IHkvs]; constructor; [apply IH|exact IHkvs].
Qed.

End ValueInd.

Lemma iterencode_list indent level x xs :
  iterencode indent level (JList (x :: xs)) =
  [0x5b] ++ newline_indent indent (S level) ++ iterencode indent (S level) x
  ++ more_items indent (S level) xs ++ newline_indent indent level ++ [0x5d].
Proof.
  cbn [iterencode]. do 3 f_equal. f_equal.
  induction xs as [|y xs IH]; [reflexivity|].
  cbn [more_items flat_map]. rewrite <- !app_assoc. do 3 f_equal. exact IH.
Qed.

Lemma iterencode_dict indent level k x kvs :
  iterencode indent level (JDict ((k, x) :: kvs)) =
  [0x7b] ++ newline_indent indent (S level)
  ++ encode_basestring_ascii k ++ key_separator ++ iterencode indent (S level) x
  ++ more_pairs indent (S level) kvs ++ newline_indent indent level ++ [0x7d].
Proof.
  cbn [iterencode]. do 5 f_equal. f_equal.
  induction kvs as [|[k' y] kvs IH]; [reflexivity|].
  cbn [more_pairs flat_map fst snd]. rewrite <- !app_assoc. do 5 f_equal. exact IH.
Qed.

(** *** The encoder writes ASCII only *)

Lemma ascii_app s t : ascii s -> ascii t -> ascii (s ++ t).
Proof. apply Forall_app_2. Qed.

Lemma land_15_lt x : N.land x 0xf < 16.
Proof.
  change 0xf with (N.ones 4). rewrite N.land_ones. apply N.mod_lt. discriminate.
Qed.

Lemma hexdigit_ascii d : d < 16 -> hexdigit d < 0x80.
Proof. unfold hexdigit. intros H. destruct (N.ltb_spec d 10); lia. Qed.

Lemma hex4_ascii n : ascii (hex4 n).
Proof.
  unfold hex4, ascii. repeat constructor; apply hexdigit_ascii, land_15_lt.
Qed.

Lemma escape_char_ascii c : ascii (escape_char c).
Proof.
  unfold escape_char, ascii.
  repeat match goal with
         | |- context [if ?b then _ else _] => destruct b eqn:?
         end;
    try (repeat constructor; lia).
  - constructor; [|constructor]. apply andb_true_iff in Heqb6 as [_ H%N.leb_le]. lia.
  - do 2 (constructor; [lia|]). apply hex4_ascii.
  - apply Forall_app_2; (do 2 (constructor; [lia|])); apply hex4_ascii.
Qed.

Lemma encode_basestring_ascii_ascii s : ascii (encode_basestring_ascii s).
Proof.
  unfold encode_basestring_ascii. constructor; [lia|].
  apply ascii_app; [|repeat constructor; lia].
  induction s as [|c s IH]; [constructor|]. cbn. apply ascii_app; [apply escape_char_ascii|exact IH].
Qed.

Lemma uint_digits_ascii d : ascii (uint_digits d).
Proof. induction d; cbn; constructor; try lia; assumption. Qed.

Lemma int_repr_ascii z : ascii (int_repr z).
Proof.
  unfold int_repr. destruct (Z.to_int z); [|constructor; [lia|]]; apply uint_digits_ascii.
Qed.

Lemma newline_indent_ascii indent level : ascii (newline_indent indent level).
Proof.
  destruct indent as [n|]; cbn; [|constructor].
  constructor; [lia|]. induction (n * level)%nat; cbn; constructor; [lia|assumption].
Qed.

Lemma item_separator_ascii indent : ascii (item_separator indent).
Proof. destruct indent; cbn; repeat constructor; lia. Qed.

Lemma iterencode_ascii indent v : forall level, ascii (iterencode indent level v).
Proof.
  induction v as [|b|n|s|xs IH|kvs IH] using value_nested_ind; intros level.
  - cbn. repeat constructor; lia.
  - destruct b; cbn; repeat constructor; lia.
  - apply int_repr_ascii.
  - apply encode_basestring_ascii_ascii.
  - destruct xs as [|x xs]; [cbn; repeat constructor; lia|].
    rewrite iterencode_list. inversion IH as [|? ? Hx Hxs]; subst.
    repeat apply ascii_app; try (repeat constructor; lia);
      try apply newline_indent_ascii; auto.
    unfold more_items. clear - Hxs. induction Hxs as [|y ys Hy Hys IHys]; [constructor|].
    cbn. repeat apply ascii_app; auto using item_separator_ascii, newline_indent_ascii.
  - destruct kvs as [|[k x] kvs]; [cbn; repeat constructor; lia|].
    rewrite iterencode_dict. inversion IH as [|? ? Hx Hxs]; subst.
    repeat apply ascii_app; try (repeat constructor; lia);
      try apply newline_indent_ascii; try apply encode_basestring_ascii_ascii; auto.
    unfold more_pairs. clear - Hxs. induction Hxs as [|y ys Hy Hys IHys]; [constructor|].
    cbn [flat_map]. repeat apply ascii_app;
      auto using item_separator_ascii, newline_indent_ascii, encode_basestring_ascii_ascii.
    unfold key_separator; repeat constructor; lia.
Qed.

Lemma encode_ascii s : ascii s -> PyStr.encode s = Some s.
Proof.
  induction 1 as [|c s Hc Hs IH]; [reflexivity|].
  cbn. unfold utf8_encode_char. destruct (N.ltb_spec c 0x80); [|lia]. now rewrite IH.
Qed.

Lemma decode_ascii s : ascii s -> PyStr.decode s = Some s.
Proof.
  induction 1 as [|c s Hc Hs IH]; [reflexivity|].
  cbn. destruct (N.ltb_spec c 0x80); [|lia]. now rewrite IH.
Qed.

(** [json.dumps(v).encode()] never fails: the text is its own UTF-8. *)
Lemma str_encode_dumps indent v : str_encode (dumps indent v) = Return (dumps indent v).
Proof.
  unfold str_encode, dumps. now rewrite (encode_ascii _ (iterencode_ascii indent v 0)).
Qed.

End JsonFacts.

(** ** The request handler *)

Section WireFacts.

Lemma silent_ret {A} (a : A) : silent (ret a).
Proof. now intros w. Qed.

Lemma silent_lift {A} (r : outcome A) : silent (lift r).
Proof. now intros w. Qed.

Lemma silent_bind {A B} (m : M A) (k : A -> M B) :
  silent m -> (forall a, silent (k a)) -> silent (bind m k).
Proof.
  intros Hm Hk w. unfold bind. specialize (Hm w).
  destruct (m w) as [[a|e] w1]; cbn in *; [|exact Hm].
  now rewrite Hk.
Qed.

Lemma silent_try_except {A} (m : M A) (h : exn -> M A) :
  silent m -> (forall e, silent (h e)) -> silent (try_except m h).
Proof.
  intros Hm Hh w. unfold try_except. specialize (Hm w).
  destruct (m w) as [[a|e] w1]; cbn in *; [exact Hm|].
  now rewrite Hh.
Qed.

Lemma silent_try_finally {A} (m : M A) (fin : M unit) :
  silent m -> silent fin -> silent (try_finally m fin).
Proof.
  intros Hm Hf w. unfold try_finally. specialize (Hm w).
  destruct (m w) as [r w1]. specialize (Hf w1).
  destruct (fin w1) as [[[]|e] w2]; cbn in *; congruence.
Qed.

Lemma silent_syscall : silent syscall.
Proof. intros w. unfold syscall. now destruct (faults w) as [|[e|] fs]. Qed.

Lemma silent_NamedTemporaryFile suffix : silent (NamedTemporaryFile suffix).
Proof.
  apply silent_bind; [apply silent_syscall|]. intros _ w.
  now destruct (mkstemp (files w) (tmp_names w) suffix) as [[p rest]|].
Qed.

Lemma silent_write_and_close path data : silent (write_and_close path data).
Proof. apply silent_bind; [apply silent_syscall|]. now intros _ w. Qed.

Lemma silent_unlink path : silent (unlink path).
Proof.
  apply silent_bind; [apply silent_syscall|]. intros _ w.
  now destruct (files w !! path).
Qed.

Lemma silent_read_file path : silent (read_file path).
Proof.
  apply silent_bind; [apply silent_syscall|]. intros _ w.
  now destruct (files w !! path).
Qed.

Context {collab : Collaborators}.

Lemma silent_process_pdf file_data filename : silent (process_pdf file_data filename).
Proof.
  unfold process_pdf, make_temp_pdf, convert_temp_pdf, cleanup, PdfReader.
  repeat first
    [ apply silent_NamedTemporaryFile | apply silent_write_and_close
    | apply silent_unlink | apply silent_read_file
    | apply silent_ret | apply silent_lift
    | apply silent_try_finally | apply silent_try_except | apply silent_bind
    | intro ].
Qed.

End WireFacts.

Section UploadClaims.

Context {collab : Collaborators}.


(** One step of the loop when the conversion raises: the failure entry is
    appended and the loop goes on with the remaining files. *)
Lemma convert_files_raise item name data rest results w e w1 :
  filename item = Some name -> truthy (Some name) = true -> file item = Some data ->
  process_pdf data name w = (Raise e, w1) ->
  convert_files (item :: rest) results w =
  convert_files rest (results ++ [failure_record name e]) w1.
Proof.
  intros Hn Ht Hf Hp. cbn [convert_files]. rewrite Hn, Ht. unfold file_read. rewrite Hf.
  unfold bind at 1, lift. unfold bind at 1. unfold try_except. now rewrite Hp.
Qed.

Lemma convert_files_return item name data rest results w v w1 :
  filename item = Some name -> truthy (Some name) = true -> file item = Some data ->
  process_pdf data name w = (Return v, w1) ->
  convert_files (item :: rest) results w = convert_files rest (results ++ [v]) w1.
Proof.
  intros Hn Ht Hf Hp. cbn [convert_files]. rewrite Hn, Ht. unfold file_read. rewrite Hf.
  unfold bind at 1, lift. unfold bind at 1. unfold try_except. now rewrite Hp.
Qed.

Lemma convert_files_skip item rest results w :
  truthy (filename item) = false ->
  convert_files (item :: rest) results w = convert_files rest results w.
Proof.
  intros Ht. cbn [convert_files]. destruct (filename item) as [name|]; [|reflexivity].
  now rewrite Ht.
Qed.

(** One step of the loop on a part that has a file name and no file: the
    read raises outside the [try], and the loop is left by the fault. *)
Lemma convert_files_unreadable item rest results w :
  truthy (filename item) = true -> file item = None ->
  convert_files (item :: rest) results w =
  (Raise (AttributeError "'NoneType' object has no attribute 'read'"), w).
Proof.
  intros Ht Hf. cbn [convert_files]. destruct (filename item) as [name|]; [|discriminate].
  rewrite Ht. unfold file_read. now rewrite Hf.
Qed.


(** The loop sends nothing, however it ends. *)
Lemma silent_convert_files files_ : forall results, silent (convert_files files_ results).
Proof.
  induction files_ as [|item rest IH]; intros results w; [reflexivity|].
  destruct (truthy (filename item)) eqn:Ht;
    [|rewrite (convert_files_skip _ _ _ _ Ht); apply IH].
  destruct (file item) as [data|] eqn:Hf;
    [|now rewrite (convert_files_unreadable _ _ _ _ Ht Hf)].
  destruct (filename item) as [name|] eqn:Hn; [|discriminate].
  pose proof (silent_process_pdf data name w) as Hs.
  destruct (process_pdf data name w) as [[v|e] w1] eqn:Hp; cbn in Hs.
  - rewrite (convert_files_return _ _ _ _ _ _ _ _ Hn Ht Hf Hp). now rewrite IH.
  - rewrite (convert_files_raise _ _ _ _ _ _ _ _ Hn Ht Hf Hp). now rewrite IH.
Qed.




Lemma send_json_run body w :
  send_json body w =
  (Return tt,
   mkWorld (files w) (tmp_names w) (faults w)
     (wfile w ++ [SendResponse 200;
                  SendHeader (py "Content-Type") (py "application/json");
                  SendHeader (py "Access-Control-Allow-Origin") (py "*");
                  EndHeaders;
                  WfileWrite (dumps None body)])).
Proof.
  unfold send_json, bind, send_response, send_header, end_headers, wfile_write, emit, lift.
  cbn. rewrite JsonFacts.str_encode_dumps. cbn. now rewrite <- !app_assoc.
Qed.

Lemma no_files_field form :
  existsb is_files_field form = false -> filter is_files_field form = [].
Proof.
  induction form as [|item form IH]; [reflexivity|].
  cbn [existsb]. intros [Hi Hf]%orb_false_iff.
  rewrite filter_cons_False by (rewrite Hi; exact id). auto.
Qed.


End UploadClaims.



Section RequestClaims.

Context {collab : Collaborators}.

Lemma do_POST_convert req w :
  path req = py "/convert" ->
  do_POST req w =
  bind (lift (parse_content_type req))
    (fun content_type =>
       if str_eqb content_type (py "multipart/form-data") then do_POST_multipart req
       else if str_eqb content_type (py "application/json") then do_POST_json req
       else not_found) w.
Proof.
  intros H. unfold do_POST. rewrite H.
  now replace (str_eqb (py "/convert") (py "/convert")) with true by reflexivity.
Qed.

(** C7, where the code departs from the claim. An OPTIONS request never
    reaches the preflight lines: the server has no [do_OPTIONS] and refuses
    the method with 501; and inside [do_POST] the preflight test sits in
    the [elif] of [if self.path == '/convert'], so that for every request
    [do_POST] is the first branch or the default 404 (a request to
    [/convert] without a Content-Type, as a preflight is, raises). *)
Theorem options_is_not_answered_by_preflight p ct cl body w :
  handle_one_request (mkRequest (py "OPTIONS") p ct cl body) w =
    (Return tt, mkWorld (files w) (tmp_names w) (faults w) (wfile w ++ [SendError 501])) /\
  do_POST (mkRequest (py "OPTIONS") (py "/convert") None cl body) w =
    (Raise (TypeError "can only concatenate str (not 'NoneType') to str"), w) /\
  (forall req,
     do_POST req w =
     if str_eqb (path req) (py "/convert")
     then bind (lift (parse_content_type req))
            (fun content_type =>
               if str_eqb content_type (py "multipart/form-data")
               then do_POST_multipart req
               else if str_eqb content_type (py "application/json")
                    then do_POST_json req
                    else not_found) w
     else not_found w).
Proof.
  split; [reflexivity|]. split.
  - now rewrite do_POST_convert.
  - intros req. unfold do_POST. now destruct (str_eqb (path req) (py "/convert")).
Qed.

(** C8, where the code departs from the claim. A POST to [/convert]
    without a Content-Type raises [TypeError] before anything is sent; one
    that declares a multipart form which [cgi.FieldStorage] cannot read
    raises the parser's fault; one whose form has no part is answered 200
    with an empty array.  None of them gets the 404. *)
Theorem malformed_post_is_not_404 w :
  (forall cmd cl body,
     do_POST (mkRequest cmd (py "/convert") None cl body) w =
       (Raise (TypeError "can only concatenate str (not 'NoneType') to str"), w)) /\
  (forall req e,
     path req = py "/convert" ->
     parse_content_type req = Return (py "multipart/form-data") ->
     cgi_FieldStorage req = Raise e ->
     do_POST req w = (Raise e, w)) /\
  (forall req,
     path req = py "/convert" ->
     parse_content_type req = Return (py "multipart/form-data") ->
     cgi_FieldStorage req = Return [] ->
     do_POST req w =
       (Return tt,
        mkWorld (files w) (tmp_names w) (faults w)
          (wfile w ++ [SendResponse 200;
                       SendHeader (py "Content-Type") (py "application/json");
                       SendHeader (py "Access-Control-Allow-Origin") (py "*");
                       EndHeaders;
                       WfileWrite (py "[]")]))).
Proof.
  split; [|split].
  - intros cmd cl body. now rewrite do_POST_convert.
  - intros req e Hp Hct Hf. rewrite (do_POST_convert _ _ Hp).
    unfold bind at 1, lift. rewrite Hct.
    replace (str_eqb (py "multipart/form-data") (py "multipart/form-data")) with true
      by reflexivity.
    unfold do_POST_multipart, bind at 1, lift. now rewrite Hf.
  - intros req Hp Hct Hf. rewrite (do_POST_convert _ _ Hp).
    unfold bind at 1, lift. rewrite Hct.
    replace (str_eqb (py "multipart/form-data") (py "multipart/form-data")) with true
      by reflexivity.
    unfold do_POST_multipart, bind at 1, lift. rewrite Hf. cbn [existsb].
    unfold bind at 1, ret. now rewrite send_json_run.
Qed.

End RequestClaims.

Lemma options_is_not_answered_by_preflight_witness :
  handle_one_request (collab := toy) (mkRequest (py "OPTIONS") (py "/convert") None None []) quiet =
    (Return tt, mkWorld ∅ [py "k1"; py "k2"; py "k3"] [] [SendError 501]) /\
  do_POST (collab := toy) (mkRequest (py "OPTIONS") (py "/convert") None None []) quiet =
    (Raise (TypeError "can only concatenate str (not 'NoneType') to str"), quiet) /\
  do_POST (collab := toy) (mkRequest (py "OPTIONS") (py "/other") None None []) quiet =
    not_found quiet.
Proof.
  pose proof (options_is_not_answered_by_preflight (collab := toy)
                (py "/convert") None None [] quiet) as (H1 & H2 & H3).
  split; [exact H1|]. split; [exact H2|]. apply H3.
Defined.

Lemma malformed_post_is_not_404_witness :
  do_POST (collab := toy) (mkRequest (py "POST") (py "/convert") None None (py "x")) quiet =
    (Raise (TypeError "can only concatenate str (not 'NoneType') to str"), quiet) /\
  do_POST (collab := toy) no_boundary quiet =
    (Raise (Exn "ValueError" (py "Invalid boundary in multipart form: b''")), quiet) /\
  do_POST (collab := toy) no_parts quiet =
    (Return tt,
     mkWorld ∅ [py "k1"; py "k2"; py "k3"] []
       [SendResponse 200;
        SendHeader (py "Content-Type") (py "application/json");
        SendHeader (py "Access-Control-Allow-Origin") (py "*");
        EndHeaders;
        WfileWrite (py "[]")]).
Proof.
  pose proof (malformed_post_is_not_404 (collab := toy) quiet) as (H1 & H2 & H3).
  split; [apply H1|]. split.
  - apply H2; reflexivity.
  - apply H3; reflexivity.
Defined.

(** ** Decoding what the encoder wrote *)

Module JsonRoundTrip.

Import JsonFacts.

(** *** Strings *)

Lemma hexval_hexdigit d : d < 16 -> hexval (hexdigit d) = Some d.
Proof.
  intros H. unfold hexdigit, hexval.
  destruct (N.ltb_spec d 10).
  - replace ((48 <=? 48 + d) && (48 + d <=? 57)) with true
      by (symmetry; apply andb_true_iff; split; apply N.leb_le; lia).
    f_equal. lia.
  - replace ((48 <=? 87 + d) && (87 + d <=? 57)) with false
      by (symmetry; apply andb_false_iff; right; apply N.leb_gt; lia).
    replace ((97 <=? 87 + d) && (87 + d <=? 102)) with true
      by (symmetry; apply andb_true_iff; split; apply N.leb_le; lia).
    f_equal. lia.
Qed.

Lemma nibbles n : n < 0x10000 ->
  ((N.land (N.shiftr n 12) 0xf * 16 + N.land (N.shiftr n 8) 0xf) * 16
   + N.land (N.shiftr n 4) 0xf) * 16 + N.land n 0xf = n.
Proof.
  intros H. change 0xf with (N.ones 4). rewrite !N.land_ones, !N.shiftr_div_pow2.
  change (2 ^ 12) with 4096. change (2 ^ 8) with 256. change (2 ^ 4) with 16.
  pose proof (N.div_mod n 16 ltac:(discriminate)).
  pose proof (N.div_mod (n / 16) 16 ltac:(discriminate)).
  pose proof (N.div_mod (n / 16 / 16) 16 ltac:(discriminate)).
  pose proof (N.mod_lt n 16 ltac:(discriminate)).
  pose proof (N.mod_lt (n / 16) 16 ltac:(discriminate)).
  pose proof (N.mod_lt (n / 16 / 16) 16 ltac:(discriminate)).
  replace (n / 256) with (n / 16 / 16) by (rewrite N.Div0.div_div; reflexivity).
  replace (n / 4096) with (n / 16 / 16 / 16) by (rewrite !N.Div0.div_div; reflexivity).
  assert (n / 16 / 16 / 16 < 16).
  { apply N.Div0.div_lt_upper_bound. apply N.Div0.div_lt_upper_bound.
    apply N.Div0.div_lt_upper_bound. lia. }
  rewrite (N.mod_small (n / 16 / 16 / 16) 16) by assumption.
  pose proof (N.div_mod (n / 16 / 16) 16 ltac:(discriminate)).
  lia.
Qed.

Lemma decode_hex4 n : n < 0x10000 ->
  decode_uXXXX (hexdigit (N.land (N.shiftr n 12) 0xf)) (hexdigit (N.land (N.shiftr n 8) 0xf))
    (hexdigit (N.land (N.shiftr n 4) 0xf)) (hexdigit (N.land n 0xf)) = Some n.
Proof.
  intros H. unfold decode_uXXXX.
  rewrite !hexval_hexdigit by apply land_15_lt.
  f_equal. now apply nibbles.
Qed.

Lemma scanstring_u uni h1 h2 h3 h4 t :
  decode_uXXXX h1 h2 h3 h4 = Some uni ->
  (is_high_surrogate uni = true -> low_escape_follows t = false) ->
  scanstring (0x5c :: 0x75 :: h1 :: h2 :: h3 :: h4 :: t) = push uni (scanstring t).
Proof.
  intros Hd Hl. cbn [scanstring].
  change (0x5c =? 0x22) with false. change (0x5c =? 0x5c) with true.
  change (0x75 =? 0x75) with true. cbv iota. rewrite Hd.
  destruct (is_high_surrogate uni); [|reflexivity].
  specialize (Hl eq_refl). unfold low_escape_follows in Hl.
  destruct t as [|b [|u r3]]; try reflexivity.
  destruct ((b =? 0x5c) && (u =? 0x75)); [|reflexivity].
  destruct r3 as [|g1 [|g2 [|g3 [|g4 r4]]]]; try discriminate.
  destruct (decode_uXXXX g1 g2 g3 g4) as [uni2|]; [|discriminate].
  now rewrite Hl.
Qed.

Lemma scanstring_pair s1 s2 h1 h2 h3 h4 g1 g2 g3 g4 t :
  decode_uXXXX h1 h2 h3 h4 = Some s1 -> is_high_surrogate s1 = true ->
  decode_uXXXX g1 g2 g3 g4 = Some s2 -> is_low_surrogate s2 = true ->
  scanstring (0x5c :: 0x75 :: h1 :: h2 :: h3 :: h4 :: 0x5c :: 0x75 :: g1 :: g2 :: g3 :: g4 :: t) =
  push (0x10000 + N.lor (N.shiftl (s1 - 0xd800) 10) (s2 - 0xdc00)) (scanstring t).
Proof.
  intros Hd1 Hh Hd2 Hl. cbn [scanstring].
  change (0x5c =? 0x22) with false. change (0x5c =? 0x5c) with true.
  change (0x75 =? 0x75) with true. cbv iota. rewrite Hd1, Hh. cbn [andb]. cbv iota.
  now rewrite Hd2, Hl.
Qed.

Lemma lor_high a b k : b < 2 ^ k -> N.lor (a * 2 ^ k) b = a * 2 ^ k + b.
Proof.
  intros Hb.
  assert (N.land (a * 2 ^ k) b = 0) as Hdisj.
  { apply N.bits_inj_0. intros n. rewrite N.land_spec.
    destruct (N.lt_ge_cases n k) as [Hn|Hn].
    - now rewrite N.mul_pow2_bits_low.
    - destruct (N.eq_dec b 0) as [->|Hnz]; [now rewrite N.bits_0, andb_false_r|].
      rewrite (N.bits_above_log2 b n), andb_false_r; [reflexivity|].
      apply N.lt_le_trans with k; [|assumption].
      apply N.log2_lt_pow2; lia. }
  rewrite <- N.lxor_lor by assumption. symmetry. now apply N.add_nocarry_lxor.
Qed.

Section SurrogatePair.

Variable c : N.
Hypothesis c_low : 0x10000 <= c.
Hypothesis c_high : c < 0x110000.

Let n := c - 0x10000.
Let s1 := N.lor 0xd800 (N.land (N.shiftr n 10) 0x3ff).
Let s2 := N.lor 0xdc00 (N.land n 0x3ff).

Lemma pair_bounds :
  exists q r, n / 1024 = q /\ n mod 1024 = r /\ q < 1024 /\ r < 1024 /\ c = 0x10000 + q * 1024 + r.
Proof.
  exists (n / 1024), (n mod 1024). repeat split.
  - apply N.Div0.div_lt_upper_bound. unfold n. lia.
  - apply N.mod_lt. discriminate.
  - pose proof (N.div_mod n 1024 ltac:(discriminate)) as H.
    assert (c = 0x10000 + n) as Hc by (unfold n; lia).
    rewrite Hc at 1. rewrite H at 1. rewrite <- N.add_assoc. f_equal. f_equal. apply N.mul_comm.
Qed.

Lemma pair_high : s1 = 0xd800 + n / 1024.
Proof.
  destruct pair_bounds as (q & r & Hq & Hr & Hq' & Hr' & Hc).
  unfold s1. change 0x3ff with (N.ones 10).
  rewrite N.land_ones, N.shiftr_div_pow2. change (2 ^ 10) with 1024.
  rewrite Hq, N.mod_small by assumption.
  change 0xd800 with (54 * 2 ^ 10). now apply lor_high.
Qed.

Lemma pair_low : s2 = 0xdc00 + n mod 1024.
Proof.
  unfold s2. change 0x3ff with (N.ones 10). rewrite N.land_ones.
  change (2 ^ 10) with 1024. change 0xdc00 with (55 * 2 ^ 10).
  apply lor_high. apply N.mod_lt. discriminate.
Qed.

Lemma pair_is_high : is_high_surrogate s1 = true.
Proof.
  rewrite pair_high. destruct pair_bounds as (q & r & -> & Hr & Hq' & Hr' & Hc).
  unfold is_high_surrogate. apply andb_true_iff. split; apply N.leb_le; lia.
Qed.

Lemma pair_is_low : is_low_surrogate s2 = true.
Proof.
  rewrite pair_low. destruct pair_bounds as (q & r & Hq & -> & Hq' & Hr' & Hc).
  unfold is_low_surrogate. apply andb_true_iff. split; apply N.leb_le; lia.
Qed.

Lemma pair_join : 0x10000 + N.lor (N.shiftl (s1 - 0xd800) 10) (s2 - 0xdc00) = c.
Proof.
  rewrite pair_high, pair_low.
  destruct pair_bounds as (q & r & -> & -> & Hq' & Hr' & Hc).
  replace (0xd800 + q - 0xd800) with q by lia.
  replace (0xdc00 + r - 0xdc00) with r by lia.
  rewrite N.shiftl_mul_pow2, lor_high by assumption. change (2 ^ 10) with 1024. lia.
Qed.

Lemma pair_small : s1 < 0x10000 /\ s2 < 0x10000.
Proof.
  rewrite pair_high, pair_low.
  destruct pair_bounds as (q & r & -> & -> & Hq' & Hr' & Hc). lia.
Qed.

End SurrogatePair.

Lemma high_not_low c : is_high_surrogate c = true -> is_low_surrogate c = false.
Proof.
  unfold is_high_surrogate, is_low_surrogate.
  intros [_ H%N.leb_le]%andb_true_iff.
  apply andb_false_iff. left. apply N.leb_gt. lia.
Qed.

Lemma scanstring_escape c t :
  is_codepoint c ->
  (is_high_surrogate c = true -> low_escape_follows t = false) ->
  scanstring (escape_char c ++ t) = push c (scanstring t).
Proof.
  intros Hc Hl. unfold escape_char.
  destruct (c =? 0x22) eqn:E1; [apply N.eqb_eq in E1; subst; reflexivity|].
  destruct (c =? 0x5c) eqn:E2; [apply N.eqb_eq in E2; subst; reflexivity|].
  destruct (c =? 0x0a) eqn:E3; [apply N.eqb_eq in E3; subst; reflexivity|].
  destruct (c =? 0x0d) eqn:E4; [apply N.eqb_eq in E4; subst; reflexivity|].
  destruct (c =? 0x09) eqn:E5; [apply N.eqb_eq in E5; subst; reflexivity|].
  destruct (c =? 0x08) eqn:E6; [apply N.eqb_eq in E6; subst; reflexivity|].
  destruct (c =? 0x0c) eqn:E7; [apply N.eqb_eq in E7; subst; reflexivity|].
  destruct ((0x20 <=? c) && (c <=? 0x7e)) eqn:E8.
  - apply andb_true_iff in E8 as [Hlo%N.leb_le _].
    cbn [app scanstring]. rewrite E1, E2.
    destruct (N.ltb_spec c 0x20); [lia|reflexivity].
  - destruct (N.ltb_spec c 0x10000) as [Hs|Hs].
    + unfold hex4. cbn [app]. apply scanstring_u; [now apply decode_hex4|assumption].
    + unfold hex4. cbn [app].
      destruct (pair_small c Hs Hc) as [Hs1 Hs2].
      rewrite (scanstring_pair _ _ _ _ _ _ _ _ _ _ _
                 (decode_hex4 _ Hs1) (pair_is_high c Hs Hc)
                 (decode_hex4 _ Hs2) (pair_is_low c Hs Hc)).
      now rewrite (pair_join c Hs Hc).
Qed.

Lemma low_escape_follows_escape c t :
  is_codepoint c -> is_low_surrogate c = false -> t <> [] ->
  low_escape_follows (escape_char c ++ t) = false.
Proof.
  intros Hc Hl Ht. unfold escape_char.
  destruct (c =? 0x22) eqn:E1; [reflexivity|].
  destruct (c =? 0x5c) eqn:E2; [reflexivity|].
  destruct (c =? 0x0a) eqn:E3; [reflexivity|].
  destruct (c =? 0x0d) eqn:E4; [reflexivity|].
  destruct (c =? 0x09) eqn:E5; [reflexivity|].
  destruct (c =? 0x08) eqn:E6; [reflexivity|].
  destruct (c =? 0x0c) eqn:E7; [reflexivity|].
  destruct ((0x20 <=? c) && (c <=? 0x7e)) eqn:E8.
  - destruct t as [|u r]; [contradiction|]. cbn [app low_escape_follows]. now rewrite E2.
  - destruct (N.ltb_spec c 0x10000) as [Hs|Hs].
    + unfold hex4. cbn [app low_escape_follows].
      change ((0x5c =? 0x5c) && (0x75 =? 0x75)) with true. cbv iota.
      now rewrite decode_hex4.
    + unfold hex4. cbn [app low_escape_follows].
      change ((0x5c =? 0x5c) && (0x75 =? 0x75)) with true. cbv iota.
      destruct (pair_small c Hs Hc) as [Hs1 Hs2].
      rewrite decode_hex4 by exact Hs1.
      apply high_not_low, (pair_is_high c Hs Hc).
Qed.

Lemma scanstring_encode s : forall rest,
  plain_text s ->
  scanstring (flat_map escape_char s ++ 0x22 :: rest) = Some (s, rest).
Proof.
  induction s as [|c s IH]; intros rest [Hcp Hadj]; [reflexivity|].
  inversion Hcp as [|? ? Hc Hcs]; subst.
  cbn [flat_map]. rewrite <- app_assoc.
  rewrite scanstring_escape; [|exact Hc|].
  - rewrite IH; [reflexivity|]. split; [exact Hcs|].
    destruct s as [|c' s']; [reflexivity|].
    cbn [adjacent_surrogates] in Hadj. now apply orb_false_iff in Hadj as [_ ?].
  - intros Hh. destruct s as [|c' s']; [now destruct rest|].
    cbn [adjacent_surrogates] in Hadj. apply orb_false_iff in Hadj as [Hp _].
    rewrite Hh in Hp. cbn [andb] in Hp.
    inversion Hcs as [|? ? Hc' _]; subst.
    cbn [flat_map]. rewrite <- app_assoc.
    apply low_escape_follows_escape; [exact Hc'|exact Hp|].
    now destruct (flat_map escape_char s').
Qed.

(** *** Numbers *)

Lemma span_digits_uint d rest :
  ends_number rest = true -> span_digits (uint_digits d ++ rest) = (d, rest).
Proof.
  intros He. induction d; cbn [uint_digits app];
    try (cbn [span_digits]; rewrite IHd; reflexivity).
  destruct rest as [|c r]; [reflexivity|]. cbn [span_digits].
  cbn in He. destruct (is_digit c); [discriminate|reflexivity].
Qed.

Lemma float_tail_ends rest : ends_number rest = true -> float_tail rest = false.
Proof.
  destruct rest as [|c [|d r]]; try reflexivity. cbn.
  destruct (is_digit c), (c =? 0x2e), (c =? 0x65), (c =? 0x45); try discriminate; reflexivity.
Qed.

Lemma to_uint_head p : forall d, Pos.to_uint p <> Decimal.D0 d.
Proof.
  intros d Hd.
  assert (Decimal.unorm (Pos.to_uint p) = Pos.to_uint p) as Hn.
  { rewrite <- DecimalPos.Unsigned.to_of, DecimalPos.Unsigned.of_to. reflexivity. }
  rewrite Hd in Hn. unfold Decimal.unorm in Hn.
  destruct (Decimal.nzhead (Decimal.D0 d)) eqn:Hz;
    try (apply (DecimalFacts.nzhead_nonzero (Decimal.D0 d) d); congruence).
  injection Hn as <-. now apply (DecimalPos.Unsigned.to_uint_nonzero p).
Qed.

Lemma match_number_pos p neg rest :
  ends_number rest = true ->
  match_number ((if neg : bool then [0x2d] else []) ++ uint_digits (Pos.to_uint p) ++ rest) =
  Some (JInt (Z.of_int (if neg then Decimal.Neg (Pos.to_uint p) else Decimal.Pos (Pos.to_uint p))),
        rest).
Proof.
  intros He.
  pose proof (to_uint_head p) as Hh. pose proof (DecimalPos.Unsigned.to_uint_nonnil p) as Hnil.
  pose proof (span_digits_uint (Pos.to_uint p) rest He) as Hs.
  pose proof (float_tail_ends rest He) as Hf.
  destruct (Pos.to_uint p) as [|d|d|d|d|d|d|d|d|d|d] eqn:E;
    [contradiction|exfalso; now apply (Hh d)|..];
    destruct neg; unfold match_number; cbn [app uint_digits] in *;
      cbv beta iota; cbn [N.eqb Pos.eqb is_digit N.leb N.compare Pos.compare Pos.compare_cont andb negb];
      cbv beta iota; rewrite Hs, Hf; reflexivity.
Qed.

Lemma match_number_repr z rest :
  ends_number rest = true -> match_number (int_repr z ++ rest) = Some (JInt z, rest).
Proof.
  intros He. rewrite <- (DecimalZ.of_to z) at 2. unfold int_repr.
  destruct z as [|p|p]; cbn [Z.to_int].
  - cbn [uint_digits app]. unfold match_number. cbn.
    now rewrite (float_tail_ends rest He).
  - apply (match_number_pos p false rest He).
  - apply (match_number_pos p true rest He).
Qed.

(** *** Values *)

Lemma cost_list xs : cost (JList xs) = S (cost_items xs).
Proof. reflexivity. Qed.

Lemma cost_dict kvs : cost (JDict kvs) = S (cost_pairs kvs).
Proof. reflexivity. Qed.

Lemma cost_pos v : (1 <= cost v)%nat.
Proof. destruct v; cbn; lia. Qed.

Lemma skip_ws_newline_indent indent level t :
  skip_ws (newline_indent indent level ++ t) = skip_ws t.
Proof.
  destruct indent as [n|]; [|reflexivity]. cbn [newline_indent app skip_ws].
  change (is_ws 0x0a) with true. cbv iota.
  induction (n * level)%nat; [reflexivity|exact IHn0].
Qed.

Lemma skip_ws_head c r : is_ws c = false -> skip_ws (c :: r) = c :: r.
Proof. intros H. cbn. now rewrite H. Qed.

Lemma opens_value_intro c :
  (c = 0x22 \/ c = 0x7b \/ c = 0x5b \/ c = 0x6e \/ c = 0x74 \/ c = 0x66
   \/ c = 0x2d \/ is_digit c = true) -> opens_value c.
Proof.
  intros H. split; [|split; [|exact H]].
  - destruct H as [->|[->|[->|[->|[->|[->|[->|H]]]]]]]; try reflexivity.
    unfold is_digit in H. apply andb_true_iff in H as [H1%N.leb_le H2%N.leb_le].
    unfold is_ws. repeat (apply orb_false_iff; split); apply N.eqb_neq; lia.
  - destruct H as [->|[->|[->|[->|[->|[->|[->|H]]]]]]]; try reflexivity.
    unfold is_digit in H. apply andb_true_iff in H as [H1%N.leb_le H2%N.leb_le].
    apply N.eqb_neq; lia.
Qed.

Lemma uint_digits_head d : d <> Decimal.Nil ->
  exists c r, uint_digits d = c :: r /\ is_digit c = true.
Proof. destruct d; [contradiction|..]; intros _; cbn; eauto. Qed.

Lemma iterencode_head indent level v :
  exists c r, iterencode indent level v = c :: r /\ opens_value c.
Proof.
  destruct v as [|[]|n|s|[|x xs]|[|[k x] kvs]];
    try (eexists _, _; split; [reflexivity|apply opens_value_intro; tauto]).
  unfold iterencode, int_repr. destruct n as [|p|p]; cbn [Z.to_int].
  - eexists _, _. split; [reflexivity|]. apply opens_value_intro. do 7 right. reflexivity.
  - destruct (uint_digits_head _ (DecimalPos.Unsigned.to_uint_nonnil p)) as (c & r & -> & Hc).
    eexists _, _. split; [reflexivity|]. apply opens_value_intro. tauto.
  - eexists _, _. split; [reflexivity|]. apply opens_value_intro. tauto.
Qed.

Lemma skip_ws_iterencode indent level v t :
  skip_ws (iterencode indent level v ++ t) = iterencode indent level v ++ t.
Proof.
  destruct (iterencode_head indent level v) as (c & r & -> & Hws & _).
  cbn [app]. now apply skip_ws_head.
Qed.

Lemma scan_once_string f r :
  scan_once (S f) (0x22 :: r) =
  match scanstring r with
  | Some (str, r') => Some (JStr str, r')
  | None => None
  end.
Proof. reflexivity. Qed.

Lemma scan_once_array f r :
  scan_once (S f) (0x5b :: r) =
  match skip_ws r with
  | c1 :: r1 => if c1 =? 0x5d then Some (JList [], r1) else array_loop f (c1 :: r1) []
  | [] => None
  end.
Proof. reflexivity. Qed.

Lemma scan_once_object f r :
  scan_once (S f) (0x7b :: r) =
  match skip_ws r with
  | c1 :: r1 =>
      if c1 =? 0x7d then Some (JDict [], r1)
      else if c1 =? 0x22 then object_loop f r1 []
      else None
  | [] => None
  end.
Proof. reflexivity. Qed.

Lemma scan_once_number f c r :
  is_digit c = true \/ c = 0x2d ->
  scan_once (S f) (c :: r) = match_number (c :: r).
Proof.
  intros H.
  assert (c <> 0x22 /\ c <> 0x7b /\ c <> 0x5b /\ c <> 0x6e /\ c <> 0x74 /\ c <> 0x66)
    as (H1 & H2 & H3 & H4 & H5 & H6).
  { destruct H as [H| ->]; [|repeat split; discriminate].
    unfold is_digit in H. apply andb_true_iff in H as [Ha%N.leb_le Hb%N.leb_le].
    repeat split; lia. }
  cbn [scan_once].
  rewrite (proj2 (N.eqb_neq c 0x22) H1), (proj2 (N.eqb_neq c 0x7b) H2),
    (proj2 (N.eqb_neq c 0x5b) H3).
  change (startswith (py "null") (c :: r)) with ((0x6e =? c) && startswith (py "ull") r).
  change (startswith (py "true") (c :: r)) with ((0x74 =? c) && startswith (py "rue") r).
  change (startswith (py "false") (c :: r)) with ((0x66 =? c) && startswith (py "alse") r).
  rewrite (proj2 (N.eqb_neq 0x6e c)), (proj2 (N.eqb_neq 0x74 c)),
    (proj2 (N.eqb_neq 0x66 c)) by congruence.
  reflexivity.
Qed.

Lemma array_loop_step f s acc :
  array_loop (S f) s acc =
  match scan_once f s with
  | None => None
  | Some (v, r) =>
      match skip_ws r with
      | c :: r' =>
          if c =? 0x5d then Some (JList (rev (v :: acc)), r')
          else if c =? 0x2c then array_loop f (skip_ws r') (v :: acc)
          else None
      | [] => None
      end
  end.
Proof. reflexivity. Qed.

Lemma object_loop_step f s acc :
  object_loop (S f) s acc =
  match scanstring s with
  | None => None
  | Some (key, r) =>
      match skip_ws r with
      | c :: r1 =>
          if c =? 0x3a then
            match scan_once f (skip_ws r1) with
            | None => None
            | Some (v, r2) =>
                match skip_ws r2 with
                | c2 :: r3 =>
                    if c2 =? 0x7d
                    then Some (JDict (dict_of_pairs (rev ((key, v) :: acc))), r3)
                    else if c2 =? 0x2c then
                      match skip_ws r3 with
                      | c3 :: r4 =>
                          if c3 =? 0x22 then object_loop f r4 ((key, v) :: acc)
                          else None
                      | [] => None
                      end
                    else None
                | [] => None
                end
            end
          else None
      | [] => None
      end
  end.
Proof. reflexivity. Qed.

(** What follows an item inside a list or a dict ends a number. *)
Lemma ends_number_separator indent t :
  ends_number (item_separator indent ++ t) = true.
Proof. now destruct indent. Qed.

Lemma ends_number_close indent level c rest :
  c = 0x5d \/ c = 0x7d -> ends_number (newline_indent indent level ++ c :: rest) = true.
Proof. destruct indent; [reflexivity|]. now intros [-> | ->]. Qed.

Lemma separator_skip indent level X :
  exists r', item_separator indent ++ newline_indent indent level ++ X = 0x2c :: r'
             /\ skip_ws r' = skip_ws X.
Proof.
  destruct indent as [n|]; cbn [item_separator app].
  - eexists. split; [reflexivity|]. apply (skip_ws_newline_indent (Some n)).
  - eexists. split; [reflexivity|]. reflexivity.
Qed.

Lemma array_loop_items indent level l0 rest xs : forall x acc fuel,
  decodes indent x -> Forall (decodes indent) xs ->
  (cost_items (x :: xs) <= fuel)%nat ->
  array_loop fuel
    (iterencode indent level x ++ more_items indent level xs
     ++ newline_indent indent l0 ++ 0x5d :: rest) acc =
  Some (JList (rev acc ++ x :: xs), rest).
Proof.
  induction xs as [|y ys IH]; intros x acc fuel Hx Hxs Hfuel;
    (destruct fuel as [|f]; [cbn in Hfuel; lia|]); rewrite array_loop_step.
  - cbn [more_items flat_map app].
    rewrite Hx; [|cbn in Hfuel; lia|now apply ends_number_close; left].
    rewrite skip_ws_newline_indent. reflexivity.
  - inversion Hxs as [|? ? Hy Hys]; subst.
    unfold more_items at 1. cbn [flat_map]. fold (more_items indent level ys).
    rewrite <- !app_assoc.
    rewrite Hx; [|cbn in Hfuel; lia|apply ends_number_separator].
    destruct (separator_skip indent level
                (iterencode indent level y ++ more_items indent level ys
                 ++ newline_indent indent l0 ++ 0x5d :: rest)) as (r' & -> & Hskip).
    cbn [skip_ws]. change (is_ws 0x2c) with false. cbv iota.
    change (0x2c =? 0x5d) with false. change (0x2c =? 0x2c) with true. cbv iota.
    rewrite Hskip, skip_ws_iterencode.
    rewrite (IH y (x :: acc) f Hy Hys); [|cbn in Hfuel |- *; lia].
    cbn [rev]. now rewrite <- app_assoc.
Qed.

Lemma object_loop_pairs indent level l0 rest kvs : forall k x acc fuel,
  plain_text k -> decodes indent x ->
  Forall (fun kv => plain_text (fst kv) /\ decodes indent (snd kv)) kvs ->
  (cost_pairs ((k, x) :: kvs) <= fuel)%nat ->
  object_loop fuel
    (flat_map escape_char k ++ 0x22 :: key_separator ++ iterencode indent level x
     ++ more_pairs indent level kvs ++ newline_indent indent l0 ++ 0x7d :: rest) acc =
  Some (JDict (dict_of_pairs (rev acc ++ (k, x) :: kvs)), rest).
Proof.
  induction kvs as [|[k' y] kvs IH]; intros k x acc fuel Hk Hx Hkvs Hfuel;
    (destruct fuel as [|f]; [cbn in Hfuel; lia|]); rewrite object_loop_step;
    rewrite (scanstring_encode k _ Hk); cbn [key_separator app skip_ws];
    change (is_ws 0x3a) with false; cbv iota;
    change (0x3a =? 0x3a) with true; cbv iota;
    change (skip_ws (0x20 :: ?X)) with (skip_ws X); rewrite skip_ws_iterencode.
  - cbn [more_pairs flat_map app].
    rewrite Hx; [|cbn in Hfuel; lia|now apply ends_number_close; right].
    rewrite skip_ws_newline_indent. reflexivity.
  - inversion Hkvs as [|? ? [Hk' Hy] Hrest]; subst. cbn [fst snd] in *.
    unfold more_pairs at 1. cbn [flat_map fst snd]. fold (more_pairs indent level kvs).
    rewrite <- !app_assoc.
    rewrite Hx; [|cbn in Hfuel; lia|apply ends_number_separator].
    destruct (separator_skip indent level
                (encode_basestring_ascii k' ++ key_separator ++ iterencode indent level y
                 ++ more_pairs indent level kvs
                 ++ newline_indent indent l0 ++ 0x7d :: rest)) as (r' & -> & Hskip).
    cbn [skip_ws]. change (is_ws 0x2c) with false. cbv iota.
    change (0x2c =? 0x7d) with false. change (0x2c =? 0x2c) with true. cbv iota.
    rewrite Hskip. unfold encode_basestring_ascii at 1. cbn [app skip_ws].
    change (is_ws 0x22) with false. cbv iota. change (0x22 =? 0x22) with true. cbv iota.
    rewrite <- app_assoc. cbn [app].
    rewrite (IH k' y ((k, x) :: acc) f Hk' Hy Hrest); [|cbn in Hfuel |- *; lia].
    cbn [rev]. now rewrite <- app_assoc.
Qed.

Lemma dict_set_fresh k v d :
  k ∉ map fst d -> dict_set k v d = d ++ [(k, v)].
Proof.
  induction d as [|[k' v'] d IH]; intros Hk; [reflexivity|].
  cbn [dict_set app]. unfold str_eqb. rewrite bool_decide_eq_false_2.
  - f_equal. apply IH. intros Hin. apply Hk. now right.
  - intros ->. apply Hk. now left.
Qed.

Lemma dict_of_pairs_nodup ps : forall acc,
  NoDup (map fst (acc ++ ps)) ->
  fold_left (fun d kv => dict_set (fst kv) (snd kv) d) ps acc = acc ++ ps.
Proof.
  induction ps as [|[k v] ps IH]; intros acc Hnd; [now rewrite app_nil_r|].
  cbn [fold_left fst snd]. rewrite dict_set_fresh.
  - rewrite IH; rewrite <- app_assoc; [reflexivity|exact Hnd].
  - rewrite map_app in Hnd. cbn in Hnd. apply NoDup_app in Hnd as (_ & Hd & _).
    intros Hin. apply (Hd k Hin). now left.
Qed.

Lemma dict_of_pairs_id kvs : NoDup (map fst kvs) -> dict_of_pairs kvs = kvs.
Proof. intros H. apply (dict_of_pairs_nodup kvs [] H). Qed.

(** Every faithful value decodes from its own text, whatever follows. *)
Lemma faithful_decodes indent v : faithful v -> decodes indent v.
Proof.
  induction v as [|b|n|s|xs IH|kvs IH] using value_nested_ind;
    intros Hf level fuel rest Hfuel Hrest;
    (destruct fuel as [|f]; [cbn in Hfuel; lia|]).
  - reflexivity.
  - destruct b; reflexivity.
  - destruct (iterencode_head indent level (JInt n)) as (c & r & E & _ & _ & Hc).
    pose proof (match_number_repr n rest Hrest) as Hm.
    cbn [iterencode] in E |- *. rewrite E in Hm |- *. cbn [app] in Hm |- *.
    rewrite scan_once_number; [exact Hm|].
    destruct Hc as [->|[->|[->|[->|[->|[->|[->|H]]]]]]]; try discriminate; tauto.
  - inversion Hf; subst. cbn [iterencode]. unfold encode_basestring_ascii. cbn [app].
    rewrite scan_once_string, <- app_assoc. cbn [app].
    now rewrite scanstring_encode.
  - inversion Hf as [| | | |? Hxs|]; subst.
    destruct xs as [|x xs]; [reflexivity|].
    rewrite iterencode_list. cbn [app]. rewrite scan_once_array.
    rewrite <- !app_assoc, skip_ws_newline_indent, skip_ws_iterencode.
    destruct (iterencode_head indent (S level) x) as (c & r & E & _ & Hc & _).
    assert (Forall (decodes indent) (x :: xs)) as Hall.
    { clear - IH Hxs. induction IH as [|y ys Hy _ IHys]; [constructor|].
      inversion Hxs; subst. constructor; auto. }
    inversion Hall as [|? ? Hx Hrest']; subst.
    pose proof (array_loop_items indent (S level) level rest xs x [] f Hx Hrest') as Hl.
    rewrite E in Hl |- *. cbn [app] in Hl |- *. rewrite Hc.
    apply Hl. rewrite cost_list in Hfuel. lia.
  - inversion Hf as [| | | | |? Hnd Hkvs]; subst.
    destruct kvs as [|[k x] kvs]; [reflexivity|].
    rewrite iterencode_dict. cbn [app]. rewrite scan_once_object.
    rewrite <- !app_assoc, skip_ws_newline_indent.
    unfold encode_basestring_ascii at 1. cbn [app skip_ws].
    change (is_ws 0x22) with false. cbv iota.
    change (0x22 =? 0x7d) with false. change (0x22 =? 0x22) with true. cbv iota.
    assert (Forall (fun kv => plain_text (fst kv) /\ decodes indent (snd kv)) ((k, x) :: kvs))
      as Hall.
    { clear - IH Hkvs. induction IH as [|y ys Hy _ IHys]; [constructor|].
      inversion Hkvs as [|? ? [? ?] ?]; subst. constructor; auto. }
    inversion Hall as [|? ? [Hk Hx] Hrest']; subst. cbn [fst snd] in *.
    rewrite <- app_assoc. cbn [app].
    rewrite (object_loop_pairs indent (S level) level rest kvs k x [] f Hk Hx Hrest');
      [|rewrite cost_dict in Hfuel; lia].
    cbn [rev app]. now rewrite dict_of_pairs_id.
Qed.

Lemma item_separator_length indent : (1 <= length (item_separator indent))%nat.
Proof. destruct indent; cbn; lia. Qed.

Lemma cost_le_length indent v : forall level,
  (cost v <= length (iterencode indent level v))%nat.
Proof.
  induction v as [|b|n|s|xs IH|kvs IH] using value_nested_ind; intros level.
  - destruct (iterencode_head indent level JNull) as (c & r & -> & _). cbn. lia.
  - destruct (iterencode_head indent level (JBool b)) as (c & r & -> & _). cbn. lia.
  - destruct (iterencode_head indent level (JInt n)) as (c & r & -> & _). cbn. lia.
  - destruct (iterencode_head indent level (JStr s)) as (c & r & -> & _). cbn. lia.
  - destruct xs as [|x xs]; [cbn; lia|].
    rewrite iterencode_list, cost_list. inversion IH as [|? ? Hx Hxs]; subst.
    rewrite !length_app. cbn [length cost_items fold_right]. fold (cost_items xs).
    specialize (Hx (S level)).
    assert (cost_items xs <= length (more_items indent (S level) xs))%nat.
    { clear - Hxs. induction Hxs as [|y ys Hy _ IHys]; [cbn; lia|].
      cbn [cost_items fold_right more_items flat_map]. fold (cost_items ys).
      fold (more_items indent (S level) ys). rewrite !length_app.
      specialize (Hy (S level)). pose proof (item_separator_length indent). lia. }
    lia.
  - destruct kvs as [|[k x] kvs]; [cbn; lia|].
    rewrite iterencode_dict, cost_dict. inversion IH as [|? ? Hx Hxs]; subst.
    rewrite !length_app. cbn [length cost_pairs fold_right snd]. fold (cost_pairs kvs).
    specialize (Hx (S level)). cbn [snd] in Hx.
    assert (cost_pairs kvs <= length (more_pairs indent (S level) kvs))%nat.
    { clear - Hxs. induction Hxs as [|y ys Hy _ IHys]; [cbn; lia|].
      cbn [cost_pairs fold_right more_pairs flat_map]. fold (cost_pairs ys).
      fold (more_pairs indent (S level) ys). rewrite !length_app.
      specialize (Hy (S level)). pose proof (item_separator_length indent). lia. }
    lia.
Qed.

(** [json.loads(json.dumps(v, indent=indent))] is [v] for a faithful [v]. *)
Lemma loads_dumps indent v : faithful v -> loads (dumps indent v) = Some v.
Proof.
  intros Hf. unfold loads, dumps.
  pose proof (skip_ws_iterencode indent 0 v []) as Hs. rewrite app_nil_r in Hs.
  rewrite Hs.
  pose proof (faithful_decodes indent v Hf 0%nat (S (length (iterencode indent 0 v))) [])
    as Hd.
  rewrite app_nil_r in Hd. rewrite Hd; [reflexivity| |reflexivity].
  pose proof (cost_le_length indent v 0). lia.
Qed.

End JsonRoundTrip.

Import JsonFacts JsonRoundTrip.

(** ** The batch packager *)

Section PackagerFacts.

Context {collab : Collaborators}.

Lemma extract_pages_shape pdf : forall i acc pages,
  extract_pages i pdf acc = Return pages ->
  exists texts, pages = acc ++ imap (fun k t => page_record (i + k) t) texts.
Proof.
  induction pdf as [|page pdf IH]; intros i acc pages H; cbn in H.
  - injection H as <-. exists []. now rewrite app_nil_r.
  - destruct (extract_text page) as [text|e]; [|discriminate]. cbn in H.
    destruct (IH _ _ _ H) as (texts & ->). exists (text :: texts).
    rewrite <- app_assoc. cbn. rewrite Nat.add_0_r. do 2 f_equal.
    apply imap_ext. intros k x _. cbn. f_equal. lia.
Qed.

(** A document that [process_pdf] returns is built from the page texts. *)
Lemma process_pdf_document file_data filename w data :
  fst (process_pdf file_data filename w) = Return (success_record filename data) ->
  exists texts, data = pdf_data_of filename (imap page_record texts).
Proof.
  destruct (process_pdf file_data filename w) as [r w'] eqn:Hrun. cbn. intros ->.
  destruct (bind_inv_return _ _ _ _ _ Hrun) as (path & w1 & Htmp & _).
  pose proof (process_pdf_result file_data filename w path w1 Htmp) as Hr.
  rewrite Hrun in Hr. cbn [fst] in Hr.
  unfold convert_temp_pdf, bind, lift, ret in Hr.
  destruct (PdfReader path w1) as [[pdf|e] w2]; cbn in Hr; [|discriminate].
  destruct (extract_pages 0 pdf []) as [pages|e] eqn:Hx; cbn in Hr; [|discriminate].
  destruct (extract_pages_shape _ _ _ _ Hx) as (texts & ->).
  injection Hr as ->. now exists texts.
Qed.

End PackagerFacts.

Lemma is_plain_spec s : is_plain s = true -> plain_text s.
Proof.
  unfold is_plain. intros [Hc Ha]%andb_true_iff. split.
  - apply List.Forall_forall. intros c Hin.
    rewrite forallb_forall in Hc. now apply N.ltb_lt, Hc.
  - now destruct (adjacent_surrogates s).
Qed.

Lemma all_plain_spec l : forallb is_plain l = true -> Forall plain_text l.
Proof.
  intros H. apply List.Forall_forall. intros s Hin.
  rewrite forallb_forall in H. now apply is_plain_spec, H.
Qed.

Ltac plain_literal := apply is_plain_spec; reflexivity.

Lemma faithful_page_record i text :
  (forall s, text = Some s -> plain_text s) -> faithful (page_record i text).
Proof.
  intros H. unfold page_record. constructor.
  - apply (bool_decide_unpack _). vm_compute. reflexivity.
  - constructor; [|constructor; [|constructor; [|constructor; [|constructor]]]];
      cbn [fst snd]; (split; [plain_literal|]); try constructor.
    destruct text as [s|]; constructor. now apply H.
Qed.

Lemma strings_of_list xs : strings_of (JList xs) = flat_map strings_of xs.
Proof. reflexivity. Qed.

Lemma faithful_page_records texts : forall i,
  Forall plain_text
    (flat_map strings_of (imap (fun k t => page_record (i + k) t) texts)) ->
  Forall faithful (imap (fun k t => page_record (i + k) t) texts).
Proof.
  induction texts as [|t texts IH]; intros i H; [constructor|].
  cbn [imap flat_map] in *. apply Forall_app in H as [Ht Hrest]. constructor.
  - apply faithful_page_record. intros s ->.
    rewrite Forall_forall in Ht. apply Ht. cbn. set_solver.
  - rewrite (imap_ext _ (fun k t => page_record (S i + k) t)) in Hrest |- *
      by (intros; cbn; f_equal; lia).
    now apply IH.
Qed.

Lemma faithful_document filename texts :
  Forall plain_text (strings_of (pdf_data_of filename (imap page_record texts))) ->
  faithful (pdf_data_of filename (imap page_record texts)).
Proof.
  intros H.
  change (strings_of (pdf_data_of filename (imap page_record texts)))
    with (py "filename" :: filename :: py "total_pages" :: py "pages"
          :: (flat_map strings_of (imap page_record texts) ++ [])) in H.
  rewrite app_nil_r in H. unfold pdf_data_of.
  inversion H as [|? ? _ H1]; subst. inversion H1 as [|? ? Hname H2]; subst.
  inversion H2 as [|? ? _ H3]; subst. inversion H3 as [|? ? _ Hpages]; subst.
  constructor.
  - apply (bool_decide_unpack _). vm_compute. reflexivity.
  - constructor; [|constructor; [|constructor; [|constructor]]]; cbn [fst snd].
    + split; [plain_literal|now constructor].
    + split; [plain_literal|constructor].
    + split; [plain_literal|]. constructor. apply (faithful_page_records texts 0 Hpages).
Qed.

Lemma dict_get_nodup kvs k v :
  NoDup (map fst kvs) -> (k, v) ∈ kvs -> dict_get kvs k = Some v.
Proof.
  induction kvs as [|[k' v'] kvs IH]; intros Hnd Hin; [now apply elem_of_nil in Hin|].
  cbn [map fst] in Hnd. apply NoDup_cons in Hnd as [Hk' Hnd].
  cbn [dict_get]. unfold str_eqb. apply elem_of_cons in Hin as [[= -> ->]|Hin].
  - now rewrite bool_decide_eq_true_2.
  - rewrite bool_decide_eq_false_2; [now apply IH|].
    intros E. apply Hk'. rewrite E. apply list_elem_of_In, (in_map fst kvs (k, v)), list_elem_of_In, Hin.
Qed.

Lemma py_eq_dict kvs kvs' :
  py_eq (JDict kvs) (JDict kvs') =
  Nat.eqb (length kvs) (length kvs')
  && forallb (fun kv => match dict_get kvs' (fst kv) with
                        | Some v' => py_eq (snd kv) v'
                        | None => false
                        end) kvs.
Proof. reflexivity. Qed.

(** A faithful value is deep-equal to itself. *)
Lemma py_eq_refl v : faithful v -> py_eq v v = true.
Proof.
  induction v as [|b|n|s|xs IH|kvs IH] using value_nested_ind; intros Hf.
  - reflexivity.
  - now destruct b.
  - apply Z.eqb_refl.
  - cbn. unfold str_eqb. now apply bool_decide_eq_true_2.
  - inversion Hf as [| | | |? Hxs|]; subst. cbn [py_eq].
    induction IH as [|x xs Hx _ IHxs]; [reflexivity|].
    inversion Hxs; subst. rewrite Hx by assumption. cbn [andb]. now apply IHxs; [constructor|].
  - inversion Hf as [| | | | |? Hnd Hkvs]; subst. rewrite py_eq_dict.
    rewrite Nat.eqb_refl. cbn [andb]. apply forallb_forall. intros [k v] Hin.
    apply list_elem_of_In in Hin. cbn [fst snd].
    rewrite (dict_get_nodup _ _ _ Hnd Hin).
    rewrite Forall_forall in IH. rewrite Forall_forall in Hkvs.
    apply (IH _ Hin). apply (Hkvs _ Hin).
Qed.

Section PackagerClaims.

Context {collab : Collaborators}.

(** [writestr] on a JSON text: the member is written under the name cut
    at its first NUL when that name can be stored, and nothing is written
    otherwise. *)
Lemma writestr_stored zipf name indent v :
  storable name = true ->
  writestr zipf name (dumps indent v) =
  Return (zipf ++ [mkMember (cut_at_nul name) true (dumps indent v)]).
Proof.
  unfold writestr, storable, str_encode at 2. rewrite str_encode_dumps. cbn [bind_outcome].
  destruct (cut_at_nul name) as [|c kept]; [discriminate|].
  destruct (PyStr.encode (c :: kept)) as [header_name|]; [|discriminate].
  cbn [bind_outcome]. now destruct (0xffff <? N.of_nat (length header_name)).
Qed.

Lemma writestr_refused zipf name indent v :
  storable name = false -> exists e, writestr zipf name (dumps indent v) = Raise e.
Proof.
  unfold writestr, storable, str_encode at 2. rewrite str_encode_dumps. cbn [bind_outcome].
  destruct (cut_at_nul name) as [|c kept]; [eauto|].
  destruct (PyStr.encode (c :: kept)) as [header_name|]; [|eauto].
  cbn [bind_outcome]. destruct (0xffff <? N.of_nat (length header_name)); [eauto|discriminate].
Qed.

(** The archive written for one entry [{filename, data}]. *)
Lemma create_zip_package_entry filename data :
  storable (replace (py ".pdf") (py ".json") filename) = true ->
  create_zip_package (JList [JDict [(py "filename", JStr filename); (py "data", data)]]) =
  Return [mkMember (cut_at_nul (replace (py ".pdf") (py ".json") filename)) true
            (dumps (Some 2%nat) data)].
Proof.
  intros Hname.
  unfold create_zip_package. cbn [py_iter bind_outcome zip_items].
  change (py_in (py "filename") (JDict [(py "filename", JStr filename); (py "data", data)]))
    with (@Return bool true).
  cbn [bind_outcome].
  change (py_in (py "data") (JDict [(py "filename", JStr filename); (py "data", data)]))
    with (@Return bool true).
  cbn [bind_outcome].
  change (py_getitem (JDict [(py "filename", JStr filename); (py "data", data)]) (py "filename"))
    with (Return (JStr filename)).
  change (py_getitem (JDict [(py "filename", JStr filename); (py "data", data)]) (py "data"))
    with (Return data).
  cbn [bind_outcome py_replace]. now rewrite (writestr_stored _ _ _ _ Hname).
Qed.


(** C4, as amended. A document that [process_pdf] returned in the record
    [{filename, success: True, data}], packaged by [create_zip_package]
    under its file name, comes back from the archive member equal to
    itself, and so deep-equal, when the member is decoded and parsed,
    provided that in its strings no high surrogate is directly followed by
    a low surrogate, and that the member name (the file name with [.pdf]
    replaced by [.json]) can be stored: it is not empty up to its first
    NUL, and what is kept of it encodes as UTF-8 into at most 65535
    bytes. *)
Theorem packaged_document_round_trip file_data filename w data :
  fst (process_pdf file_data filename w) =
    Return (JDict [(py "filename", JStr filename);
                   (py "success", JBool true);
                   (py "data", data)]) ->
  Forall plain_text (strings_of data) ->
  storable (replace (py ".pdf") (py ".json") filename) = true ->
  exists member decoded,
    create_zip_package (JList [JDict [(py "filename", JStr filename); (py "data", data)]])
      = Return [member] /\
    bind_outcome (bytes_decode (member_data member)) json_loads = Return decoded /\
    decoded = data /\ py_eq decoded data = true.
Proof.
  intros Hrun Hplain Hname.
  destruct (process_pdf_document _ _ _ _ Hrun) as (texts & ->).
  pose proof (faithful_document filename texts Hplain) as Hf.
  eexists _, _. split; [apply (create_zip_package_entry _ _ Hname)|]. cbn [member_data].
  split; [|split; [reflexivity|now apply py_eq_refl]].
  unfold bytes_decode, dumps. rewrite (decode_ascii _ (iterencode_ascii _ _ 0)).
  cbn [bind_outcome]. unfold json_loads. fold (dumps (Some 2%nat) (pdf_data_of filename (imap page_record texts))). now rewrite loads_dumps.
Qed.

End PackagerClaims.

Lemma packaged_document_round_trip_witness :
  exists member decoded,
    create_zip_package
      (JList [JDict [(py "filename", JStr (py "report.pdf"));
                     (py "data", pdf_data_of (py "report.pdf")
                                   [page_record 0 (Some (py "a b c"));
                                    page_record 1 (Some (py "second page"))])]])
      = Return [member] /\
    bind_outcome (bytes_decode (member_data member)) json_loads = Return decoded /\
    decoded = pdf_data_of (py "report.pdf")
                [page_record 0 (Some (py "a b c")); page_record 1 (Some (py "second page"))] /\
    py_eq decoded
      (pdf_data_of (py "report.pdf")
         [page_record 0 (Some (py "a b c")); page_record 1 (Some (py "second page"))]) = true.
Proof.
  refine (packaged_document_round_trip (collab := toy) two_pages (py "report.pdf") quiet _ _ _ _).
  - vm_compute. reflexivity.
  - apply all_plain_spec. vm_compute. reflexivity.
  - vm_compute. reflexivity.
Defined.

(** C4 as stated fails: a page text made of a high surrogate followed by
    a low surrogate is written as two escapes, which the decoder reads
    back as the single code point they spell. *)
Lemma surrogate_text_does_not_round_trip :
  exists data member decoded,
    fst (process_pdf (collab := surrogate_reader) two_pages (py "report.pdf") quiet)
      = Return (JDict [(py "filename", JStr (py "report.pdf"));
                       (py "success", JBool true);
                       (py "data", data)]) /\
    storable (replace (py ".pdf") (py ".json") (py "report.pdf")) = true /\
    create_zip_package
      (JList [JDict [(py "filename", JStr (py "report.pdf")); (py "data", data)]])
      = Return [member] /\
    bind_outcome (bytes_decode (member_data member)) json_loads = Return decoded /\
    py_getitem data (py "pages")
      = Return (JList [JDict [(py "page_number", JInt 1);
                              (py "content", JStr [0xd83d; 0xde00]);
                              (py "word_count", JInt 1);
                              (py "character_count", JInt 2)]]) /\
    py_getitem decoded (py "pages")
      = Return (JList [JDict [(py "page_number", JInt 1);
                              (py "content", JStr [0x1f600]);
                              (py "word_count", JInt 1);
                              (py "character_count", JInt 2)]]) /\
    py_eq decoded data = false.
Proof.
  eexists _, _, _. split; [vm_compute; reflexivity|].
  split; [vm_compute; reflexivity|].
  split; [vm_compute; reflexivity|].
  split; [vm_compute; reflexivity|].
  split; [vm_compute; reflexivity|].
  split; vm_compute; reflexivity.
Qed.

(** ** Member names: [str.replace] on the file name *)

Section ReplaceFacts.

Let pdf : list N := py ".pdf".







End ReplaceFacts.

(** ** Which entries are packaged, and under which names *)







(** ** The command-line conversion *)

Section CommandLineClaims.

Context {collab : Collaborators}.
Variable default_output_path : list N -> list N.
Variable document_text : list N -> list value -> list N.

Lemma basename_go_no_slash name : forall cur,
  0x2f ∉ name -> basename_go cur name = rev cur ++ name.
Proof.
  induction name as [|c name IH]; intros cur Hn; cbn [basename_go].
  - now rewrite app_nil_r.
  - apply not_elem_of_cons in Hn as [Hc Hn].
    rewrite (proj2 (N.eqb_neq c 0x2f)) by congruence.
    rewrite IH by assumption. cbn [rev]. now rewrite <- app_assoc.
Qed.

Lemma basename_go_dir name dir : forall cur,
  0x2f ∉ name -> basename_go cur (dir ++ 0x2f :: name) = name.
Proof.
  induction dir as [|c dir IH]; intros cur Hn; cbn [app basename_go].
  - change (0x2f =? 0x2f) with true. cbv iota. now rewrite basename_go_no_slash.
  - destruct (c =? 0x2f); now apply IH.
Qed.

(** C9. When the pages extract and the JSON file can be written,
    [convert_pdf_to_json] returns the path of the file it saved: the given
    output path, or else the path derived from the base name of the input
    without its extension, whatever directory the input is in. *)
Theorem convert_pdf_to_json_saved_path pdf_path output_path w pages w1 w2 :
  let out := match output_path with
             | Some p => p
             | None => default_output_path (fst (splitext (basename pdf_path)))
             end in
  extract_text_from_pdf pdf_path w = (Return pages, w1) ->
  write_and_close out (document_text (basename pdf_path) pages) w1 = (Return tt, w2) ->
  convert_pdf_to_json default_output_path document_text pdf_path output_path w
    = (Return out, w2) /\
  files w2 !! out = Some (document_text (basename pdf_path) pages) /\
  (forall dir name, 0x2f ∉ name ->
     basename name = name /\ basename (dir ++ 0x2f :: name) = name).
Proof.
  intros out Hx Hw. split; [|split].
  - unfold convert_pdf_to_json. fold out.
    rewrite (bind_return _ _ _ _ _ Hx). now rewrite (bind_return _ _ _ _ _ Hw).
  - revert Hw. unfold write_and_close, bind.
    destruct (syscall w1) as [[[]|e] w'] eqn:Es; [|discriminate].
    intros [= <-]. cbn. apply lookup_insert_eq.
  - intros dir name Hn. split.
    + apply (basename_go_no_slash name [] Hn).
    + apply (basename_go_dir name dir [] Hn).
Qed.

End CommandLineClaims.

Lemma convert_pdf_to_json_saved_path_witness :
  convert_pdf_to_json (collab := toy) (fun stem => stem ++ py ".json")
    (fun name pages => dumps (Some 2%nat) (pdf_data_of name pages))
    (py "/in/report.v2.pdf") None
    (mkWorld {[ py "/in/report.v2.pdf" := two_pages ]} [] [] [])
  = (Return (py "report.v2.json"),
     mkWorld (<[ py "report.v2.json" :=
                   dumps (Some 2%nat)
                     (pdf_data_of (py "report.v2.pdf")
                        [page_record 0 (Some (py "a b c"));
                         page_record 1 (Some (py "second page"))]) ]>
                {[ py "/in/report.v2.pdf" := two_pages ]}) [] [] []).
Proof.
  refine (proj1 (convert_pdf_to_json_saved_path (collab := toy) _ _
                   (py "/in/report.v2.pdf") None _ _ _ _ _ _)).
  - vm_compute. reflexivity.
  - vm_compute. reflexivity.
Defined.


(** ** The disk: what the handler leaves behind *)

Section FrameFacts.

Lemma no_faults_skipn w w' k : faults w' = skipn k (faults w) -> no_faults w -> no_faults w'.
Proof.
  unfold no_faults. intros -> H. rewrite <- (take_drop k (faults w)) in H.
  now apply Forall_app in H as [_ H].
Qed.

(** One call into the operating system: it takes the head of the script
    and touches nothing else; in a world without faults it succeeds. *)
Lemma syscall_inv w r w1 :
  syscall w = (r, w1) ->
  files w1 = files w /\ tmp_names w1 = tmp_names w /\ wfile w1 = wfile w /\
  (no_faults w -> r = Return tt /\ no_faults w1).
Proof.
  unfold no_faults, syscall.
  destruct (faults w) as [|[e|] fs] eqn:E; intros [= <- <-]; cbn;
    (split; [reflexivity|]); (split; [reflexivity|]); (split; [reflexivity|]);
    intros Hq; inversion Hq; subst; try discriminate; auto.
  rewrite E. auto.
Qed.

Lemma mkstemp_fresh fs names suffix path rest :
  mkstemp fs names suffix = Some (path, rest) -> fs !! path = None.
Proof.
  induction names as [|name names IH]; [discriminate|]. cbn [mkstemp].
  destruct (fs !! tmp_path name suffix) eqn:E; [exact IH|].
  now intros [= <- _].
Qed.

Lemma NamedTemporaryFile_inv suffix w r w1 :
  NamedTemporaryFile suffix w = (r, w1) ->
  match r with
  | Return path => files w !! path = None /\ files w1 = <[path := []]> (files w)
  | Raise _ => files w1 = files w
  end /\ (no_faults w -> no_faults w1).
Proof.
  unfold NamedTemporaryFile, bind.
  destruct (syscall w) as [[[]|e] w0] eqn:Es;
    destruct (syscall_inv _ _ _ Es) as (Hf & Hn & _ & Hq).
  - destruct (mkstemp (files w0) (tmp_names w0) suffix) as [[path rest]|] eqn:Em;
      intros [= <- <-]; cbn.
    + rewrite <- Hf. split; [|intros H; now apply Hq].
      split; [|reflexivity]. apply (mkstemp_fresh _ _ _ _ _ Em).
    + split; [exact Hf|]. intros H; now apply Hq.
  - intros [= <- <-]. split; [exact Hf|]. intros H. now destruct (Hq H).
Qed.

Lemma write_and_close_inv path data w r w1 :
  write_and_close path data w = (r, w1) ->
  match r with
  | Return _ => files w1 = <[path := data]> (files w)
  | Raise _ => files w1 = files w
  end /\ (no_faults w -> r = Return tt /\ no_faults w1).
Proof.
  unfold write_and_close, bind.
  destruct (syscall w) as [[[]|e] w0] eqn:Es;
    destruct (syscall_inv _ _ _ Es) as (Hf & Hn & _ & Hq); intros [= <- <-]; cbn.
  - rewrite Hf. split; [reflexivity|]. intros H. split; [reflexivity|]. now apply Hq.
  - split; [exact Hf|]. intros H. now destruct (Hq H).
Qed.

Lemma read_file_inv path w r w1 :
  read_file path w = (r, w1) ->
  files w1 = files w /\
  (no_faults w -> no_faults w1 /\ forall data, files w !! path = Some data -> r = Return data).
Proof.
  unfold read_file, bind.
  destruct (syscall w) as [[[]|e] w0] eqn:Es;
    destruct (syscall_inv _ _ _ Es) as (Hf & Hn & _ & Hq).
  - rewrite Hf. destruct (files w !! path) as [d|] eqn:El; intros [= <- <-];
      (split; [exact Hf|]); intros H; (split; [now apply Hq|]); intros data [= <-]; reflexivity.
  - intros [= <- <-]. split; [exact Hf|]. intros H. now destruct (Hq H).
Qed.

Lemma unlink_inv path w r w1 :
  unlink path w = (r, w1) ->
  match r with
  | Return _ => files w1 = delete path (files w)
  | Raise _ => files w1 = files w
  end /\
  (no_faults w -> no_faults w1 /\ (is_Some (files w !! path) -> r = Return tt)).
Proof.
  unfold unlink, bind.
  destruct (syscall w) as [[[]|e] w0] eqn:Es;
    destruct (syscall_inv _ _ _ Es) as (Hf & Hn & _ & Hq).
  - rewrite Hf. destruct (files w !! path) as [d|] eqn:El; intros [= <- <-]; cbn.
    + split; [reflexivity|]. intros H. split; [now apply Hq|reflexivity].
    + split; [exact Hf|]. intros H. split; [now apply Hq|]. now intros [? [=]].
  - intros [= <- <-]. split; [exact Hf|]. intros H. now destruct (Hq H).
Qed.

Context {collab : Collaborators}.

Lemma make_temp_pdf_inv file_data w r w1 :
  make_temp_pdf file_data w = (r, w1) ->
  match r with
  | Return path => files w !! path = None /\ files w1 = <[path := file_data]> (files w)
  | Raise _ => files w ⊆ files w1 /\ (no_faults w -> files w1 = files w)
  end /\ (no_faults w -> no_faults w1).
Proof.
  unfold make_temp_pdf, bind at 1.
  destruct (NamedTemporaryFile (py ".pdf") w) as [[path|e] w0] eqn:En;
    destruct (NamedTemporaryFile_inv _ _ _ _ En) as (Hf & Hq).
  - destruct Hf as (Hfresh & Hf). unfold bind, ret.
    destruct (write_and_close path file_data w0) as [[[]|e] w2] eqn:Ew;
      destruct (write_and_close_inv _ _ _ _ _ Ew) as (Hf2 & Hq2); intros [= <- <-].
    + rewrite Hf2, Hf, insert_insert_eq. repeat split; trivial.
      intros H. now apply Hq2, Hq.
    + rewrite Hf2, Hf. split.
      * split; [now apply insert_subseteq|]. intros H. now destruct (Hq2 (Hq H)).
      * intros H. now destruct (Hq2 (Hq H)).
  - intros [= <- <-]. rewrite Hf. repeat split; auto.
Qed.

Lemma convert_temp_pdf_inv path filename w r w1 :
  convert_temp_pdf path filename w = (r, w1) ->
  files w1 = files w /\ (no_faults w -> no_faults w1).
Proof.
  unfold convert_temp_pdf, PdfReader, bind at 1 2.
  destruct (read_file path w) as [[data|e] w0] eqn:Er;
    destruct (read_file_inv _ _ _ _ Er) as (Hf & Hq).
  - unfold bind, lift, ret. destruct (pdf_parse data) as [pdf|e]; [|intros [= <- <-]; split; [exact Hf|apply Hq]].
    destruct (extract_pages 0 pdf []); intros [= <- <-]; (split; [exact Hf|apply Hq]).
  - intros [= <- <-]. split; [exact Hf|apply Hq].
Qed.

(** [process_pdf] and the file system: no file that was there is removed
    or changed, and when no system call fails the file system is left as
    it was found, the temporary file gone. *)
Lemma process_pdf_files file_data filename w :
  files w ⊆ files (snd (process_pdf file_data filename w)) /\
  (no_faults w ->
   files (snd (process_pdf file_data filename w)) = files w /\
   no_faults (snd (process_pdf file_data filename w))).
Proof.
  destruct (make_temp_pdf file_data w) as [[path|e] w1] eqn:Et;
    destruct (make_temp_pdf_inv _ _ _ _ Et) as (Hf & Hq).
  2:{ unfold process_pdf. rewrite (bind_raise _ _ _ _ _ Et). cbn. destruct Hf; auto. }
  destruct Hf as (Hfresh & Hf).
  rewrite (process_pdf_protected _ _ _ _ _ Et).
  unfold try_finally.
  destruct (try_except (convert_temp_pdf path filename)
              (λ e, ret (failure_record filename e)) w1) as [r w2] eqn:Eb.
  assert (files w2 = files w1 /\ (no_faults w1 -> no_faults w2)) as (Hf2 & Hq2).
  { revert Eb. unfold try_except, ret.
    destruct (convert_temp_pdf path filename w1) as [[v|e] w'] eqn:Ec;
      destruct (convert_temp_pdf_inv _ _ _ _ _ Ec); now intros [= <- <-]. }
  unfold cleanup, try_except, ret.
  destruct (unlink path w2) as [[[]|e] w3] eqn:Eu;
    destruct (unlink_inv _ _ _ _ Eu) as (Hf3 & Hq3); cbn [snd].
  - rewrite Hf3, Hf2, Hf, delete_insert_id by exact Hfresh.
    split; [reflexivity|]. intros H. split; [reflexivity|]. now apply Hq3, Hq2, Hq.
  - rewrite Hf3, Hf2, Hf. split; [now apply insert_subseteq|].
    intros H. destruct (Hq3 (Hq2 (Hq H))) as [_ Hx].
    discriminate Hx. rewrite Hf2, Hf, lookup_insert_eq. eauto.
Qed.

Lemma convert_files_files files_ : forall results w,
  files w ⊆ files (snd (convert_files files_ results w)) /\
  (no_faults w ->
   files (snd (convert_files files_ results w)) = files w /\
   no_faults (snd (convert_files files_ results w))).
Proof.
  induction files_ as [|item rest IH]; intros results w; [now cbn|].
  destruct (truthy (filename item)) eqn:Ht;
    [|rewrite (convert_files_skip _ _ _ _ Ht); apply IH].
  destruct (file item) as [data|] eqn:Hfile;
    [|rewrite (convert_files_unreadable _ _ _ _ Ht Hfile); now cbn].
  destruct (filename item) as [name|] eqn:Hn; [|discriminate].
  destruct (process_pdf_files data name w) as (Hsub & Hq).
  destruct (process_pdf data name w) as [[v|e] w1] eqn:Hp; cbn [snd] in *;
    [rewrite (convert_files_return _ _ _ _ _ _ _ _ Hn Ht Hfile Hp)
    |rewrite (convert_files_raise _ _ _ _ _ _ _ _ Hn Ht Hfile Hp)];
    match goal with
    | |- context [convert_files rest ?rs w1] => destruct (IH rs w1) as (Hsub' & Hq')
    end;
    (split; [now transitivity (files w1)|]);
    intros H; destruct (Hq H) as (Hf & H1); destruct (Hq' H1) as (Hf' & H2);
    (split; [congruence|exact H2]).
Qed.

Lemma wire_only_ret {A} (a : A) : wire_only (ret a).
Proof. now intros w. Qed.

Lemma wire_only_lift {A} (r : outcome A) : wire_only (lift r).
Proof. now intros w. Qed.

Lemma wire_only_emit e : wire_only (emit e).
Proof. now intros w. Qed.

Lemma wire_only_bind {A B} (m : M A) (k : A -> M B) :
  wire_only m -> (forall a, wire_only (k a)) -> wire_only (bind m k).
Proof.
  intros Hm Hk w. unfold bind. specialize (Hm w).
  destruct (m w) as [[a|e] w1]; cbn [snd] in *; [|exact Hm].
  destruct (Hk a w1) as (-> & -> & ->). exact Hm.
Qed.

Ltac solve_wire_only :=
  repeat first
    [ apply wire_only_ret | apply wire_only_lift | apply wire_only_emit
    | apply wire_only_bind | intro ].

Lemma wire_only_not_found : wire_only not_found.
Proof. unfold not_found, send_response, end_headers, wfile_write. solve_wire_only. Qed.

Lemma wire_only_send_json body : wire_only (send_json body).
Proof.
  unfold send_json, send_response, send_header, end_headers, wfile_write. solve_wire_only.
Qed.

Lemma wire_only_do_POST_json req : wire_only (do_POST_json req).
Proof.
  unfold do_POST_json. apply wire_only_bind; [apply wire_only_lift|]. intros length.
  apply wire_only_bind; [apply wire_only_lift|]. intros post_data.
  apply wire_only_bind; [apply wire_only_lift|]. intros payload.
  apply wire_only_bind; [apply wire_only_lift|]. intros has_action.
  apply wire_only_bind.
  - destruct has_action; solve_wire_only.
  - intros [|]; [|apply wire_only_not_found].
    unfold send_response, send_header, end_headers, wfile_write. solve_wire_only.
Qed.

Lemma wire_only_run {A} (m : M A) w r w' :
  wire_only m -> m w = (r, w') -> files w' = files w.
Proof. intros Hm E. destruct (Hm w) as (H & _). now rewrite E in H. Qed.

Lemma do_POST_run_files req w r w' :
  do_POST req w = (r, w') ->
  files w ⊆ files w' /\ (no_faults w -> files w' = files w).
Proof.
  assert (forall (m : M unit), wire_only m -> m w = (r, w') ->
            files w ⊆ files w' /\ (no_faults w -> files w' = files w)) as Hwire.
  { intros m Hm E. rewrite (wire_only_run _ _ _ _ Hm E). auto. }
  unfold do_POST.
  destruct (str_eqb (path req) (py "/convert")); [|cbn [andb]; apply Hwire, wire_only_not_found].
  unfold bind at 1, lift.
  destruct (parse_content_type req) as [ct|e]; [|intros [= <- <-]; auto].
  destruct (str_eqb ct (py "multipart/form-data")).
  - unfold do_POST_multipart, bind at 1, lift.
    destruct (cgi_FieldStorage req) as [form|e]; [|intros [= <- <-]; auto].
    unfold bind at 1.
    destruct (existsb is_files_field form).
    + destruct (convert_files_files (filter is_files_field form) [] w) as (Hsub & Hq).
      destruct (convert_files (filter is_files_field form) [] w) as [[rs|e] w1];
        cbn [snd] in *.
      * intros E. rewrite (wire_only_run _ _ _ _ (wire_only_send_json _) E).
        split; [exact Hsub|]. intros H. now destruct (Hq H).
      * intros [= <- <-]. split; [exact Hsub|]. intros H. now destruct (Hq H).
    + unfold ret. apply Hwire, wire_only_send_json.
  - destruct (str_eqb ct (py "application/json")).
    + apply Hwire, wire_only_do_POST_json.
    + apply Hwire, wire_only_not_found.
Qed.

(** X1. [process_pdf] never removes or changes a file that was on the disk
    before the call, whatever fails on the way; and when no system call
    fails, the disk after the call is the disk before it: the temporary
    file is gone. *)
Theorem process_pdf_leaves_disk file_data filename w :
  files w ⊆ files (snd (process_pdf file_data filename w)) /\
  (no_faults w -> files (snd (process_pdf file_data filename w)) = files w).
Proof.
  destruct (process_pdf_files file_data filename w) as (Hsub & Hq).
  split; [exact Hsub|]. intros H. now destruct (Hq H).
Qed.

(** X2. The same for a whole POST, whatever the request: no file that was
    on the disk is removed or changed, and when no system call fails no
    temporary file of any upload is left. *)
Theorem do_POST_leaves_disk req w :
  files w ⊆ files (snd (do_POST req w)) /\
  (no_faults w -> files (snd (do_POST req w)) = files w).
Proof.
  destruct (do_POST req w) as [r w'] eqn:E. apply (do_POST_run_files _ _ _ _ E).
Qed.

End FrameFacts.

Import DemoJson.

Lemma process_pdf_leaves_disk_witness :
  files served ⊆
    files (snd (process_pdf (collab := toy) two_pages (py "report.pdf")
                  served_unlink_refused)) /\
  files (snd (process_pdf (collab := toy) two_pages (py "report.pdf") served)) = files served.
Proof.
  split.
  - apply (proj1 (process_pdf_leaves_disk (collab := toy) two_pages (py "report.pdf")
                    served_unlink_refused)).
  - apply (proj2 (process_pdf_leaves_disk (collab := toy) two_pages (py "report.pdf")
                    served)).
    apply List.Forall_nil.
Defined.

Lemma do_POST_leaves_disk_witness :
  files (snd (do_POST (collab := toy) batch_of_three served)) = files served.
Proof.
  apply (proj2 (do_POST_leaves_disk (collab := toy) batch_of_three served)).
  apply List.Forall_nil.
Defined.

(** ** The answers of [do_POST] *)

Section AnswerFacts.

Context {collab : Collaborators}.

Lemma not_found_run w :
  not_found w =
  (Return tt, mkWorld (files w) (tmp_names w) (faults w) (wfile w ++ not_found_answer)).
Proof.
  unfold not_found, bind, send_response, end_headers, wfile_write, emit. cbn.
  now rewrite <- !app_assoc.
Qed.

Lemma send_json_answer body w :
  send_json body w =
  (Return tt, mkWorld (files w) (tmp_names w) (faults w)
                (wfile w ++ json_answer (dumps None body))).
Proof. apply send_json_run. Qed.

(** The JSON branch: what has been sent when it returns, and when it raises. *)
Lemma do_POST_json_run req w r w' :
  do_POST_json req w = (r, w') ->
  match r with
  | Return _ =>
      (exists zip_base64,
          wfile w' = wfile w ++ json_answer
                       (dumps None (JDict [(py "success", JBool true);
                                           (py "zip_base64", JStr zip_base64)])))
      \/ wfile w' = wfile w ++ not_found_answer
  | Raise e =>
      wfile w' = wfile w
      \/ (wfile w' = wfile w ++ json_head /\
          exists z, bytes_decode (b64encode (zip_container z)) = Raise e)
  end.
Proof.
  unfold do_POST_json.
  unfold bind at 1, lift. destruct (int_of_header (content_length req)) as [length|e];
    [|intros [= <- <-]; now left].
  unfold bind at 1.
  destruct (bind_outcome (rfile_read req length) bytes_decode) as [post_data|e];
    [|intros [= <- <-]; now left].
  unfold bind at 1. destruct (json_loads post_data) as [payload|e];
    [|intros [= <- <-]; now left].
  unfold bind at 1. destruct (py_in (py "action") payload) as [has_action|e];
    [|intros [= <- <-]; now left].
  unfold bind at 1.
  destruct has_action.
  - unfold bind at 1. destruct (py_getitem payload (py "action")) as [action|e];
      [|intros [= <- <-]; now left].
    unfold ret. destruct (is_str (py "download_all") action).
    2:{ rewrite not_found_run. intros [= <- <-]. now right. }
    unfold bind at 1. destruct (py_get payload (py "json_data") (JList [])) as [l|e];
      [|intros [= <- <-]; now left].
    unfold bind at 1. destruct (create_zip_package l) as [z|e];
      [|intros [= <- <-]; now left].
    unfold bind, send_response, send_header, end_headers, wfile_write, emit, lift.
    cbn [files tmp_names faults wfile].
    destruct (bytes_decode (b64encode (zip_container z))) as [b64|e] eqn:Eb.
    + rewrite str_encode_dumps. intros [= <- <-]. left. exists b64. cbn [wfile].
      unfold json_answer, json_head. now rewrite <- !app_assoc.
    + intros [= <- <-]. right. cbn [wfile]. split; [|eauto].
      unfold json_head. now rewrite <- !app_assoc.
  - unfold ret. rewrite not_found_run. intros [= <- <-]. now right.
Qed.

Lemma do_POST_run req w r w' :
  do_POST req w = (r, w') ->
  match r with
  | Return _ =>
      (path req = py "/convert" /\
       exists v, wfile w' = wfile w ++ json_answer (dumps None v))
      \/ wfile w' = wfile w ++ not_found_answer
  | Raise e =>
      path req = py "/convert" /\
      (wfile w' = wfile w
       \/ (wfile w' = wfile w ++ json_head /\
           exists z, bytes_decode (b64encode (zip_container z)) = Raise e))
  end.
Proof.
  unfold do_POST.
  destruct (str_eqb (path req) (py "/convert")) eqn:Hp;
    [apply bool_decide_eq_true in Hp
    |cbn [andb]; rewrite not_found_run; intros [= <- <-]; now right].
  unfold bind at 1, lift.
  destruct (parse_content_type req) as [ct|e]; [|intros [= <- <-]; auto].
  destruct (str_eqb ct (py "multipart/form-data")).
  - unfold do_POST_multipart, bind at 1, lift.
    destruct (cgi_FieldStorage req) as [form|e]; [|intros [= <- <-]; auto].
    unfold bind at 1.
    destruct (existsb is_files_field form).
    + pose proof (silent_convert_files (filter is_files_field form) [] w) as Hw.
      destruct (convert_files (filter is_files_field form) [] w) as [[rs|e] w1];
        cbn [snd] in Hw.
      * rewrite send_json_answer. intros [= <- <-]. left. split; [exact Hp|].
        exists (JList rs). cbn [wfile]. now rewrite Hw.
      * intros [= <- <-]. split; [exact Hp|]. now left.
    + unfold ret. rewrite send_json_answer. intros [= <- <-]. left. split; [exact Hp|].
      now exists (JList []).
  - destruct (str_eqb ct (py "application/json")).
    + intros E. apply do_POST_json_run in E. destruct r as [[]|e].
      * destruct E as [[b64 E]|E]; [left; eauto|now right].
      * auto.
    + rewrite not_found_run. intros [= <- <-]. now right.
Qed.

(** X3. When [do_POST] returns, it has sent exactly one complete answer:
    the 200 with its two headers and a JSON body, which only a request to
    [/convert] gets, or the bare 404 with the body [Not Found]. *)
Theorem do_POST_answers_once req w w' :
  do_POST req w = (Return tt, w') ->
  (path req = py "/convert" /\
   exists v, wfile w' = wfile w ++ json_answer (dumps None v))
  \/ wfile w' = wfile w ++ not_found_answer.
Proof. intros H. exact (do_POST_run _ _ _ _ H). Qed.

End AnswerFacts.

Lemma do_POST_answers_once_witness :
  (path no_parts = py "/convert" /\
   exists v, wfile (snd (do_POST (collab := toy) no_parts quiet))
             = wfile quiet ++ json_answer (dumps None v))
  \/ wfile (snd (do_POST (collab := toy) no_parts quiet)) = wfile quiet ++ not_found_answer.
Proof.
  refine (do_POST_answers_once (collab := toy) no_parts quiet _ _).
  vm_compute. reflexivity.
Defined.

(** ** The JSON branch *)

Section JsonBranch.

Context {collab : Collaborators}.





End JsonBranch.

Ltac reaches_json_branch :=
  split; [reflexivity|]; split; [reflexivity|]; eexists _, _;
  split; [vm_compute; reflexivity|]; split; [vm_compute; reflexivity|];
  split; [vm_compute; reflexivity|]; vm_compute; reflexivity.




(** ** The archive, entry by entry *)

Section ArchiveFacts.

Lemma zip_items_app xs : forall ys zipf,
  zip_items (xs ++ ys) zipf = bind_outcome (zip_items xs zipf) (zip_items ys).
Proof.
  induction xs as [|item xs IH]; intros ys zipf; [reflexivity|].
  cbn [app zip_items].
  destruct (py_in (py "filename") item) as [[|]|e]; cbn [bind_outcome]; [| apply IH | reflexivity].
  destruct (py_in (py "data") item) as [[|]|e]; cbn [bind_outcome]; [| apply IH | reflexivity].
  destruct (py_getitem item (py "filename")) as [name|e]; cbn [bind_outcome]; [|reflexivity].
  destruct (py_replace name (py ".pdf") (py ".json")) as [f|e]; cbn [bind_outcome]; [|reflexivity].
  destruct (py_getitem item (py "data")) as [data|e]; cbn [bind_outcome]; [|reflexivity].
  destruct (writestr zipf f (dumps (Some 2%nat) data)) as [zipf'|e]; cbn [bind_outcome];
    [apply IH|reflexivity].
Qed.

(** What [writestr] does depends on the name and the content only: the
    member is appended to whatever the archive holds. *)
Lemma writestr_cases name content :
  (exists m, forall zipf, writestr zipf name content = Return (zipf ++ [m])) \/
  (exists e, forall zipf, writestr zipf name content = Raise e).
Proof.
  unfold writestr. destruct (str_encode content) as [data|e]; cbn [bind_outcome]; [|eauto].
  destruct (cut_at_nul name) as [|c kept]; [eauto|].
  destruct (str_encode (c :: kept)) as [header_name|e]; cbn [bind_outcome]; [|eauto].
  destruct (0xffff <? N.of_nat (length header_name)); eauto.
Qed.

Lemma zip_items_acc items : forall zipf,
  zip_items items zipf =
  bind_outcome (zip_items items []) (fun ms => Return (zipf ++ ms)).
Proof.
  induction items as [|item items IH]; intros zipf;
    [cbn; now rewrite app_nil_r|].
  cbn [zip_items].
  destruct (py_in (py "filename") item) as [[|]|e]; cbn [bind_outcome]; [| apply IH | reflexivity].
  destruct (py_in (py "data") item) as [[|]|e]; cbn [bind_outcome]; [| apply IH | reflexivity].
  destruct (py_getitem item (py "filename")) as [name|e]; cbn [bind_outcome]; [|reflexivity].
  destruct (py_replace name (py ".pdf") (py ".json")) as [f|e]; cbn [bind_outcome]; [|reflexivity].
  destruct (py_getitem item (py "data")) as [data|e]; cbn [bind_outcome]; [|reflexivity].
  destruct (writestr_cases f (dumps (Some 2%nat) data)) as [[m Hm]|[e He]];
    [|now rewrite !He].
  rewrite !Hm. cbn [bind_outcome app].
  rewrite (IH (zipf ++ _)), (IH [_]).
  destruct (zip_items items []) as [ms|e]; cbn [bind_outcome]; [|reflexivity].
  now rewrite <- app_assoc.
Qed.

Lemma zip_items_data items : forall zipf z,
  zip_items items zipf = Return z ->
  exists ms, z = zipf ++ ms /\ Forall2 holds_data (filter packaged items) ms.
Proof.
  induction items as [|item items IH]; intros zipf z H.
  - injection H as <-. exists []. rewrite app_nil_r. split; [reflexivity|constructor].
  - cbn [zip_items] in H. unfold packaged at 1.
    destruct (py_in (py "filename") item) as [[|]|e] eqn:Hf; cbn [bind_outcome] in H;
      [|rewrite filter_cons_False by (unfold packaged; rewrite Hf; exact id); now apply IH
       |discriminate].
    destruct (py_in (py "data") item) as [[|]|e] eqn:Hd; cbn [bind_outcome] in H;
      [|rewrite filter_cons_False by (unfold packaged; rewrite Hf, Hd; exact id); now apply IH
       |discriminate].
    rewrite filter_cons_True by (unfold packaged; rewrite Hf, Hd; exact I).
    destruct (py_getitem item (py "filename")) as [name|e] eqn:Hn; [|discriminate].
    cbn [bind_outcome] in H.
    destruct (py_replace name (py ".pdf") (py ".json")) as [f|e]; [|discriminate].
    cbn [bind_outcome] in H.
    destruct (py_getitem item (py "data")) as [data|e] eqn:Hdata; [|discriminate].
    cbn [bind_outcome] in H.
    destruct (storable f) eqn:Hst;
      [|destruct (writestr_refused zipf _ (Some 2%nat) data Hst) as [e He];
        now rewrite He in H].
    rewrite (writestr_stored _ _ _ _ Hst) in H. cbn [bind_outcome] in H.
    destruct (IH _ _ H) as (ms & -> & HF).
    exists (mkMember (cut_at_nul f) true (dumps (Some 2%nat) data) :: ms).
    rewrite <- app_assoc. split; [reflexivity|].
    constructor; [|exact HF]. exists data. auto.
Qed.

Lemma member_decodes data :
  faithful data ->
  bind_outcome (bytes_decode (dumps (Some 2%nat) data)) json_loads = Return data.
Proof.
  intros Hf. unfold bytes_decode, dumps. rewrite (decode_ascii _ (iterencode_ascii _ _ 0)).
  cbn [bind_outcome]. unfold json_loads. fold (dumps (Some 2%nat) data).
  now rewrite loads_dumps.
Qed.

(** X8. The archive holds, in order, one deflated member per entry that
    has both keys: the entry's [data] as JSON text with an indent of two,
    which parses back to the data whenever the data is a value the decoder
    returns unchanged. *)
Theorem archive_members_hold_data items z :
  create_zip_package (JList items) = Return z ->
  Forall2 holds_data (filter packaged items) z /\
  Forall2 (fun item m =>
             forall data, py_getitem item (py "data") = Return data -> faithful data ->
                          bind_outcome (bytes_decode (member_data m)) json_loads = Return data)
    (filter packaged items) z.
Proof.
  intros H. destruct (zip_items_data items [] z H) as (ms & -> & HF). cbn [app].
  split; [exact HF|].
  clear H. induction HF as [|item m its ms (data & Hd & _ & Hm) _ IH]; [constructor|].
  constructor; [|exact IH].
  intros data' Hd' Hf. rewrite Hd in Hd'. injection Hd' as <-. rewrite Hm.
  now apply member_decodes.
Qed.

(** X9. Packaging a batch in two parts: the archive of [xs ++ ys] is the
    archive of [xs] followed by that of [ys], and the first fault, left to
    right, is the fault of the whole. *)
Theorem create_zip_package_app xs ys :
  create_zip_package (JList (xs ++ ys)) =
  bind_outcome (create_zip_package (JList xs))
    (fun a => bind_outcome (create_zip_package (JList ys)) (fun b => Return (a ++ b))).
Proof.
  unfold create_zip_package. cbn [py_iter bind_outcome].
  rewrite zip_items_app.
  destruct (zip_items xs []) as [a|e]; cbn [bind_outcome]; [|reflexivity].
  apply zip_items_acc.
Qed.

(** X10. An object that lacks [filename] or [data] is passed over: the
    archive is the one of the batch without it, and it raises nothing of
    its own. *)
Theorem entry_without_both_keys_is_skipped xs kvs ys :
  dict_get kvs (py "filename") = None \/ dict_get kvs (py "data") = None ->
  create_zip_package (JList (xs ++ JDict kvs :: ys)) = create_zip_package (JList (xs ++ ys)).
Proof.
  intros Hk. unfold create_zip_package. cbn [py_iter bind_outcome].
  rewrite !zip_items_app. destruct (zip_items xs []) as [a|e]; cbn [bind_outcome]; [|reflexivity].
  cbn [zip_items py_in].
  destruct (dict_get kvs (py "filename")); cbn [bind_outcome]; [|reflexivity].
  destruct Hk as [Hk|Hk]; [discriminate|]. now rewrite Hk.
Qed.

(** X11. An entry that cannot be packaged makes the packager raise, and
    the members written before it are lost with the archive: [None], a
    number or a boolean cannot be searched for a key ([TypeError]), and a
    [filename] that is not a string has no [replace] ([AttributeError]). *)
Theorem bad_entry_aborts_archive xs ys a :
  create_zip_package (JList xs) = Return a ->
  (forall item, item = JNull \/ (exists b, item = JBool b) \/ (exists n, item = JInt n) ->
     exists e, create_zip_package (JList (xs ++ item :: ys)) = Raise e /\
               exn_class e = "TypeError"%string) /\
  (forall kvs v d,
     dict_get kvs (py "filename") = Some v -> dict_get kvs (py "data") = Some d ->
     (forall f, v <> JStr f) ->
     exists e, create_zip_package (JList (xs ++ JDict kvs :: ys)) = Raise e /\
               exn_class e = "AttributeError"%string).
Proof.
  unfold create_zip_package. cbn [py_iter bind_outcome]. intros Ha. split.
  - intros item Hi. rewrite zip_items_app, Ha. cbn [bind_outcome zip_items].
    destruct Hi as [->|[[b ->]|[n ->]]]; cbn [py_in bind_outcome]; eexists; split; reflexivity.
  - intros kvs v d Hf Hd Hv. rewrite zip_items_app, Ha. cbn [bind_outcome zip_items py_in].
    rewrite Hf. cbn [bind_outcome]. rewrite Hd. cbn [bind_outcome py_getitem]. rewrite Hf.
    cbn [bind_outcome].
    destruct v as [| | |f| |]; try (eexists; split; reflexivity). now destruct (Hv f).
Qed.

Lemma passes_as_text_char c : passes_as_text [c] = false.
Proof.
  unfold passes_as_text. apply andb_false_iff. left.
  change (py "filename") with (0x66 :: py "ilename"). cbn [contains startswith].
  change (py "ilename") with (0x69 :: py "lename"). cbn [startswith].
  now rewrite andb_false_r.
Qed.

Lemma zip_items_chars s : forall zipf, zip_items (map (fun c => JStr [c]) s) zipf = Return zipf.
Proof.
  induction s as [|c s IH]; intros zipf; [reflexivity|].
  cbn [map zip_items py_in].
  pose proof (passes_as_text_char c) as Hc. unfold passes_as_text in Hc.
  destruct (contains (py "filename") [c]); cbn [bind_outcome]; [|apply IH].
  cbn [andb] in Hc. rewrite Hc. cbn [bind_outcome]. apply IH.
Qed.

Lemma zip_items_keys (kvs : list (list N * value)) : forall zipf,
  zip_items (map (fun kv => JStr (fst kv)) kvs) zipf =
  if existsb (fun kv => passes_as_text (fst kv)) kvs
  then Raise (TypeError "string indices must be integers")
  else Return zipf.
Proof.
  induction kvs as [|[k v] kvs IH]; intros zipf; [reflexivity|].
  cbn [map zip_items py_in existsb fst]. unfold passes_as_text at 1.
  destruct (contains (py "filename") k); cbn [bind_outcome andb orb]; [|apply IH].
  destruct (contains (py "data") k); cbn [bind_outcome orb]; [reflexivity|apply IH].
Qed.

(** X12. A [json_data] that is not a list never yields a member.  A
    string is walked character by character and gives the empty archive;
    an object is walked key by key, and a key in which both words occur is
    indexed as if it were an entry, which raises [TypeError], while the
    other keys are passed over; [None], a number and a boolean cannot be
    iterated. *)
Theorem json_data_not_a_list :
  (forall s, create_zip_package (JStr s) = Return []) /\
  (forall kvs, existsb (fun kv => passes_as_text (fst kv)) kvs = false ->
               create_zip_package (JDict kvs) = Return []) /\
  (forall kvs, existsb (fun kv => passes_as_text (fst kv)) kvs = true ->
               exists e, create_zip_package (JDict kvs) = Raise e /\
                         exn_class e = "TypeError"%string) /\
  (forall v, v = JNull \/ (exists b, v = JBool b) \/ (exists n, v = JInt n) ->
             exists e, create_zip_package v = Raise e /\ exn_class e = "TypeError"%string).
Proof.
  unfold create_zip_package. split; [|split; [|split]].
  - intros s. cbn [py_iter bind_outcome]. apply zip_items_chars.
  - intros kvs H. cbn [py_iter bind_outcome]. now rewrite zip_items_keys, H.
  - intros kvs H. cbn [py_iter bind_outcome]. rewrite zip_items_keys, H.
    eexists; split; reflexivity.
  - intros v [->|[[b ->]|[n ->]]]; eexists; split; reflexivity.
Qed.

End ArchiveFacts.

Lemma archive_members_hold_data_witness :
  Forall2 holds_data
    (filter packaged
       [JDict [(py "filename", JStr (py "report.pdf")); (py "data", JInt 1)];
        JDict [(py "filename", JStr (py "only a name"))];
        JDict [(py "filename", JStr (py "notes.txt")); (py "data", JList [])]])
    [mkMember (py "report.json") true (py "1"); mkMember (py "notes.txt") true (py "[]")].
Proof.
  refine (proj1 (archive_members_hold_data
                   [JDict [(py "filename", JStr (py "report.pdf")); (py "data", JInt 1)];
                    JDict [(py "filename", JStr (py "only a name"))];
                    JDict [(py "filename", JStr (py "notes.txt")); (py "data", JList [])]]
                   _ _)).
  vm_compute. reflexivity.
Defined.

Lemma entry_without_both_keys_is_skipped_witness :
  create_zip_package
    (JList ([JDict [(py "filename", JStr (py "a.pdf")); (py "data", JInt 1)]]
            ++ JDict [(py "filename", JStr (py "only a name"))]
               :: [JDict [(py "filename", JStr (py "b.pdf")); (py "data", JInt 2)]])) =
  create_zip_package
    (JList ([JDict [(py "filename", JStr (py "a.pdf")); (py "data", JInt 1)]]
            ++ [JDict [(py "filename", JStr (py "b.pdf")); (py "data", JInt 2)]])).
Proof.
  refine (entry_without_both_keys_is_skipped _ [(py "filename", JStr (py "only a name"))] _ _).
  right. vm_compute. reflexivity.
Defined.

Lemma bad_entry_aborts_archive_witness :
  (exists e,
     create_zip_package
       (JList ([JDict [(py "filename", JStr (py "a.pdf")); (py "data", JInt 1)]]
               ++ JInt 5 :: [])) = Raise e /\
     exn_class e = "TypeError"%string) /\
  (exists e,
     create_zip_package
       (JList ([JDict [(py "filename", JStr (py "a.pdf")); (py "data", JInt 1)]]
               ++ JDict [(py "filename", JInt 7); (py "data", JInt 2)] :: [])) = Raise e /\
     exn_class e = "AttributeError"%string).
Proof.
  pose proof (bad_entry_aborts_archive
                [JDict [(py "filename", JStr (py "a.pdf")); (py "data", JInt 1)]] []
                [mkMember (py "a.json") true (py "1")]) as H.
  destruct H as (H1 & H2); [vm_compute; reflexivity|]. split.
  - apply (H1 (JInt 5)). right. right. now exists 5%Z.
  - apply (H2 [(py "filename", JInt 7); (py "data", JInt 2)] (JInt 7) (JInt 2)).
    + vm_compute. reflexivity.
    + vm_compute. reflexivity.
    + discriminate.
Defined.

(** ** A world without faults *)

Section QuietRuns.

Context {collab : Collaborators}.

Lemma make_temp_pdf_quiet file_data w name rest :
  no_faults w -> tmp_names w = name :: rest ->
  files w !! tmp_path name (py ".pdf") = None ->
  exists w1, make_temp_pdf file_data w = (Return (tmp_path name (py ".pdf")), w1) /\
             files w1 = <[tmp_path name (py ".pdf") := file_data]> (files w) /\
             tmp_names w1 = rest /\ no_faults w1 /\ wfile w1 = wfile w.
Proof.
  intros Hq Hn Hfree. unfold make_temp_pdf, NamedTemporaryFile, bind at 1 2.
  destruct (syscall w) as [r w0] eqn:Es.
  destruct (syscall_inv _ _ _ Es) as (Hf & Ht & Hw & H0). destruct (H0 Hq) as (-> & Hq0).
  rewrite Hf, Ht, Hn. cbn [mkstemp]. rewrite Hfree.
  unfold write_and_close, bind.
  set (w1 := mkWorld _ rest (faults w0) (wfile w0)).
  assert (no_faults w1) as Hq1 by exact Hq0.
  destruct (syscall w1) as [r w2] eqn:Es1.
  destruct (syscall_inv _ _ _ Es1) as (Hf1 & Ht1 & Hw1 & H1). destruct (H1 Hq1) as (-> & Hq2).
  unfold ret. eexists. split; [reflexivity|]. cbn [files tmp_names wfile].
  rewrite Hf1, Ht1, Hw1. subst w1. cbn [files tmp_names wfile].
  rewrite insert_insert_eq. repeat split; trivial.
Qed.

Lemma process_pdf_quiet file_data filename w name rest :
  no_faults w -> tmp_names w = name :: rest ->
  files w !! tmp_path name (py ".pdf") = None ->
  exists w',
    process_pdf file_data filename w = (Return (converted file_data filename), w') /\
    files w' = files w /\ tmp_names w' = rest /\ no_faults w' /\ wfile w' = wfile w.
Proof.
  intros Hq Hn Hfree.
  destruct (make_temp_pdf_quiet file_data w name rest Hq Hn Hfree)
    as (w1 & Et & Hf1 & Ht1 & Hq1 & Hw1).
  rewrite (process_pdf_protected _ _ _ _ _ Et).
  set (path := tmp_path name (py ".pdf")) in *.
  unfold try_finally, try_except, convert_temp_pdf, PdfReader, read_file.
  unfold bind at 1 2 3.
  destruct (syscall w1) as [r w2] eqn:Es.
  destruct (syscall_inv _ _ _ Es) as (Hf2 & Ht2 & Hw2 & H2). destruct (H2 Hq1) as (-> & Hq2).
  rewrite Hf2, Hf1, lookup_insert_eq. unfold lift, bind, ret, converted.
  assert (exists w3, cleanup path w2 = (Return tt, w3) /\ files w3 = files w /\
                     tmp_names w3 = rest /\ no_faults w3 /\ wfile w3 = wfile w)
    as (w3 & Ec & Hf3 & Ht3 & Hq3 & Hw3).
  { unfold cleanup, try_except, unlink, bind.
    destruct (syscall w2) as [r w3] eqn:Es3.
    destruct (syscall_inv _ _ _ Es3) as (Hf3 & Ht3 & Hw3 & H3). destruct (H3 Hq2) as (-> & Hq3).
    rewrite Hf3, Hf2, Hf1, lookup_insert_eq. eexists. split; [reflexivity|].
    cbn [files tmp_names wfile]. rewrite Ht3, Ht2, Hw3, Hw2.
    rewrite delete_insert_id by exact Hfree. repeat split; trivial. }
  exists w3.
  destruct (pdf_parse file_data) as [pdf|e]; cbn [bind_outcome].
  - destruct (extract_pages 0 pdf []) as [pages|e]; rewrite Ec; repeat split; trivial.
  - rewrite Ec. repeat split; trivial.
Qed.

Lemma convert_files_quiet files_ : forall results w,
  no_faults w ->
  names_free w (length (filter (fun item => truthy (filename item)) files_)) ->
  Forall (fun item => has_file item = true)
    (filter (fun item => truthy (filename item)) files_) ->
  exists rs w',
    convert_files files_ results w = (Return (results ++ rs), w') /\
    Forall2 converted_from (filter (fun item => truthy (filename item)) files_) rs /\
    files w' = files w /\ no_faults w' /\ wfile w' = wfile w.
Proof.
  induction files_ as [|item rest IH]; intros results w Hq Hfree Hall.
  - exists [], w. cbn. rewrite app_nil_r. repeat split; trivial.
  - destruct (truthy (filename item)) eqn:Ht.
    + rewrite filter_cons_True in Hfree, Hall |- * by (rewrite Ht; exact I).
      inversion Hall as [|? ? Hfile Hrest]; subst. unfold has_file in Hfile.
      destruct (file item) as [data|] eqn:Hdata; [|discriminate].
      destruct (filename item) as [name|] eqn:Hn; [|discriminate].
      destruct Hfree as (Hlen & Hnames). cbn [length] in Hlen.
      destruct (tmp_names w) as [|tmp names] eqn:Etmp; [cbn in Hlen; lia|].
      destruct (process_pdf_quiet data name w tmp names Hq Etmp)
        as (w1 & Hp & Hf1 & Ht1 & Hq1 & Hw1).
      { apply Hnames. apply elem_of_cons; now left. }
      rewrite (convert_files_return _ _ _ _ _ _ _ _ Hn Ht Hdata Hp).
      destruct (IH (results ++ [converted data name]) w1 Hq1)
        as (rs & w' & Hrun & HF & Hf & Hq' & Hw'); [|exact Hrest|].
      { split; [rewrite Ht1; cbn in Hlen; lia|].
        intros n Hin. rewrite Hf1. apply Hnames. rewrite Ht1 in Hin.
        apply elem_of_cons; now right. }
      exists (converted data name :: rs), w'. rewrite Hrun, <- app_assoc. cbn [app].
      split; [reflexivity|]. split; [|repeat split; congruence].
      constructor; [|exact HF]. now exists name, data.
    + rewrite (convert_files_skip _ _ _ _ Ht).
      rewrite filter_cons_False in Hfree, Hall |- * by (rewrite Ht; exact id).
      now apply IH.
Qed.

(** A part with a file name and no file ends the loop by the fault of
    reading it, whatever the conversions before it did. *)
Lemma convert_files_missing_file files_ : forall results w,
  Exists (fun item => has_file item = false)
    (filter (fun item => truthy (filename item)) files_) ->
  exists w',
    convert_files files_ results w =
      (Raise (AttributeError "'NoneType' object has no attribute 'read'"), w').
Proof.
  induction files_ as [|item rest IH]; intros results w Hex.
  - rewrite filter_nil in Hex. inversion Hex.
  - destruct (truthy (filename item)) eqn:Ht.
    + rewrite filter_cons_True in Hex by (rewrite Ht; exact I).
      destruct (file item) as [data|] eqn:Hdata;
        [|exists w; now apply convert_files_unreadable].
      destruct (filename item) as [name|] eqn:Hn; [|discriminate].
      inversion Hex as [? ? Hhead|? ? Htail]; subst;
        [unfold has_file in Hhead; now rewrite Hdata in Hhead|].
      destruct (process_pdf data name w) as [[v|e] w1] eqn:Hp.
      * rewrite (convert_files_return _ _ _ _ _ _ _ _ Hn Ht Hdata Hp). now apply IH.
      * rewrite (convert_files_raise _ _ _ _ _ _ _ _ Hn Ht Hdata Hp). now apply IH.
    + rewrite (convert_files_skip _ _ _ _ Ht).
      rewrite filter_cons_False in Hex by (rewrite Ht; exact id). now apply IH.
Qed.

(** X13. In a world where no system call fails and a name for the
    temporary file is free, [process_pdf] returns what the reader makes of
    the very bytes it was given: the detour through the temporary file
    does not show in the result. *)
Theorem process_pdf_converts_upload file_data filename w :
  no_faults w -> names_free w 1 ->
  fst (process_pdf file_data filename w) = Return (converted file_data filename).
Proof.
  intros Hq (Hlen & Hnames).
  destruct (tmp_names w) as [|tmp names] eqn:Etmp; [cbn in Hlen; lia|].
  destruct (process_pdf_quiet file_data filename w tmp names Hq Etmp)
    as (w1 & Hp & _).
  { apply Hnames. apply elem_of_cons; now left. }
  now rewrite Hp.
Qed.

(** X14. In such a world a multipart POST whose uploads each carry a
    file is answered 200 with the records of the uploads, each converted
    from its own bytes, in upload order.  In any world, an upload that has
    a file name and no file (a part that is itself a multipart container)
    makes [do_POST] raise [AttributeError], and nothing is sent. *)
Theorem upload_answer req form w :
  path req = py "/convert" ->
  parse_content_type req = Return (py "multipart/form-data") ->
  cgi_FieldStorage req = Return form ->
  (no_faults w -> names_free w (length (uploads form)) ->
   Forall (fun item => has_file item = true) (uploads form) ->
   exists results w',
     do_POST req w = (Return tt, w') /\
     Forall2 converted_from (uploads form) results /\
     wfile w' = wfile w ++ json_answer (dumps None (JList results))) /\
  (Exists (fun item => has_file item = false) (uploads form) ->
   exists w',
     do_POST req w =
       (Raise (Exn "AttributeError" (py "'NoneType' object has no attribute 'read'")), w') /\
     wfile w' = wfile w).
Proof.
  intros Hpath Hct Hform.
  assert (do_POST req w =
          (if existsb is_files_field form
           then bind (convert_files (filter is_files_field form) [])
                  (fun results => send_json (JList results))
           else send_json (JList [])) w) as Hrun.
  { rewrite (do_POST_convert _ _ Hpath). unfold bind at 1, lift. rewrite Hct.
    replace (str_eqb (py "multipart/form-data") (py "multipart/form-data")) with true
      by reflexivity.
    unfold do_POST_multipart. unfold bind at 1, lift. rewrite Hform.
    now destruct (existsb is_files_field form). }
  rewrite Hrun. clear Hrun. split.
  - intros Hq Hfree Hall. destruct (existsb is_files_field form) eqn:Hex.
    + destruct (convert_files_quiet (filter is_files_field form) [] w Hq Hfree Hall)
        as (rs & w1 & Hrun & HF & _ & _ & Hw).
      unfold bind at 1. rewrite Hrun. cbn [app]. rewrite send_json_answer.
      exists rs. eexists. split; [reflexivity|]. split; [exact HF|]. cbn [wfile].
      now rewrite Hw.
    + rewrite send_json_answer. exists []. eexists. split; [reflexivity|].
      split; [|reflexivity]. unfold uploads. rewrite (no_files_field _ Hex). constructor.
  - intros Hex. destruct (existsb is_files_field form) eqn:Hfield.
    + destruct (convert_files_missing_file (filter is_files_field form) [] w Hex)
        as (w1 & Hrun).
      pose proof (silent_convert_files (filter is_files_field form) [] w) as Hw.
      unfold bind at 1. rewrite Hrun in Hw |- *. exists w1. split; [reflexivity|exact Hw].
    + unfold uploads in Hex. rewrite (no_files_field _ Hfield) in Hex. inversion Hex.
Qed.

End QuietRuns.

Lemma names_free_quiet n : (n <= 3)%nat -> names_free quiet n.
Proof. intros H. split; [exact H|]. intros name _. apply lookup_empty. Qed.

Lemma process_pdf_converts_upload_witness :
  fst (process_pdf (collab := toy) two_pages (py "report.pdf") quiet) =
  Return (success_record (py "report.pdf")
            (pdf_data_of (py "report.pdf")
               [page_record 0 (Some (py "a b c")); page_record 1 (Some (py "second page"))])).
Proof.
  refine (process_pdf_converts_upload (collab := toy) two_pages (py "report.pdf") quiet _ _).
  - apply List.Forall_nil.
  - apply names_free_quiet. lia.
Defined.

Lemma upload_answer_witness :
  (exists results w',
     do_POST (collab := toy) batch_of_three quiet = (Return tt, w') /\
     Forall2 (converted_from (collab := toy))
       (uploads [mkFieldItem (py "files[]") (Some (py "a.pdf")) (Some (py "%PDFone"));
                 mkFieldItem (py "files[]") (Some (py "b.pdf")) (Some (py "garbage"));
                 mkFieldItem (py "files[]") (Some (py "c.pdf")) (Some (py "%PDFthree"))])
       results /\
     wfile w' = wfile quiet ++ json_answer (dumps None (JList results))) /\
  (exists w',
     do_POST (collab := toy) batch_with_container quiet =
       (Raise (Exn "AttributeError" (py "'NoneType' object has no attribute 'read'")), w') /\
     wfile w' = wfile quiet).
Proof.
  split.
  - refine (proj1 (upload_answer (collab := toy) batch_of_three _ quiet _ _ _) _ _ _).
    + reflexivity.
    + reflexivity.
    + vm_compute. reflexivity.
    + apply List.Forall_nil.
    + apply names_free_quiet. vm_compute. lia.
    + vm_compute. repeat constructor.
  - refine (proj2 (upload_answer (collab := toy) batch_with_container
                     [mkFieldItem (py "files[]") (Some (py "a.pdf")) (Some (py "%PDFone"));
                      mkFieldItem (py "files[]") (Some (py "b.pdf")) None;
                      mkFieldItem (py "files[]") (Some (py "c.pdf")) (Some (py "%PDFthree"))]
                     quiet _ _ _) _).
    + reflexivity.
    + reflexivity.
    + vm_compute. reflexivity.
    + vm_compute. apply Exists_cons_tl, Exists_cons_hd. reflexivity.
Defined.

(** ** Pages and their counts *)

Section SplitFacts.

Lemma split_go_bound s : forall cur,
  (2 * length (split_go cur s) <= length s + match cur with [] => 1 | _ => 2 end)%nat.
Proof.
  induction s as [|c s IH]; intros cur; cbn [split_go length].
  - destruct cur; cbn; lia.
  - destruct (isspace c).
    + specialize (IH []). destruct cur; cbn [length] in *; lia.
    + specialize (IH (c :: cur)). cbn beta iota in IH. destruct cur; lia.
Qed.

Lemma split_go_nil s : forall cur,
  split_go cur s = [] <-> cur = [] /\ forallb isspace s = true.
Proof.
  induction s as [|c s IH]; intros cur; cbn [split_go forallb].
  - destruct cur; (split; [intros H; try discriminate; auto|intros [H1 H2]; try discriminate; auto]).
  - destruct (isspace c); cbn [andb].
    + destruct cur; [apply IH|].
      split; [intros H; discriminate|intros [H1 H2]; discriminate].
    + rewrite IH. split; [intros [H1 H2]; discriminate|intros [H1 H2]; discriminate].
Qed.

(** The words of a text: none is empty, none holds white space, and put
    end to end they are the text without its white space. *)
Lemma split_go_words s : forall cur,
  forallb (fun c => negb (isspace c)) cur = true ->
  Forall (fun t => t <> [] /\ forallb (fun c => negb (isspace c)) t = true) (split_go cur s) /\
  concat (split_go cur s) = rev cur ++ List.filter (fun c => negb (isspace c)) s.
Proof.
  assert (Hrev : forall cur, forallb (fun c => negb (isspace c)) cur = true ->
                             forallb (fun c => negb (isspace c)) (rev cur) = true).
  { intros cur H. apply forallb_forall. intros x Hx. apply in_rev in Hx.
    rewrite forallb_forall in H. now apply H. }
  induction s as [|c s IH]; intros cur Hcur; cbn [split_go List.filter].
  - destruct cur as [|a cur]; [split; [constructor|reflexivity]|].
    split.
    + constructor; [|constructor]. split; [|now apply Hrev].
      cbn [rev]. intros E. now apply app_eq_nil in E as [_ [=]].
    + cbn [concat]. now rewrite !app_nil_r.
  - destruct (isspace c) eqn:Hc; cbn [negb].
    + destruct (IH [] eq_refl) as (Hw & Hcat). destruct cur as [|a cur]; [now split|].
      split.
      * constructor; [|exact Hw]. split; [|now apply Hrev].
        cbn [rev]. intros E. now apply app_eq_nil in E as [_ [=]].
      * cbn [concat]. now rewrite Hcat.
    + destruct (IH (c :: cur)) as (Hw & Hcat); [cbn [forallb]; now rewrite Hc, Hcur|].
      split; [exact Hw|]. rewrite Hcat. cbn [rev]. now rewrite <- app_assoc.
Qed.

End SplitFacts.

Section PageFacts.

Context {collab : Collaborators}.

Lemma counts_text_page_record i text : counts_text text (page_record i text).
Proof.
  unfold counts_text. split; [reflexivity|].
  destruct text as [[|c s]|]; repeat split; reflexivity.
Qed.

Lemma counts_text_records texts : forall i,
  Forall2 counts_text texts (imap (fun k t => page_record (i + k) t) texts).
Proof.
  induction texts as [|t texts IH]; intros i; [constructor|].
  cbn [imap]. constructor; [apply counts_text_page_record|].
  rewrite (imap_ext _ (fun k t => page_record (S i + k) t)) by (intros; cbn; f_equal; lia).
  apply IH.
Qed.

(** X15. The pages of a converted document, against the texts the reader
    extracted from the temporary file, page by page: the document has one
    record per text, in order, numbered from one; its content is that
    text, and every count is taken from it, an empty text and [None]
    counting as the empty text.  So the words of a page are at most half
    its characters, rounded up; there is no word exactly when the text is
    white space only; no word is empty or holds white space; and the words
    put end to end are the text without its white space. *)
Theorem page_counts file_data filename w path w1 w2 texts :
  make_temp_pdf file_data w = (Return path, w1) ->
  PdfReader path w1 = (Return (map (fun t => mkPage (Return t)) texts), w2) ->
  exists pages,
    fst (process_pdf file_data filename w) =
      Return (JDict [(py "filename", JStr filename);
                     (py "success", JBool true);
                     (py "data",
                       JDict [(py "filename", JStr filename);
                              (py "total_pages", JInt (Z.of_nat (length texts)));
                              (py "pages", JList pages)])]) /\
    Forall2 counts_text texts pages /\
    (forall i page, pages !! i = Some page ->
       py_getitem page (py "page_number") = Return (JInt (Z.of_nat i + 1))) /\
    Forall (fun text =>
              (2 * length (split (text_of text)) <= length (text_of text) + 1)%nat /\
              (length (split (text_of text)) = 0%nat
               <-> forallb isspace (text_of text) = true) /\
              Forall (fun t => t <> [] /\ forallb (fun c => negb (isspace c)) t = true)
                (split (text_of text)) /\
              concat (split (text_of text))
                = List.filter (fun c => negb (isspace c)) (text_of text)) texts.
Proof.
  intros Htmp Hreader. exists (imap page_record texts).
  split; [|split; [|split]].
  - rewrite (process_pdf_result _ _ _ _ _ Htmp).
    unfold convert_temp_pdf, bind, lift, ret. rewrite Hreader.
    rewrite (extract_pages_texts texts 0 []). cbn [app fst].
    unfold success_record, pdf_data_of. now rewrite length_imap.
  - apply (counts_text_records texts 0).
  - intros i page Hi. rewrite list_lookup_imap in Hi.
    destruct (texts !! i) as [text|]; [|discriminate]. now injection Hi as <-.
  - apply List.Forall_forall. intros text _. unfold split.
    split; [apply (split_go_bound (text_of text) [])|].
    split; [|apply (split_go_words (text_of text) [] eq_refl)].
    rewrite length_zero_iff_nil, split_go_nil. tauto.
Qed.

End PageFacts.

Section ExtractFacts.

Context {collab : Collaborators}.

(** X16. The command-line extraction and [process_pdf] run the same loop:
    on the file [process_pdf] wrote, [extract_text_from_pdf] returns the
    pages of the document [process_pdf] returns, and it raises exactly when
    [process_pdf] returns a failure record; what it raises is a plain
    [Exception] whose message is that of the record behind the prefix
    [Error extracting text from PDF: ]. *)
Theorem extract_text_from_pdf_agrees file_data filename w path w1 :
  make_temp_pdf file_data w = (Return path, w1) ->
  match fst (extract_text_from_pdf path w1) with
  | Return pages =>
      fst (process_pdf file_data filename w)
        = Return (success_record filename (pdf_data_of filename pages))
  | Raise e =>
      exists e0,
        fst (process_pdf file_data filename w) = Return (failure_record filename e0) /\
        e = Exn "Exception" (py "Error extracting text from PDF: " ++ exn_str e0)
  end.
Proof.
  intros Htmp. rewrite (process_pdf_result _ _ _ _ _ Htmp).
  unfold extract_text_from_pdf, convert_temp_pdf, try_except, bind, lift, ret, raise.
  destruct (PdfReader path w1) as [[pdf|e] w2]; cbn [fst]; [|eauto].
  destruct (extract_pages 0 pdf []) as [pages|e]; cbn [fst]; eauto.
Qed.

End ExtractFacts.

Lemma page_counts_witness :
  exists pages,
    fst (process_pdf (collab := toy) two_pages (py "report.pdf") quiet) =
      Return (JDict [(py "filename", JStr (py "report.pdf"));
                     (py "success", JBool true);
                     (py "data",
                       JDict [(py "filename", JStr (py "report.pdf"));
                              (py "total_pages",
                                JInt (Z.of_nat
                                        (length [Some (py "a b c"); Some (py "second page")])));
                              (py "pages", JList pages)])]) /\
    Forall2 counts_text [Some (py "a b c"); Some (py "second page")] pages /\
    (forall i page, pages !! i = Some page ->
       py_getitem page (py "page_number") = Return (JInt (Z.of_nat i + 1))) /\
    Forall (fun text =>
              (2 * length (split (text_of text)) <= length (text_of text) + 1)%nat /\
              (length (split (text_of text)) = 0%nat
               <-> forallb isspace (text_of text) = true) /\
              Forall (fun t => t <> [] /\ forallb (fun c => negb (isspace c)) t = true)
                (split (text_of text)) /\
              concat (split (text_of text))
                = List.filter (fun c => negb (isspace c)) (text_of text))
      [Some (py "a b c"); Some (py "second page")].
Proof.
  refine (page_counts (collab := toy) two_pages (py "report.pdf") quiet
            (tmp_path (py "k1") (py ".pdf"))
            (mkWorld {[ tmp_path (py "k1") (py ".pdf") := two_pages ]}
               [py "k2"; py "k3"] [] [])
            (mkWorld {[ tmp_path (py "k1") (py ".pdf") := two_pages ]}
               [py "k2"; py "k3"] [] [])
            [Some (py "a b c"); Some (py "second page")] _ _).
  - vm_compute. reflexivity.
  - vm_compute. reflexivity.
Defined.

Lemma extract_text_from_pdf_agrees_witness :
  match fst (extract_text_from_pdf (collab := toy) (tmp_path (py "k1") (py ".pdf"))
               (mkWorld {[ tmp_path (py "k1") (py ".pdf") := corrupt ]}
                  [py "k2"; py "k3"] [] [])) with
  | Return pages =>
      fst (process_pdf (collab := toy) corrupt (py "scan.pdf") quiet)
        = Return (success_record (py "scan.pdf") (pdf_data_of (py "scan.pdf") pages))
  | Raise e =>
      exists e0,
        fst (process_pdf (collab := toy) corrupt (py "scan.pdf") quiet)
          = Return (failure_record (py "scan.pdf") e0) /\
        e = Exn "Exception" (py "Error extracting text from PDF: " ++ exn_str e0)
  end.
Proof.
  refine (extract_text_from_pdf_agrees (collab := toy) corrupt (py "scan.pdf") quiet
            (tmp_path (py "k1") (py ".pdf"))
            (mkWorld {[ tmp_path (py "k1") (py ".pdf") := corrupt ]} [py "k2"; py "k3"] [] [])
            _).
  vm_compute. reflexivity.
Defined.

(** ** What the decoder returns *)

Section DecodeFacts.

Lemma scalar_spec c :
  scalar c = true <-> c < 0x110000 /\ (c < 0xd800 \/ 0xdfff < c).
Proof.
  unfold scalar, is_high_surrogate, is_low_surrogate.
  rewrite andb_true_iff, negb_true_iff, orb_false_iff, !andb_false_iff,
    N.ltb_lt, !N.leb_gt. lia.
Qed.

Lemma land_ones_lt x k : N.land x (N.ones k) < 2 ^ k.
Proof. rewrite N.land_ones. apply N.mod_lt. apply N.pow_nonzero. discriminate. Qed.

Lemma lor_shiftl a b k : b < 2 ^ k -> N.lor (N.shiftl a k) b = a * 2 ^ k + b.
Proof. intros H. rewrite N.shiftl_mul_pow2. now apply lor_high. Qed.

Lemma two_bytes b0 b1 :
  N.lor (N.shiftl (N.land b0 0x1f) 6) (N.land b1 0x3f) < 0x800.
Proof.
  pose proof (land_ones_lt b0 5) as H0. pose proof (land_ones_lt b1 6) as H1.
  change (N.ones 5) with 0x1f in H0. change (N.ones 6) with 0x3f in H1.
  rewrite lor_shiftl by exact H1. change (2 ^ 6) with 64 in *. change (2 ^ 5) with 32 in *. lia.
Qed.

Lemma three_bytes b0 b1 b2 :
  N.lor (N.shiftl (N.land b0 0x0f) 12)
    (N.lor (N.shiftl (N.land b1 0x3f) 6) (N.land b2 0x3f)) < 0x10000.
Proof.
  pose proof (land_ones_lt b0 4) as H0. pose proof (land_ones_lt b1 6) as H1.
  pose proof (land_ones_lt b2 6) as H2.
  change (N.ones 4) with 0x0f in H0. change (N.ones 6) with 0x3f in H1, H2.
  rewrite (lor_shiftl _ _ 6) by exact H2.
  change (2 ^ 6) with 64 in *. change (2 ^ 4) with 16 in *.
  rewrite lor_shiftl by (change (2 ^ 12) with 4096; lia).
  change (2 ^ 12) with 4096. lia.
Qed.

(** What [bytes.decode('utf-8')] returns holds scalar values only. *)
Lemma decode_scalar n : forall bs s,
  (length bs <= n)%nat -> PyStr.decode bs = Some s -> scalar_text s.
Proof.
  induction n as [|n IH]; intros bs s Hn.
  - destruct bs; [|cbn in Hn; lia]. intros [= <-]. constructor.
  - destruct bs as [|b0 r0]; [intros [= <-]; constructor|].
    cbn [length] in Hn. cbn [PyStr.decode].
    assert (Hcons : forall c r, (length r <= n)%nat -> scalar c = true ->
                      option_map (cons c) (PyStr.decode r) = Some s -> scalar_text s).
    { intros c r Hr Hc. destruct (PyStr.decode r) as [s'|] eqn:Ed; [|discriminate].
      intros [= <-]. constructor; [exact Hc|]. now apply (IH r). }
    destruct (N.ltb_spec b0 0x80) as [Hb|Hb].
    { apply Hcons; [lia|]. apply scalar_spec. lia. }
    destruct ((0xc2 <=? b0) && (b0 <=? 0xdf)).
    { destruct r0 as [|b1 r1]; [discriminate|].
      destruct (is_continuation b1); [|discriminate].
      apply Hcons; [cbn in Hn; lia|]. apply scalar_spec.
      pose proof (two_bytes b0 b1). lia. }
    destruct ((0xe0 <=? b0) && (b0 <=? 0xef)).
    { destruct r0 as [|b1 [|b2 r2]]; try discriminate. cbv zeta.
      destruct (is_continuation b1 && is_continuation b2 && _ && negb _) eqn:Hc; [|discriminate].
      apply andb_true_iff in Hc as [_ Hs]. apply negb_true_iff in Hs.
      apply Hcons; [cbn in Hn; lia|]. unfold scalar. rewrite Hs. cbn [negb].
      rewrite andb_true_r. apply N.ltb_lt. pose proof (three_bytes b0 b1 b2). lia. }
    destruct ((0xf0 <=? b0) && (b0 <=? 0xf4)); [|discriminate].
    destruct r0 as [|b1 [|b2 [|b3 r3]]]; try discriminate. cbv zeta.
    match goal with
    | |- context [option_map (cons ?c)] => set (c4 := c)
    end.
    destruct (is_continuation b1 && is_continuation b2 && is_continuation b3
              && (0x10000 <=? c4) && (c4 <? 0x110000)) eqn:Hc; [|discriminate].
    apply andb_true_iff in Hc as [Hc Hlt]. apply andb_true_iff in Hc as [_ Hge].
    apply Hcons; [cbn in Hn; lia|]. apply scalar_spec.
    apply N.ltb_lt in Hlt. apply N.leb_le in Hge. lia.
Qed.

End DecodeFacts.

Section ScanFacts.

Lemma hexval_lt c a : hexval c = Some a -> a < 16.
Proof.
  unfold hexval.
  destruct ((0x30 <=? c) && (c <=? 0x39)) eqn:E1.
  { apply andb_true_iff in E1 as [H1 H2]. apply N.leb_le in H1, H2. intros [= <-]. lia. }
  destruct ((0x61 <=? c) && (c <=? 0x66)) eqn:E2.
  { apply andb_true_iff in E2 as [H1 H2]. apply N.leb_le in H1, H2. intros [= <-]. lia. }
  destruct ((0x41 <=? c) && (c <=? 0x46)) eqn:E3; [|discriminate].
  apply andb_true_iff in E3 as [H1 H2]. apply N.leb_le in H1, H2. intros [= <-]. lia.
Qed.

Lemma decode_uXXXX_lt h1 h2 h3 h4 uni :
  decode_uXXXX h1 h2 h3 h4 = Some uni -> uni < 0x10000.
Proof.
  unfold decode_uXXXX.
  destruct (hexval h1) as [a|] eqn:Ha; [|discriminate].
  destruct (hexval h2) as [b|] eqn:Hb; [|discriminate].
  destruct (hexval h3) as [c|] eqn:Hc; [|discriminate].
  destruct (hexval h4) as [d|] eqn:Hd; [|discriminate].
  apply hexval_lt in Ha, Hb, Hc, Hd. intros [= <-]. lia.
Qed.

Lemma backslash_small esc ch : backslash esc = Some ch -> ch < 0x80.
Proof.
  unfold backslash.
  repeat match goal with
         | |- context [if ?b then _ else _] => destruct b; [intros [= <-]; lia|]
         end.
  discriminate.
Qed.

Lemma push_inv c r str rest :
  push c r = Some (str, rest) -> exists str', str = c :: str' /\ r = Some (str', rest).
Proof. destruct r as [[s t]|]; [|discriminate]. intros [= <- <-]. eauto. Qed.

Lemma low_is_surrogate c : is_low_surrogate c = true -> 0xdc00 <= c <= 0xdfff.
Proof.
  unfold is_low_surrogate. intros [H1 H2]%andb_true_iff. apply N.leb_le in H1, H2. lia.
Qed.

Lemma high_is_surrogate c : is_high_surrogate c = true -> 0xd800 <= c <= 0xdbff.
Proof.
  unfold is_high_surrogate. intros [H1 H2]%andb_true_iff. apply N.leb_le in H1, H2. lia.
Qed.

Lemma joined_bounds uni uni2 :
  is_high_surrogate uni = true -> is_low_surrogate uni2 = true ->
  0x10000 <= 0x10000 + N.lor (N.shiftl (uni - 0xd800) 10) (uni2 - 0xdc00) < 0x110000.
Proof.
  intros Hh%high_is_surrogate Hl%low_is_surrogate.
  rewrite lor_shiftl by (change (2 ^ 10) with 1024; lia). change (2 ^ 10) with 1024. lia.
Qed.

(** The first character [scanstring] returns is a low surrogate only when
    the text starts with the escape of one. *)
Lemma scanstring_head s c str rest :
  scalar_text s -> scanstring s = Some (c :: str, rest) ->
  is_low_surrogate c = true -> starts_low_escape s = true.
Proof.
  intros Hs H Hlow. apply low_is_surrogate in Hlow.
  destruct s as [|c0 r]; [discriminate|]. cbn [scanstring] in H.
  destruct (c0 =? 0x22); [discriminate|].
  destruct (N.eqb_spec c0 0x5c) as [->|Hc0].
  - destruct r as [|esc r1]; [discriminate|].
    destruct (N.eqb_spec esc 0x75) as [->|Hesc].
    + destruct r1 as [|h1 [|h2 [|h3 [|h4 r2]]]]; try discriminate.
      destruct (decode_uXXXX h1 h2 h3 h4) as [uni|] eqn:Hd; [|discriminate].
      assert (Hplain : push uni (scanstring r2) = Some (c :: str, rest) ->
                       starts_low_escape (0x5c :: 0x75 :: h1 :: h2 :: h3 :: h4 :: r2) = true).
      { intros (str' & [= <- <-] & _)%push_inv. cbn [starts_low_escape]. rewrite Hd.
        unfold is_low_surrogate. cbn [andb N.eqb Pos.eqb].
        apply andb_true_iff. split; apply N.leb_le; lia. }
      destruct (is_high_surrogate uni) eqn:Hh; [|now apply Hplain].
      apply high_is_surrogate in Hh.
      assert (Hno : push uni (scanstring r2) = Some (c :: str, rest) -> False).
      { intros (str' & [= <- <-] & _)%push_inv. lia. }
      destruct r2 as [|b [|u r3]]; try (now destruct (Hno H)).
      destruct ((b =? 0x5c) && (u =? 0x75)); [|now destruct (Hno H)].
      destruct r3 as [|g1 [|g2 [|g3 [|g4 r4]]]]; try discriminate.
      destruct (decode_uXXXX g1 g2 g3 g4) as [uni2|]; [|discriminate].
      destruct (is_low_surrogate uni2) eqn:Hl; [|now destruct (Hno H)].
      apply push_inv in H as (str' & [= Hc _] & _).
      pose proof (joined_bounds uni uni2) as Hj.
      unfold is_high_surrogate in Hj. rewrite Hl in Hj.
      destruct Hj; [apply andb_true_iff; split; apply N.leb_le; lia|reflexivity|lia].
    + destruct (backslash esc) as [ch|] eqn:Hb; [|discriminate].
      apply push_inv in H as (str' & [= <- <-] & _). apply backslash_small in Hb. lia.
  - destruct (c0 <? 0x20); [discriminate|].
    apply push_inv in H as (str' & [= <- <-] & _).
    inversion Hs as [|? ? Hc _]; subst. apply scalar_spec in Hc. lia.
Qed.

Lemma adjacent_cons c str :
  adjacent_surrogates str = false ->
  (is_high_surrogate c = true ->
   forall c' t, str = c' :: t -> is_low_surrogate c' = false) ->
  adjacent_surrogates (c :: str) = false.
Proof.
  intros Ha Hc. destruct str as [|c' t]; [reflexivity|].
  cbn [adjacent_surrogates] in *. rewrite Ha, orb_false_r.
  destruct (is_high_surrogate c); [|reflexivity].
  now rewrite (Hc eq_refl c' t eq_refl).
Qed.

Lemma scalar_text_tail c s : scalar_text (c :: s) -> scalar_text s.
Proof. now inversion 1. Qed.

(** A string scanned out of a text of scalar values is plain: an escaped
    high surrogate that the scanner leaves alone is not followed by a low
    one. *)
Lemma scanstring_plain n : forall s str rest,
  (length s <= n)%nat -> scalar_text s -> scanstring s = Some (str, rest) ->
  plain_text str /\ scalar_text rest.
Proof.
  induction n as [|n IH]; intros s str rest Hn Hs H;
    (destruct s as [|c0 r]; [discriminate|]); [cbn in Hn; lia|].
  cbn [length] in Hn. pose proof (scalar_text_tail _ _ Hs) as Hr.
  assert (Hpush : forall c t, (length t <= n)%nat -> scalar_text t -> c < 0x110000 ->
            (is_high_surrogate c = true -> starts_low_escape t = false) ->
            push c (scanstring t) = Some (str, rest) ->
            plain_text str /\ scalar_text rest).
  { intros c t Ht Hst Hc Hhigh (str' & -> & Hscan)%push_inv.
    destruct (IH _ _ _ Ht Hst Hscan) as ((Hcp & Hadj) & Hrest).
    split; [|exact Hrest]. split; [constructor; assumption|].
    apply adjacent_cons; [exact Hadj|]. intros Hh c' t' ->.
    destruct (is_low_surrogate c') eqn:Hl; [|reflexivity].
    rewrite (scanstring_head _ _ _ _ Hst Hscan Hl) in Hhigh. now discriminate Hhigh. }
  cbn [scanstring] in H.
  destruct (c0 =? 0x22).
  { injection H as <- <-. split; [split; [constructor|reflexivity]|exact Hr]. }
  destruct (N.eqb_spec c0 0x5c) as [->|Hc0].
  - destruct r as [|esc r1]; [discriminate|].
    pose proof (scalar_text_tail _ _ Hr) as Hr1.
    destruct (N.eqb_spec esc 0x75) as [->|Hesc].
    + destruct r1 as [|h1 [|h2 [|h3 [|h4 r2]]]]; try discriminate.
      assert (scalar_text r2) as Hr2 by (do 4 apply scalar_text_tail in Hr1; exact Hr1).
      assert (length r2 <= n)%nat as Hl2 by (cbn in Hn; lia).
      destruct (decode_uXXXX h1 h2 h3 h4) as [uni|] eqn:Hd; [|discriminate].
      pose proof (decode_uXXXX_lt _ _ _ _ _ Hd) as Huni.
      destruct (is_high_surrogate uni) eqn:Hh;
        [|apply (Hpush uni r2); [exact Hl2|exact Hr2|lia|congruence|exact H]].
      destruct r2 as [|b [|u r3]];
        [apply (Hpush uni []); [exact Hl2|exact Hr2|lia|reflexivity|exact H]
        |apply (Hpush uni [b]); [exact Hl2|exact Hr2|lia|reflexivity|exact H]|].
      destruct ((b =? 0x5c) && (u =? 0x75)) eqn:Hbu.
      2:{ apply (Hpush uni (b :: u :: r3)); [exact Hl2|exact Hr2|lia| |exact H].
          intros _. unfold starts_low_escape.
          destruct r3 as [|g1 [|g2 [|g3 [|g4 r4]]]]; try reflexivity. now rewrite Hbu. }
      destruct r3 as [|g1 [|g2 [|g3 [|g4 r4]]]]; try discriminate.
      destruct (decode_uXXXX g1 g2 g3 g4) as [uni2|] eqn:Hd2; [|discriminate].
      destruct (is_low_surrogate uni2) eqn:Hl.
      2:{ apply (Hpush uni (b :: u :: g1 :: g2 :: g3 :: g4 :: r4));
            [exact Hl2|exact Hr2|lia| |exact H].
          intros _. unfold starts_low_escape. now rewrite Hd2, Hl, andb_false_r. }
      pose proof (joined_bounds uni uni2 Hh Hl) as Hj.
      apply (Hpush (0x10000 + N.lor (N.shiftl (uni - 0xd800) 10) (uni2 - 0xdc00)) r4);
        [cbn in Hl2; lia| |lia| |exact H].
      * do 6 apply scalar_text_tail in Hr2. exact Hr2.
      * intros Hx%high_is_surrogate. lia.
    + destruct (backslash esc) as [ch|] eqn:Hb; [|discriminate].
      pose proof (backslash_small _ _ Hb).
      apply (Hpush ch r1); [cbn in Hn; lia|exact Hr1|lia| |exact H].
      intros Hx%high_is_surrogate. lia.
  - destruct (c0 <? 0x20); [discriminate|].
    inversion Hs as [|? ? Hc _]; subst. apply scalar_spec in Hc.
    apply (Hpush c0 r); [lia|exact Hr|lia| |exact H].
    intros Hx%high_is_surrogate. lia.
Qed.

End ScanFacts.

Section ParseFacts.

Lemma scalar_text_skip_ws s : scalar_text s -> scalar_text (skip_ws s).
Proof.
  induction s as [|c s IH]; intros H; [exact H|].
  cbn [skip_ws]. destruct (is_ws c); [|exact H]. apply IH. now inversion H.
Qed.

Lemma scalar_text_skipn k s : scalar_text s -> scalar_text (skipn k s).
Proof. apply Forall_drop. Qed.

Lemma span_digits_rest s : forall d rest,
  span_digits s = (d, rest) -> scalar_text s -> scalar_text rest.
Proof.
  induction s as [|c s IH]; intros d rest; cbn [span_digits].
  - now intros [= <- <-].
  - destruct (is_digit c); [|now intros [= <- <-]].
    destruct (span_digits s) as [d' rest'] eqn:E. intros [= <- <-] H.
    apply (IH d' rest' eq_refl). now inversion H.
Qed.

Lemma match_number_faithful s v rest :
  scalar_text s -> match_number s = Some (v, rest) -> faithful v /\ scalar_text rest.
Proof.
  intros Hs. unfold match_number.
  assert (exists neg s1, scalar_text s1 /\
            match s with
            | c :: r => if c =? 0x2d then (true, r) else (false, s)
            | [] => (false, s)
            end = (neg, s1)) as (neg & s1 & Hs1 & ->).
  { destruct s as [|c r]; [eauto|]. destruct (c =? 0x2d); eauto using scalar_text_tail. }
  destruct s1 as [|c r]; [discriminate|].
  destruct (negb (is_digit c)); [discriminate|].
  destruct (c =? 0x30).
  - destruct (float_tail r); [discriminate|]. intros [= <- <-].
    split; [constructor|eauto using scalar_text_tail].
  - destruct (span_digits (c :: r)) as [d rest'] eqn:E.
    destruct (float_tail rest'); [discriminate|]. intros [= <- <-].
    split; [constructor|now apply (span_digits_rest _ _ _ E)].
Qed.

Lemma scan_once_step f s :
  scan_once (S f) s =
  match s with
  | [] => None
  | c :: r =>
      if c =? 0x22 then
        match scanstring r with
        | Some (str, r') => Some (JStr str, r')
        | None => None
        end
      else if c =? 0x7b then
        match skip_ws r with
        | c1 :: r1 =>
            if c1 =? 0x7d then Some (JDict [], r1)
            else if c1 =? 0x22 then object_loop f r1 []
            else None
        | [] => None
        end
      else if c =? 0x5b then
        match skip_ws r with
        | c1 :: r1 =>
            if c1 =? 0x5d then Some (JList [], r1)
            else array_loop f (c1 :: r1) []
        | [] => None
        end
      else if startswith (py "null") s then Some (JNull, skipn 4 s)
      else if startswith (py "true") s then Some (JBool true, skipn 4 s)
      else if startswith (py "false") s then Some (JBool false, skipn 5 s)
      else match_number s
  end.
Proof. destruct s; reflexivity. Qed.

Lemma dict_set_keys k v d k' :
  k' ∈ map fst (dict_set k v d) -> k' = k \/ k' ∈ map fst d.
Proof.
  induction d as [|[k0 v0] d IH]; cbn [dict_set map fst].
  - intros [->|[]%elem_of_nil]%elem_of_cons. now left.
  - destruct (str_eqb k k0); cbn [map fst].
    + intros [->|H]%elem_of_cons; [now left|]. right. now apply elem_of_cons; right.
    + intros [->|H]%elem_of_cons; [right; now apply elem_of_cons; left|].
      destruct (IH H) as [->|H']; [now left|]. right. now apply elem_of_cons; right.
Qed.

Lemma dict_set_faithful (P : list N * value -> Prop) k v d :
  NoDup (map fst d) -> Forall P d -> P (k, v) ->
  NoDup (map fst (dict_set k v d)) /\ Forall P (dict_set k v d).
Proof.
  intros Hnd Hd Hkv. induction d as [|[k0 v0] d IH]; cbn [dict_set].
  - split; [cbn; apply NoDup_singleton|now constructor].
  - cbn [map fst] in Hnd. apply NoDup_cons in Hnd as [Hk0 Hnd].
    inversion Hd as [|? ? H0 Hd']; subst.
    unfold str_eqb. destruct (bool_decide_reflect (k = k0)) as [->|Hne].
    + split; [cbn [map fst]; now apply NoDup_cons|now constructor].
    + destruct (IH Hnd Hd') as (Hnd' & Hd''). split; [|now constructor].
      cbn [map fst]. apply NoDup_cons. split; [|exact Hnd'].
      intros [->|Hin]%dict_set_keys; [now apply Hne|now apply Hk0].
Qed.

Lemma dict_of_pairs_faithful (P : list N * value -> Prop) ps :
  Forall P ps ->
  NoDup (map fst (dict_of_pairs ps)) /\ Forall P (dict_of_pairs ps).
Proof.
  unfold dict_of_pairs.
  assert (forall acc, NoDup (map fst acc) -> Forall P acc -> Forall P ps ->
            NoDup (map fst (fold_left (fun d kv => dict_set (fst kv) (snd kv) d) ps acc)) /\
            Forall P (fold_left (fun d kv => dict_set (fst kv) (snd kv) d) ps acc)) as H.
  { induction ps as [|[k v] ps IH]; intros acc Hnd Hacc Hps; [now split|].
    inversion Hps as [|? ? Hkv Hps']; subst. cbn [fold_left fst snd].
    destruct (dict_set_faithful P k v acc Hnd Hacc Hkv) as (Hnd' & Hacc').
    now apply IH. }
  intros Hps. apply H; [apply NoDup_nil_2|constructor|exact Hps].
Qed.

(** A value parsed out of a text of scalar values is one the encoder and
    the decoder carry unchanged. *)
Lemma scan_faithful fuel :
  (forall s v rest, scalar_text s -> scan_once fuel s = Some (v, rest) ->
                    faithful v /\ scalar_text rest) /\
  (forall s acc v rest, scalar_text s -> Forall faithful acc ->
                        array_loop fuel s acc = Some (v, rest) ->
                        faithful v /\ scalar_text rest) /\
  (forall s acc v rest,
      scalar_text s -> Forall (fun kv => plain_text (fst kv) /\ faithful (snd kv)) acc ->
      object_loop fuel s acc = Some (v, rest) ->
      faithful v /\ scalar_text rest).
Proof.
  induction fuel as [|f (IHs & IHa & IHo)]; [repeat split; discriminate|].
  split; [|split].
  - intros s v rest Hs. rewrite scan_once_step.
    destruct s as [|c r]; [discriminate|]. pose proof (scalar_text_tail _ _ Hs) as Hr.
    destruct (c =? 0x22).
    { destruct (scanstring r) as [[str r']|] eqn:E; [|discriminate]. intros [= <- <-].
      destruct (scanstring_plain _ _ _ _ (le_n _) Hr E) as (Hp & Hrest).
      split; [now constructor|exact Hrest]. }
    destruct (c =? 0x7b).
    { pose proof (scalar_text_skip_ws _ Hr) as Hw.
      destruct (skip_ws r) as [|c1 r1]; [discriminate|].
      pose proof (scalar_text_tail _ _ Hw) as Hr1.
      destruct (c1 =? 0x7d);
        [intros [= <- <-]; split; [constructor; [apply NoDup_nil_2|constructor]|exact Hr1]|].
      destruct (c1 =? 0x22); [|discriminate]. now apply IHo. }
    destruct (c =? 0x5b).
    { pose proof (scalar_text_skip_ws _ Hr) as Hw.
      destruct (skip_ws r) as [|c1 r1]; [discriminate|].
      destruct (c1 =? 0x5d);
        [intros [= <- <-]; split; [constructor; constructor|eauto using scalar_text_tail]|].
      now apply IHa. }
    destruct (startswith (py "null") (c :: r));
      [intros [= <- <-]; split; [constructor|now apply scalar_text_skipn]|].
    destruct (startswith (py "true") (c :: r));
      [intros [= <- <-]; split; [constructor|now apply scalar_text_skipn]|].
    destruct (startswith (py "false") (c :: r));
      [intros [= <- <-]; split; [constructor|now apply scalar_text_skipn]|].
    now apply match_number_faithful.
  - intros s acc v rest Hs Hacc. rewrite array_loop_step.
    destruct (scan_once f s) as [[x r]|] eqn:E; [|discriminate].
    destruct (IHs _ _ _ Hs E) as (Hx & Hr).
    pose proof (scalar_text_skip_ws _ Hr) as Hw.
    destruct (skip_ws r) as [|c r']; [discriminate|].
    pose proof (scalar_text_tail _ _ Hw) as Hr'.
    destruct (c =? 0x5d).
    { intros [= <- <-]. split; [|exact Hr']. constructor.
      change (Forall faithful (rev (x :: acc))). apply Forall_rev. now constructor. }
    destruct (c =? 0x2c); [|discriminate].
    apply IHa; [now apply scalar_text_skip_ws|now constructor].
  - intros s acc v rest Hs Hacc. rewrite object_loop_step.
    destruct (scanstring s) as [[key r]|] eqn:E; [|discriminate].
    destruct (scanstring_plain _ _ _ _ (le_n _) Hs E) as (Hkey & Hr).
    pose proof (scalar_text_skip_ws _ Hr) as Hw.
    destruct (skip_ws r) as [|c r1]; [discriminate|].
    pose proof (scalar_text_tail _ _ Hw) as Hr1.
    destruct (c =? 0x3a); [|discriminate].
    destruct (scan_once f (skip_ws r1)) as [[x r2]|] eqn:Ex; [|discriminate].
    destruct (IHs _ _ _ (scalar_text_skip_ws _ Hr1) Ex) as (Hx & Hr2).
    pose proof (scalar_text_skip_ws _ Hr2) as Hw2.
    destruct (skip_ws r2) as [|c2 r3]; [discriminate|].
    pose proof (scalar_text_tail _ _ Hw2) as Hr3.
    destruct (c2 =? 0x7d).
    { intros [= <- <-]. split; [|exact Hr3].
      destruct (dict_of_pairs_faithful
                  (fun kv => plain_text (fst kv) /\ faithful (snd kv))
                  (rev ((key, x) :: acc))) as (Hnd & Hall).
      { apply Forall_rev. now constructor. }
      now constructor. }
    destruct (c2 =? 0x2c); [|discriminate].
    pose proof (scalar_text_skip_ws _ Hr3) as Hw3.
    destruct (skip_ws r3) as [|c3 r4]; [discriminate|].
    destruct (c3 =? 0x22); [|discriminate].
    apply IHo; [eauto using scalar_text_tail|now constructor].
Qed.

Lemma loads_faithful s v : scalar_text s -> Json.loads s = Some v -> faithful v.
Proof.
  intros Hs. unfold Json.loads.
  destruct (scan_once (S (length s)) (skip_ws s)) as [[x r]|] eqn:E; [|discriminate].
  destruct (proj1 (scan_faithful _) _ _ _ (scalar_text_skip_ws _ Hs) E) as (Hx & _).
  destruct (skip_ws r); [|discriminate]. now intros [= <-].
Qed.

End ParseFacts.

(** ** Round trips through the handler *)

Section RoundTrip.

Context {collab : Collaborators}.

Lemma faithful_dict_get kvs k v :
  faithful (JDict kvs) -> dict_get kvs k = Some v -> faithful v.
Proof.
  intros Hf. inversion Hf as [| | | | |? _ Hall]; subst. clear Hf.
  induction Hall as [|[k0 v0] kvs [_ H0] _ IH]; [discriminate|].
  cbn [dict_get]. destruct (str_eqb k0 k); [now intros [= <-]|exact IH].
Qed.

Lemma faithful_getitem item k v :
  faithful item -> py_getitem item k = Return v -> faithful v.
Proof.
  destruct item as [| | | | |kvs]; try discriminate. cbn [py_getitem]. intros Hf.
  destruct (dict_get kvs k) as [x|] eqn:E; [|discriminate]. intros [= <-].
  now apply (faithful_dict_get kvs k).
Qed.

Lemma payload_faithful req payload : json_payload req payload -> faithful payload.
Proof.
  intros (_ & _ & length & post_data & _ & Hdec & Hload & _).
  destruct (rfile_read req length) as [body|e]; [|discriminate].
  cbn [bind_outcome] in Hdec. unfold bytes_decode in Hdec. unfold json_loads in Hload.
  destruct (PyStr.decode body) as [s|] eqn:Ed; [|discriminate].
  injection Hdec as ->.
  destruct (Json.loads post_data) as [v|] eqn:El; [|discriminate]. injection Hload as ->.
  apply (loads_faithful post_data); [|exact El].
  now apply (decode_scalar _ _ _ (le_n _) Ed).
Qed.

(** X18. Whatever JSON without floats, within the limits of the
    interpreter, a client posts for [download_all], the archive gives it
    back: every member parses to the [data] of its entry exactly as the
    handler parsed it from the body of the request.  No condition on the
    strings is needed here: they come from the decoder, which has joined
    every surrogate pair already. *)
Theorem download_all_round_trip req payload items z :
  json_payload req payload ->
  py_get payload (py "json_data") (JList []) = Return (JList items) ->
  create_zip_package (JList items) = Return z ->
  Forall2 returns_data (filter packaged items) z.
Proof.
  intros Hreq Hget Hzip. pose proof (payload_faithful _ _ Hreq) as Hf.
  assert (Forall faithful items) as Hitems.
  { destruct payload as [| | | | |kvs]; try discriminate. cbn [py_get] in Hget.
    destruct (dict_get kvs (py "json_data")) as [l|] eqn:E.
    - injection Hget as ->. pose proof (faithful_dict_get _ _ _ Hf E) as Hl.
      now inversion Hl.
    - injection Hget as <-. constructor. }
  destruct (zip_items_data items [] z Hzip) as (ms & -> & HF). cbn [app].
  assert (Forall faithful (filter packaged items)) as Hkept.
  { apply Forall_forall. intros x [_ Hin]%list_elem_of_filter.
    rewrite Forall_forall in Hitems. now apply Hitems. }
  clear Hzip Hitems. induction HF as [|item m its ms (data & Hd & _ & Hm) _ IH];
    [constructor|].
  inversion Hkept as [|? ? Hitem Hrest]; subst.
  constructor; [|now apply IH]. exists data. split; [exact Hd|]. rewrite Hm.
  apply member_decodes. now apply (faithful_getitem item (py "data")).
Qed.

End RoundTrip.

Lemma download_all_round_trip_witness :
  Forall2 returns_data
    (filter packaged
       [JDict [(py "filename", JStr (py "report.pdf"));
               (py "data", JDict [(py "title", JStr [0x1f600; 0xe9]);
                                  (py "total_pages", JInt 2)])];
        JDict [(py "filename", JStr (py "lost.pdf"))]])
    [mkMember (py "report.json") true
       (dumps (Some 2%nat)
          (JDict [(py "title", JStr [0x1f600; 0xe9]); (py "total_pages", JInt 2)]))].
Proof.
  refine (download_all_round_trip (collab := toy_json) (post_json download_two)
            download_two _ _ _ _ _).
  - reaches_json_branch.
  - reflexivity.
  - vm_compute. reflexivity.
Defined.

Section ShapeFacts.

Lemma strings_of_dict kvs :
  strings_of (JDict kvs) = flat_map (fun kv => fst kv :: strings_of (snd kv)) kvs.
Proof. induction kvs as [|kv kvs IH]; [reflexivity|]. cbn in *. now rewrite IH. Qed.

Lemma faithful_of_well_keyed v :
  well_keyed v -> Forall plain_text (strings_of v) -> faithful v.
Proof.
  induction v as [|b|n|s|xs IH|kvs IH] using value_nested_ind; intros Hw Hs.
  - constructor.
  - constructor.
  - constructor.
  - constructor. now inversion Hs.
  - inversion Hw as [| | | |? Hxs|]; subst. rewrite strings_of_list in Hs.
    constructor. clear Hw.
    induction IH as [|x xs Hx _ IHxs]; [constructor|].
    cbn [flat_map] in Hs. apply Forall_app in Hs as [Hs1 Hs2].
    inversion Hxs; subst. constructor; [now apply Hx|now apply IHxs].
  - inversion Hw as [| | | | |? Hnd Hkvs]; subst. rewrite strings_of_dict in Hs.
    constructor; [exact Hnd|]. clear Hw Hnd.
    induction IH as [|[k x] kvs Hx _ IHkvs]; [constructor|].
    cbn [flat_map fst snd] in Hs. inversion Hs as [|? ? Hk Hs']; subst.
    apply Forall_app in Hs' as [Hs1 Hs2]. inversion Hkvs; subst.
    constructor; [split; [exact Hk|now apply Hx]|now apply IHkvs].
Qed.

Context {collab : Collaborators}.

Ltac literal_keys := apply (bool_decide_unpack _); vm_compute; reflexivity.

Lemma well_keyed_page_record i text : well_keyed (page_record i text).
Proof.
  unfold page_record. constructor; [literal_keys|].
  constructor; [constructor|]. constructor; [destruct text; constructor|].
  constructor; [constructor|]. constructor; [constructor|constructor].
Qed.

Lemma well_keyed_pages pdf : forall i acc pages,
  Forall well_keyed acc -> extract_pages i pdf acc = Return pages -> Forall well_keyed pages.
Proof.
  induction pdf as [|page pdf IH]; intros i acc pages Hacc; cbn [extract_pages].
  - now intros [= <-].
  - destruct (extract_text page) as [text|e]; [|discriminate]. cbn [bind_outcome].
    apply IH. apply Forall_app. split; [exact Hacc|].
    constructor; [apply well_keyed_page_record|constructor].
Qed.

Lemma well_keyed_failure filename e : well_keyed (failure_record filename e).
Proof.
  unfold failure_record. constructor; [literal_keys|].
  constructor; [constructor|]. constructor; [constructor|].
  constructor; [constructor|constructor].
Qed.

Lemma well_keyed_success filename pages :
  Forall well_keyed pages -> well_keyed (success_record filename (pdf_data_of filename pages)).
Proof.
  intros H. unfold success_record, pdf_data_of. constructor; [literal_keys|].
  constructor; [constructor|]. constructor; [constructor|].
  constructor; [|constructor]. cbn [snd]. constructor; [literal_keys|].
  constructor; [constructor|]. constructor; [constructor|].
  constructor; [now constructor|constructor].
Qed.

Lemma process_pdf_well_keyed file_data filename w v w' :
  process_pdf file_data filename w = (Return v, w') -> well_keyed v.
Proof.
  intros H. destruct (bind_inv_return _ _ _ _ _ H) as (path & w1 & Htmp & _).
  pose proof (process_pdf_result file_data filename w path w1 Htmp) as Hr.
  rewrite H in Hr. cbn [fst] in Hr.
  unfold convert_temp_pdf, bind, lift, ret in Hr.
  destruct (PdfReader path w1) as [[pdf|e] w2]; cbn [fst] in Hr;
    [|injection Hr as ->; apply well_keyed_failure].
  destruct (extract_pages 0 pdf []) as [pages|e] eqn:Hx; cbn [fst] in Hr;
    injection Hr as ->; [|apply well_keyed_failure].
  apply well_keyed_success. apply (well_keyed_pages _ _ _ _ (List.Forall_nil _) Hx).
Qed.

Lemma convert_files_well_keyed files_ : forall results w rs w',
  Forall well_keyed results ->
  convert_files files_ results w = (Return rs, w') -> Forall well_keyed rs.
Proof.
  induction files_ as [|item rest IH]; intros results w rs w' Hres.
  - now intros [= <- _].
  - destruct (truthy (filename item)) eqn:Ht;
      [|rewrite (convert_files_skip _ _ _ _ Ht); now apply IH].
    destruct (file item) as [data|] eqn:Hdata;
      [|now rewrite (convert_files_unreadable _ _ _ _ Ht Hdata)].
    destruct (filename item) as [name|] eqn:Hn; [|discriminate].
    destruct (process_pdf data name w) as [[v|e] w1] eqn:Hp.
    + rewrite (convert_files_return _ _ _ _ _ _ _ _ Hn Ht Hdata Hp). apply IH.
      apply Forall_app. split; [exact Hres|].
      constructor; [apply (process_pdf_well_keyed _ _ _ _ _ Hp)|constructor].
    + rewrite (convert_files_raise _ _ _ _ _ _ _ _ Hn Ht Hdata Hp). apply IH.
      apply Forall_app. split; [exact Hres|].
      constructor; [apply well_keyed_failure|constructor].
Qed.

(** X19. The body of the answer to an upload parses back to the array of
    records the handler built, whatever failed on the way, when the strings
    in them (file names, page texts, error messages) are plain text. *)
Theorem upload_answer_parses req w w' :
  path req = py "/convert" ->
  parse_content_type req = Return (py "multipart/form-data") ->
  do_POST req w = (Return tt, w') ->
  exists results,
    wfile w' = wfile w ++ json_answer (dumps None (JList results)) /\
    (Forall plain_text (strings_of (JList results)) ->
     bind_outcome (bytes_decode (dumps None (JList results))) json_loads
       = Return (JList results)).
Proof.
  intros Hpath Hct. rewrite (do_POST_convert _ _ Hpath). unfold bind at 1, lift.
  rewrite Hct.
  replace (str_eqb (py "multipart/form-data") (py "multipart/form-data")) with true
    by reflexivity.
  unfold do_POST_multipart. unfold bind at 1, lift.
  destruct (cgi_FieldStorage req) as [form|e]; [|discriminate].
  assert (Hparse : forall results, Forall well_keyed results ->
            Forall plain_text (strings_of (JList results)) ->
            bind_outcome (bytes_decode (dumps None (JList results))) json_loads
              = Return (JList results)).
  { intros results Hwk Hplain. unfold bytes_decode, dumps.
    rewrite (decode_ascii _ (iterencode_ascii _ _ 0)). cbn [bind_outcome].
    unfold json_loads. fold (dumps None (JList results)).
    rewrite loads_dumps; [reflexivity|].
    apply faithful_of_well_keyed; [now constructor|exact Hplain]. }
  destruct (existsb is_files_field form).
  - pose proof (silent_convert_files (filter is_files_field form) [] w) as Hw.
    destruct (convert_files (filter is_files_field form) [] w) as [[rs|e] w1] eqn:Hrun;
      cbn [snd] in Hw; unfold bind at 1; rewrite Hrun; [|discriminate].
    rewrite send_json_answer.
    intros [= <-]. exists rs.
    cbn [wfile]. rewrite Hw. split; [reflexivity|].
    apply Hparse. apply (convert_files_well_keyed _ _ _ _ _ (List.Forall_nil _) Hrun).
  - unfold bind at 1, ret. rewrite send_json_answer. intros [= <-]. exists [].
    split; [reflexivity|]. apply Hparse. constructor.
Qed.

End ShapeFacts.

Lemma upload_answer_parses_witness :
  exists results,
    wfile (snd (do_POST (collab := toy) batch_of_three quiet))
      = wfile quiet ++ json_answer (dumps None (JList results)) /\
    (Forall plain_text (strings_of (JList results)) ->
     bind_outcome (bytes_decode (dumps None (JList results))) json_loads
       = Return (JList results)).
Proof.
  refine (upload_answer_parses (collab := toy) batch_of_three quiet _ _ _ _).
  - reflexivity.
  - reflexivity.
  - vm_compute. reflexivity.
Defined.

(** ** The file name, and a body that is missing *)

Section LabelFacts.

Context {collab : Collaborators}.

(** X20. The file name is a label and nothing else: two conversions of the
    same bytes under different names leave the same world, fail together,
    and return records that differ in the name only: the same pages, or
    the same message.  The name never reaches the file system. *)
Theorem process_pdf_filename_is_a_label file_data name1 name2 w :
  snd (process_pdf file_data name1 w) = snd (process_pdf file_data name2 w) /\
  match fst (process_pdf file_data name1 w) with
  | Raise e => fst (process_pdf file_data name2 w) = Raise e
  | Return r =>
      (exists pages,
          r = success_record name1 (pdf_data_of name1 pages) /\
          fst (process_pdf file_data name2 w)
            = Return (success_record name2 (pdf_data_of name2 pages)))
      \/ (exists e,
             r = failure_record name1 e /\
             fst (process_pdf file_data name2 w) = Return (failure_record name2 e))
  end.
Proof.
  unfold process_pdf, bind.
  destruct (make_temp_pdf file_data w) as [[path|e] w1]; [|split; reflexivity].
  unfold try_finally, try_except, convert_temp_pdf, bind, lift, ret.
  destruct (PdfReader path w1) as [[pdf|e] w2].
  - destruct (extract_pages 0 pdf []) as [pages|e];
      destruct (cleanup path w2) as [[[]|e'] w3]; cbn [fst snd]; split; eauto.
  - destruct (cleanup path w2) as [[[]|e'] w3]; cbn [fst snd]; split; eauto.
Qed.

(** X21. A JSON POST without a body is not answered: a missing
    Content-Length raises [TypeError] at [int(None)], and a Content-Length
    of zero makes [json.loads] raise on the empty text; in both cases
    nothing has been sent. *)
Theorem json_post_without_body req w :
  path req = py "/convert" ->
  parse_content_type req = Return (py "application/json") ->
  (content_length req = None ->
   exists e, do_POST req w = (Raise e, w) /\ exn_class e = "TypeError"%string) /\
  (int_of_header (content_length req) = Return 0%Z ->
   exists e, do_POST req w = (Raise e, w) /\ exn_class e = "JSONDecodeError"%string).
Proof.
  intros Hp Hct.
  assert (do_POST req w = do_POST_json req w) as ->.
  { rewrite (do_POST_convert _ _ Hp). unfold bind at 1, lift. rewrite Hct. reflexivity. }
  unfold do_POST_json. split; intros H.
  - unfold bind at 1, lift. rewrite H. cbn [int_of_header]. eexists; split; reflexivity.
  - unfold bind at 1, lift. rewrite H. unfold bind at 1.
    unfold rfile_read. cbn. eexists; split; reflexivity.
Qed.

End LabelFacts.

Lemma json_post_without_body_witness :
  (exists e,
     do_POST (collab := toy_json)
       (mkRequest (py "POST") (py "/convert") (Some (py "application/json")) None (py "{}"))
       quiet = (Raise e, quiet) /\ exn_class e = "TypeError"%string) /\
  (exists e,
     do_POST (collab := toy_json)
       (mkRequest (py "POST") (py "/convert") (Some (py "application/json"))
          (Some (py "0")) (py "{}"))
       quiet = (Raise e, quiet) /\ exn_class e = "JSONDecodeError"%string).
Proof.
  split.
  - refine (proj1 (json_post_without_body (collab := toy_json)
                     (mkRequest (py "POST") (py "/convert") (Some (py "application/json"))
                        None (py "{}")) quiet _ _) _); reflexivity.
  - refine (proj2 (json_post_without_body (collab := toy_json)
                     (mkRequest (py "POST") (py "/convert") (Some (py "application/json"))
                        (Some (py "0")) (py "{}")) quiet _ _) _);
      [reflexivity|reflexivity|vm_compute; reflexivity].
Defined.

Lemma process_pdf_filename_is_a_label_witness :
  snd (process_pdf (collab := toy) two_pages (py "report.pdf") quiet)
    = snd (process_pdf (collab := toy) two_pages (py "../../etc/passwd") quiet).
Proof.
  exact (proj1 (process_pdf_filename_is_a_label (collab := toy) two_pages
                  (py "report.pdf") (py "../../etc/passwd") quiet)).
Defined.
